(** * Real-time room messaging: the WebSocket broker of comm4

    A shallow embedding of the two implementations of the chat transport:

    - [Server]: the standalone [ws] server, [server/websocket/server.ts]
      (class [WebSocketChatServer]) together with the [RateLimiter] of
      [lib/security/validation.ts] that guards its frames;
    - [Route]: the HTTP-route stub, [app/api/ws/route.ts], with its module
      level maps, its typing timers and its in-memory room history.

    Conventions of the embedding.

    - A JavaScript [Map] or [Set] iterates in insertion order, and both
      implementations fan out with [forEach]; maps are therefore association
      lists kept in insertion order ([OMap]) and sets are duplicate-free lists
      in insertion order ([OSet]).
    - Objects stored in a map are mutated in place by the handlers; the
      embedding rewrites the entry of the map ([OMap.alter]).
    - [Date.now()] and [uuidv4()] are inputs of a handler ([now], [fresh]).
    - A handler is a function from the state to the new state and the list
      of frames written to the transports, in the order they are written.
    - A transport is reduced to its [readyState === OPEN] bit. *)

From Stdlib Require Import List String Ascii ZArith NArith Bool Arith Lia.
Import ListNotations.

Local Open Scope string_scope.
Local Open Scope list_scope.
Local Open Scope Z_scope.

Set Implicit Arguments.

(** ** Insertion-ordered maps with string keys (JavaScript [Map]) *)

Module OMap.
Section Defs.
Variable V : Type.

Definition t := list (string * V).

Fixpoint get (k : string) (m : t) : option V :=
    match m with
    | [] => None
    | (k', v) :: m' => if String.eqb k k' then Some v else get k m'
    end.

Definition has (k : string) (m : t) : bool :=
    match get k m with Some _ => true | None => false end.

  (** [Map.prototype.set]: an existing key keeps its position. *)
Fixpoint set (k : string) (v : V) (m : t) : t :=
    match m with
    | [] => [(k, v)]
    | (k', v') :: m' =>
        if String.eqb k k' then (k, v) :: m' else (k', v') :: set k v m'
    end.

Definition delete (k : string) (m : t) : t :=
    filter (fun kv => negb (String.eqb k (fst kv))) m.

  (** In-place mutation of the object stored under [k]. *)
Fixpoint alter (f : V -> V) (k : string) (m : t) : t :=
    match m with
    | [] => []
    | (k', v) :: m' =>
        if String.eqb k k' then (k', f v) :: m' else (k', v) :: alter f k m'
    end.

Definition keys (m : t) : list string := map fst m.
End Defs.
End OMap.

Unset Implicit Arguments.

(** ** Insertion-ordered sets of strings (JavaScript [Set]) *)

Module OSet.
Definition t := list string.

Definition has (x : string) (s : t) : bool := existsb (String.eqb x) s.

Definition add (x : string) (s : t) : t := if has x s then s else s ++ [x].

Definition delete (x : string) (s : t) : t :=
    filter (fun y => negb (String.eqb x y)) s.

Definition size (s : t) : nat := List.length s.
End OSet.

(** ** JavaScript strings whose length matters

    Message content is measured with [.length] and cut with [.trim()], so it
    is kept as its sequence of UTF-16 code units. *)

Definition ustring := list N.

(** WhiteSpace and LineTerminator code points of ECMAScript, the ones
    [String.prototype.trim] removes. *)
Definition isWhiteSpace (c : N) : bool :=
  ((c =? 9) || (c =? 10) || (c =? 11) || (c =? 12) || (c =? 13) || (c =? 32)
   || (c =? 160) || (c =? 5760) || ((8192 <=? c) && (c <=? 8202))
   || (c =? 8232) || (c =? 8233) || (c =? 8239) || (c =? 8287)
   || (c =? 12288) || (c =? 65279))%N.

Fixpoint trimStart (s : ustring) : ustring :=
  match s with
  | [] => []
  | c :: s' => if isWhiteSpace c then trimStart s' else s
  end.

Definition trimEnd (s : ustring) : ustring := rev (trimStart (rev s)).

Definition trim (s : ustring) : ustring := trimEnd (trimStart s).

(** Truthiness of an optional string: [undefined] and [''] are falsy. *)
Definition truthy (o : option string) : bool :=
  match o with
  | Some s => negb (String.eqb s "")
  | None => false
  end.

Definition truthyU (o : option ustring) : bool :=
  match o with
  | Some (_ :: _) => true
  | _ => false
  end.

(** [a || b] on an optional string with a default. *)
Definition orElse (o : option string) (d : string) : string :=
  if truthy o then match o with Some s => s | None => d end else d.

(** ** Rate limiter ([lib/security/validation.ts]) *)

Module RateLimiter.

Record t := mk {
    maxAttempts : nat;
    windowMs : Z;
    attempts : OMap.t (list Z)
  }.

(** [now] and the stored timestamps are values of [Date.now()], integers
    below [2 ^ 53], so a double holds their difference exactly. *)
Definition validAttempts (now : Z) (identifier : string) (l : t) : list Z :=
    let userAttempts :=
      match OMap.get identifier (attempts l) with
      | Some a => a
      | None => []
      end in
    filter (fun timestamp => now - timestamp <? windowMs l) userAttempts.

  (** [isAllowed]: the verdict and the limiter after the call. A refusal
      returns before anything is stored. *)
Definition isAllowed (now : Z) (identifier : string) (l : t) : bool * t :=
    let valid := validAttempts now identifier l in
    if (maxAttempts l <=? List.length valid)%nat then (false, l)
    else (true, mk (maxAttempts l) (windowMs l)
                   (OMap.set identifier (valid ++ [now]) (attempts l))).

  (** [new RateLimiter(10, 60 * 1000)] *)
Definition messageRateLimiter : t := mk 10 (60 * 1000) [].

(** [Math.min(...userAttempts)] on a list that is not empty. *)
Definition oldest (t0 : Z) (rest : list Z) : Z := fold_left Z.min rest t0.

(** Numbers are IEEE doubles. On integers, the sum or the difference the
    code computes is the exact one rounded to 53 significant bits, ties to
    even: exact up to [2 ^ 53] in absolute value, rounded beyond (the sums
    here stay far below the largest double). *)
Definition double (x : Z) : Z :=
  if Z.abs x <=? 2 ^ 53 then x
  else
    let e := Z.log2 (Z.abs x) - 52 in
    let q := Z.abs x / 2 ^ e in
    let r := Z.abs x mod 2 ^ e in
    let q' :=
      if 2 * r <? 2 ^ e then q
      else if 2 ^ e <? 2 * r then q + 1
      else if Z.even q then q else q + 1 in
    Z.sgn x * (q' * 2 ^ e).

Definition getRemainingTime (now : Z) (identifier : string) (l : t) : Z :=
  let userAttempts :=
    match OMap.get identifier (attempts l) with
    | Some a => a
    | None => []
    end in
  match userAttempts with
  | [] => 0
  | t0 :: rest =>
      let oldestAttempt := oldest t0 rest in
      let resetTime := double (oldestAttempt + windowMs l) in
      Z.max 0 (double (resetTime - now))
  end.

Definition reset (identifier : string) (l : t) : t :=
  mk (maxAttempts l) (windowMs l) (OMap.delete identifier (attempts l)).

End RateLimiter.


(** ** The standalone server ([server/websocket/server.ts]) *)

Module Server.

(** [interface ClientConnection]; [ws] is kept as its [OPEN] bit. *)
Module ClientConnection.
Record t := mk {
  id : string;
  ws : bool;
  userId : option string;
  username : option string;
  roomId : option string;
  lastPing : Z;
  isAlive : bool
}.
End ClientConnection.

(** [interface Room] *)
Module Room.
Record t := mk {
  id : string;
  clients : OSet.t;
  createdAt : Z;
  lastActivity : Z
}.
End Room.

(** The [data] object of an inbound frame, with the fields the handlers
    read. *)
Module Data.
Record t := mk {
  content : option ustring;
  type : option string;
  encrypted : option bool;
  typing : option bool
}.
End Data.

(** [interface WebSocketMessage] *)
Module WebSocketMessage.
Record t := mk {
  type : option string;
  roomId : option string;
  userId : option string;
  username : option string;
  data : option Data.t;
  id : option string
}.
End WebSocketMessage.

(** What [JSON.parse(rawData.toString())] makes of a frame: it throws (or
    yields [null], on which reading [.type] throws inside the same [try]),
    or it yields an object. *)
Inductive RawData :=
| Unparsable
| Parsed (message : WebSocketMessage.t).

Record Participant := mkParticipant {
  p_id : string;
  p_username : string;
  p_isOnline : bool
}.

Record ChatData := mkChatData {
  cd_id : string;
  cd_content : ustring;
  cd_senderId : option string;
  cd_senderName : option string;
  cd_type : string;
  cd_encrypted : bool
}.

(** Frames written to a transport. [ws_ping] is the protocol-level ping of
    the heartbeat. *)
Inductive Frame :=
| connection (clientId : string) (timestamp : Z)
| error (message : string)
| user_joined (roomId userId username : string) (timestamp : Z)
| room_joined (roomId : string) (participants : list Participant)
| message (roomId : string) (userId username : option string)
    (data : ChatData) (timestamp : Z)
| typing (roomId : string) (userId username : option string)
    (isTyping : bool) (timestamp : Z)
| user_left (roomId userId username : string) (timestamp : Z)
| pong (timestamp : Z)
| ws_ping.

(** One write: the receiving client and the frame. *)
Definition Send := (string * Frame)%type.

(** The fields of [WebSocketChatServer] and the module-level limiter. *)
Record State := mkState {
  clients : OMap.t ClientConnection.t;
  rooms : OMap.t Room.t;
  messageRateLimiter : RateLimiter.t
}.

Definition Handler := State -> State * list Send.

Definition withClients (f : OMap.t ClientConnection.t -> OMap.t ClientConnection.t)
  (s : State) : State :=
  mkState (f (clients s)) (rooms s) (messageRateLimiter s).

Definition withRooms (f : OMap.t Room.t -> OMap.t Room.t) (s : State) : State :=
  mkState (clients s) (f (rooms s)) (messageRateLimiter s).

Definition silent (s : State) : State * list Send := (s, []).

(** Sequencing of two handlers: the writes are concatenated. *)
Definition andThen (f g : Handler) : Handler :=
  fun s => let (s1, o1) := f s in let (s2, o2) := g s1 in (s2, o1 ++ o2).

Notation "f ;; g" := (andThen f g) (at level 61, right associativity).

Definition sendToClient (clientId : string) (msg : Frame) : Handler :=
  fun s =>
    match OMap.get clientId (clients s) with
    | Some client =>
        if ClientConnection.ws client then (s, [(clientId, msg)]) else (s, [])
    | None => (s, [])
    end.

(** [clientId !== excludeClientId], the exclusion being optional. *)
Definition excluded (clientId : string) (excludeClientId : option string) : bool :=
  match excludeClientId with
  | Some e => String.eqb clientId e
  | None => false
  end.

Fixpoint forEach (ids : list string) (f : string -> Handler) : Handler :=
  match ids with
  | [] => silent
  | clientId :: rest => f clientId ;; forEach rest f
  end.

Definition broadcastToRoom (roomId : string) (msg : Frame)
  (excludeClientId : option string) : Handler :=
  fun s =>
    match OMap.get roomId (rooms s) with
    | None => (s, [])
    | Some room =>
        forEach (Room.clients room)
          (fun clientId =>
             if excluded clientId excludeClientId then silent
             else sendToClient clientId msg) s
    end.

Definition getRoomParticipants (roomId : string) (s : State) : list Participant :=
  match OMap.get roomId (rooms s) with
  | None => []
  | Some room =>
      flat_map
        (fun clientId =>
           match OMap.get clientId (clients s) with
           | Some client =>
               if truthy (ClientConnection.userId client)
                  && truthy (ClientConnection.username client)
               then [mkParticipant (orElse (ClientConnection.userId client) "")
                       (orElse (ClientConnection.username client) "") true]
               else []
           | None => []
           end)
        (Room.clients room)
  end.

Definition setRoomId (r : option string) (c : ClientConnection.t) : ClientConnection.t :=
  ClientConnection.mk (ClientConnection.id c) (ClientConnection.ws c)
    (ClientConnection.userId c) (ClientConnection.username c) r
    (ClientConnection.lastPing c) (ClientConnection.isAlive c).

Definition setIdentity (u n r : option string) (c : ClientConnection.t)
  : ClientConnection.t :=
  ClientConnection.mk (ClientConnection.id c) (ClientConnection.ws c) u n r
    (ClientConnection.lastPing c) (ClientConnection.isAlive c).

Definition setLiveness (t : Z) (alive : bool) (c : ClientConnection.t)
  : ClientConnection.t :=
  ClientConnection.mk (ClientConnection.id c) (ClientConnection.ws c)
    (ClientConnection.userId c) (ClientConnection.username c)
    (ClientConnection.roomId c) t alive.

Definition setAlive (alive : bool) (c : ClientConnection.t) : ClientConnection.t :=
  setLiveness (ClientConnection.lastPing c) alive c.

Definition setWs (open : bool) (c : ClientConnection.t) : ClientConnection.t :=
  ClientConnection.mk (ClientConnection.id c) open
    (ClientConnection.userId c) (ClientConnection.username c)
    (ClientConnection.roomId c) (ClientConnection.lastPing c)
    (ClientConnection.isAlive c).

Definition setRoomClients (cs : OSet.t) (r : Room.t) : Room.t :=
  Room.mk (Room.id r) cs (Room.createdAt r) (Room.lastActivity r).

Definition setLastActivity (t : Z) (r : Room.t) : Room.t :=
  Room.mk (Room.id r) (Room.clients r) (Room.createdAt r) t.

Definition leaveRoom (now : Z) (clientId roomId : string) : Handler :=
  fun s =>
    match OMap.get clientId (clients s), OMap.get roomId (rooms s) with
    | Some client, Some room =>
        let left := OSet.delete clientId (Room.clients room) in
        ((fun s => silent (withRooms (OMap.alter (setRoomClients left) roomId) s)) ;;
         (if truthy (ClientConnection.userId client)
             && truthy (ClientConnection.username client)
          then broadcastToRoom roomId
                 (user_left roomId (orElse (ClientConnection.userId client) "")
                    (orElse (ClientConnection.username client) "") now)
                 (Some clientId)
          else silent) ;;
         (fun s =>
            silent (if (OSet.size left =? 0)%nat
                    then withRooms (OMap.delete roomId) s else s)) ;;
         (fun s => silent (withClients (OMap.alter (setRoomId None) clientId) s))) s
    | _, _ => (s, [])
    end.

Definition handleJoinRoom (now : Z) (clientId : string) (msg : WebSocketMessage.t)
  : Handler :=
  fun s =>
    match OMap.get clientId (clients s) with
    | None => (s, [])
    | Some client =>
        if negb (truthy (WebSocketMessage.roomId msg)
                 && truthy (WebSocketMessage.userId msg)
                 && truthy (WebSocketMessage.username msg))
        then (s, [])
        else
          let roomId := orElse (WebSocketMessage.roomId msg) "" in
          let userId := orElse (WebSocketMessage.userId msg) "" in
          let username := orElse (WebSocketMessage.username msg) "" in
          ((if truthy (ClientConnection.roomId client)
            then leaveRoom now clientId (orElse (ClientConnection.roomId client) "")
            else silent) ;;
           (fun s =>
              silent (withClients
                        (OMap.alter (setIdentity (Some userId) (Some username)
                                       (Some roomId)) clientId) s)) ;;
           (fun s =>
              silent (if OMap.has roomId (rooms s) then s
                      else withRooms (OMap.set roomId (Room.mk roomId [] now now)) s)) ;;
           (fun s =>
              silent (withRooms
                        (OMap.alter
                           (fun room =>
                              setLastActivity now
                                (setRoomClients (OSet.add clientId (Room.clients room))
                                   room))
                           roomId) s)) ;;
           broadcastToRoom roomId (user_joined roomId userId username now)
             (Some clientId) ;;
           (fun s =>
              sendToClient clientId
                (room_joined roomId (getRoomParticipants roomId s)) s)) s
    end.

Definition handleChatMessage (now : Z) (fresh : string) (clientId : string)
  (msg : WebSocketMessage.t) : Handler :=
  fun s =>
    match OMap.get clientId (clients s) with
    | None => (s, [])
    | Some client =>
        match WebSocketMessage.data msg with
        | None => (s, [])
        | Some data =>
            if negb (truthy (ClientConnection.roomId client)
                     && truthyU (Data.content data))
            then (s, [])
            else
              let roomId := orElse (ClientConnection.roomId client) "" in
              match OMap.get roomId (rooms s) with
              | None => (s, [])
              | Some room =>
                  let chatMessage :=
                    message roomId (ClientConnection.userId client)
                      (ClientConnection.username client)
                      (mkChatData
                         (orElse (WebSocketMessage.id msg) fresh)
                         (match Data.content data with Some c => c | None => [] end)
                         (ClientConnection.userId client)
                         (ClientConnection.username client)
                         (orElse (Data.type data) "text")
                         (match Data.encrypted data with Some b => b | None => false end))
                      now in
                  ((fun s =>
                      silent (withRooms (OMap.alter (setLastActivity now) roomId) s)) ;;
                   broadcastToRoom roomId chatMessage None) s
              end
        end
    end.

Definition handleTyping (now : Z) (clientId : string) (msg : WebSocketMessage.t)
  : Handler :=
  fun s =>
    match OMap.get clientId (clients s) with
    | None => (s, [])
    | Some client =>
        if negb (truthy (ClientConnection.roomId client)) then (s, [])
        else
          let roomId := orElse (ClientConnection.roomId client) "" in
          match OMap.get roomId (rooms s) with
          | None => (s, [])
          | Some room =>
              broadcastToRoom roomId
                (typing roomId (ClientConnection.userId client)
                   (ClientConnection.username client)
                   (match WebSocketMessage.data msg with
                    | Some data =>
                        match Data.typing data with Some b => b | None => false end
                    | None => false
                    end)
                   now)
                (Some clientId) s
          end
    end.

Definition handlePing (now : Z) (clientId : string) (msg : WebSocketMessage.t)
  : Handler :=
  fun s =>
    match OMap.get clientId (clients s) with
    | None => (s, [])
    | Some client =>
        ((fun s =>
            silent (withClients (OMap.alter (setLiveness now true) clientId) s)) ;;
         sendToClient clientId (pong now)) s
    end.

Definition handleDisconnect (now : Z) (clientId : string) : Handler :=
  fun s =>
    match OMap.get clientId (clients s) with
    | None => (s, [])
    | Some client =>
        ((if truthy (ClientConnection.roomId client)
          then leaveRoom now clientId (orElse (ClientConnection.roomId client) "")
          else silent) ;;
         (fun s => silent (withClients (OMap.delete clientId) s))) s
    end.

(** The template literal [`${clientId}:${message.type}`]. *)
Definition rateLimitKey (clientId : string) (msg : WebSocketMessage.t) : string :=
  String.append clientId
    (String.append ":"
       (match WebSocketMessage.type msg with Some t => t | None => "undefined" end)).

Definition dispatch (now : Z) (fresh : string) (clientId : string)
  (msg : WebSocketMessage.t) : Handler :=
  match WebSocketMessage.type msg with
  | Some t =>
      if String.eqb t "join_room" then handleJoinRoom now clientId msg
      else if String.eqb t "message" then handleChatMessage now fresh clientId msg
      else if String.eqb t "typing" then handleTyping now clientId msg
      else if String.eqb t "ping" then handlePing now clientId msg
      else silent
  | None => silent
  end.

(** [handleMessage]: the [catch] of its [try] answers a frame that does
    not parse. *)
Definition handleMessage (now : Z) (fresh : string) (clientId : string)
  (rawData : RawData) : Handler :=
  fun s =>
    match OMap.get clientId (clients s) with
    | None => (s, [])
    | Some client =>
        match rawData with
        | Unparsable =>
            sendToClient clientId (error "Invalid message format") s
        | Parsed msg =>
            let (allowed, limiter) :=
              RateLimiter.isAllowed now (rateLimitKey clientId msg)
                (messageRateLimiter s) in
            if negb allowed
            then sendToClient clientId (error "Rate limit exceeded") s
            else dispatch now fresh clientId msg
                   (mkState (clients s) (rooms s) limiter)
        end
    end.

(** The ['connection'] handler of [setupEventHandlers]; [clientId] is the
    [uuidv4()] drawn for the transport. *)
Definition handleConnection (now : Z) (clientId : string) : Handler :=
  (fun s =>
     silent (withClients
               (OMap.set clientId
                  (ClientConnection.mk clientId true None None None now true)) s)) ;;
  sendToClient clientId (connection clientId now).

(** The ['pong'] handler of a transport. *)
Definition handlePong (now : Z) (clientId : string) : Handler :=
  fun s => silent (withClients (OMap.alter (setLiveness now true) clientId) s).

(** One run of the [setInterval] callback of [startHeartbeat]. [forEach]
    visits the entries that are still present when their turn comes. *)
Definition heartbeat (now : Z) : Handler :=
  fun s =>
    forEach (OMap.keys (clients s))
      (fun clientId s =>
         match OMap.get clientId (clients s) with
         | None => (s, [])
         | Some client =>
             if negb (ClientConnection.isAlive client)
             then ((fun s =>
                      silent (withClients (OMap.alter (setWs false) clientId) s)) ;;
                   handleDisconnect now clientId) s
             else ((fun s =>
                      silent (withClients (OMap.alter (setAlive false) clientId) s)) ;;
                   (fun s =>
                      if ClientConnection.ws client
                      then (s, [(clientId, ws_ping)]) else (s, []))) s
         end) s.

Definition roomTimeout : Z := 60 * 60 * 1000.

Definition clientTimeout : Z := 60000.

(** First loop of the [startCleanup] callback: inactive rooms. *)
Definition cleanupRooms (now : Z) : Handler :=
  fun s =>
    forEach (OMap.keys (rooms s))
      (fun roomId s =>
         match OMap.get roomId (rooms s) with
         | None => (s, [])
         | Some room =>
             if now - Room.lastActivity room >? roomTimeout
             then silent (withRooms (OMap.delete roomId) s)
             else (s, [])
         end) s.

(** Second loop of the [startCleanup] callback: dead clients. *)
Definition cleanupClients (now : Z) : Handler :=
  fun s =>
    forEach (OMap.keys (clients s))
      (fun clientId s =>
         match OMap.get clientId (clients s) with
         | None => (s, [])
         | Some client =>
             if now - ClientConnection.lastPing client >? clientTimeout
             then handleDisconnect now clientId s
             else (s, [])
         end) s.

Definition cleanup (now : Z) : Handler := cleanupRooms now ;; cleanupClients now.

(** What can happen to the server: transport events and the two timers. *)
Inductive Input :=
| Connect (clientId : string)
| Receive (clientId : string) (rawData : RawData) (fresh : string)
| Close (clientId : string)
| Pong (clientId : string)
| SocketNotOpen (clientId : string)
| HeartbeatTick
| CleanupTick.

Definition step (now : Z) (i : Input) : Handler :=
  match i with
  | Connect clientId => handleConnection now clientId
  | Receive clientId rawData fresh => handleMessage now fresh clientId rawData
  | Close clientId => handleDisconnect now clientId
  | Pong clientId => handlePong now clientId
  | SocketNotOpen clientId =>
      fun s => silent (withClients (OMap.alter (setWs false) clientId) s)
  | HeartbeatTick => heartbeat now
  | CleanupTick => cleanup now
  end.

(** A run of the server on timestamped inputs. *)
Fixpoint run (trace : list (Z * Input)) : Handler :=
  match trace with
  | [] => silent
  | (now, i) :: rest => step now i ;; run rest
  end.

Definition initial : State := mkState [] [] RateLimiter.messageRateLimiter.

End Server.

Module ServerExamples.
Import Server.

Definition join (room user name : string) : RawData :=
  Parsed (WebSocketMessage.mk (Some "join_room") (Some room) (Some user) (Some name)
            None None).

Definition chat (c : ustring) : RawData :=
  Parsed (WebSocketMessage.mk (Some "message") None None None
            (Some (Data.mk (Some c) None None None)) None).

Definition pingFrame : RawData :=
  Parsed (WebSocketMessage.mk (Some "ping") None None None None None).

(** Two clients of room r1. *)
Definition twoInRoom : State :=
  fst (run [(0, Connect "A"); (1, Connect "B");
            (2, Receive "A" (join "r1" "ua" "alice") "f1");
            (3, Receive "B" (join "r1" "ub" "bob") "f2")] initial).

End ServerExamples.

(** ** The route stub ([app/api/ws/route.ts]) *)

Module Route.

(** The value type of the [connections] map. It has no [id] property:
    reading [connection.id] yields [undefined]. *)
Module Connection.
Record t := mk {
  ws : bool;
  userId : string;
  username : string;
  roomId : string;
  joinedAt : Z
}.

Definition id (c : t) : option string := None.
End Connection.

Record Participant := mkParticipant {
  p_id : string;
  p_username : string;
  p_joinedAt : Z;
  p_isOnline : bool
}.

(** An element of [room.messages]. *)
Record ChatMessage := mkChatMessage {
  cm_id : string;
  cm_content : ustring;
  cm_senderId : string;
  cm_senderName : string;
  cm_timestamp : Z;
  cm_type : string;
  cm_encrypted : bool
}.

(** The value type of the [rooms] map, with the fields the handlers read
    or write; [expiresAt] is kept as the instant [new Date] parses it to. *)
Module Room.
Record t := mk {
  id : string;
  participants : list Participant;
  messages : list ChatMessage;
  expiresAt : Z;
  encrypted : bool;
  isActive : bool
}.
End Room.

(** The value type of [userTyping]; [timeout] is the timer handle. *)
Module Typing.
Record t := mk {
  userId : string;
  username : string;
  roomId : string;
  timeout : nat
}.
End Typing.

(** A pending [setTimeout] of [handleTyping]: its handle, the instant it is
    due and the variables its callback closes over. *)
Module Timer.
Record t := mk {
  handle : nat;
  fireAt : Z;
  typingKey : string;
  roomId : string;
  userId : string;
  username : string
}.
End Timer.

(** The [payload] of an inbound frame. *)
Module Payload.
Record t := mk {
  content : option ustring;
  type : option string;
  isTyping : bool
}.
End Payload.

Module Message.
Record t := mk {
  type : option string;
  payload : option Payload.t
}.
End Message.

Inductive RawData :=
| Unparsable
| Parsed (message : Message.t).

(** The three [error] texts of [handleChatMessage]. *)
Inductive ErrorText :=
| MessageTooLong
| RoomNotFound
| RoomInactive.

Inductive Frame :=
| error (message : ErrorText)
| message (payload : ChatMessage) (timestamp : Z)
| typing (userId username : string) (isTyping : bool)
| user_left (userId username roomId : string) (participants : list Participant)
| pong (timestamp : Z).

Definition Send := (string * Frame)%type.

(** The module-level maps and the pending timers of the event loop. *)
Record State := mkState {
  connections : OMap.t Connection.t;
  roomConnections : OMap.t OSet.t;
  userTyping : OMap.t Typing.t;
  rooms : OMap.t Room.t;
  timers : list Timer.t;
  nextTimer : nat
}.

Definition Handler := State -> State * list Send.

Definition silent (s : State) : State * list Send := (s, []).

Definition andThen (f g : Handler) : Handler :=
  fun s => let (s1, o1) := f s in let (s2, o2) := g s1 in (s2, o1 ++ o2).

Notation "f ;; g" := (andThen f g) (at level 61, right associativity).

Fixpoint forEach (ids : list string) (f : string -> Handler) : Handler :=
  match ids with
  | [] => silent
  | x :: rest => f x ;; forEach rest f
  end.

Definition withUserTyping (f : OMap.t Typing.t -> OMap.t Typing.t) (s : State) : State :=
  mkState (connections s) (roomConnections s) (f (userTyping s)) (rooms s)
    (timers s) (nextTimer s).

Definition withRooms (f : OMap.t Room.t -> OMap.t Room.t) (s : State) : State :=
  mkState (connections s) (roomConnections s) (userTyping s) (f (rooms s))
    (timers s) (nextTimer s).

Definition withConnections (f : OMap.t Connection.t -> OMap.t Connection.t)
  (s : State) : State :=
  mkState (f (connections s)) (roomConnections s) (userTyping s) (rooms s)
    (timers s) (nextTimer s).

Definition withRoomConnections (f : OMap.t OSet.t -> OMap.t OSet.t) (s : State)
  : State :=
  mkState (connections s) (f (roomConnections s)) (userTyping s) (rooms s)
    (timers s) (nextTimer s).

(** [connection.ws.send(...)] on the transport of [connectionId]: the frame
    goes out when the transport is open. *)
Definition wsSend (connectionId : string) (connection : Connection.t) (msg : Frame)
  : list Send :=
  if Connection.ws connection then [(connectionId, msg)] else [].

Definition excluded (connId : string) (excludeConnectionId : option string) : bool :=
  match excludeConnectionId with
  | Some e => String.eqb connId e
  | None => false
  end.

Definition broadcastToRoom (roomId : string) (msg : Frame)
  (excludeConnectionId : option string) : Handler :=
  fun s =>
    match OMap.get roomId (roomConnections s) with
    | None => (s, [])
    | Some roomConnIds =>
        forEach roomConnIds
          (fun connId s =>
             if excluded connId excludeConnectionId then (s, [])
             else
               match OMap.get connId (connections s) with
               | Some connection => (s, wsSend connId connection msg)
               | None => (s, [])
               end) s
    end.

(** [clearTimeout] *)
Definition clearTimeout (h : nat) (s : State) : State :=
  mkState (connections s) (roomConnections s) (userTyping s) (rooms s)
    (filter (fun t => negb (Nat.eqb (Timer.handle t) h)) (timers s)) (nextTimer s).

(** [setTimeout(callback, delay)] of [handleTyping]: the handle and the
    state with the timer pending. *)
Definition setTimeout (now delay : Z) (typingKey roomId userId username : string)
  (s : State) : nat * State :=
  (nextTimer s,
   mkState (connections s) (roomConnections s) (userTyping s) (rooms s)
     (timers s ++ [Timer.mk (nextTimer s) (now + delay) typingKey roomId userId username])
     (S (nextTimer s))).

(** The template literal [`${roomId}:${userId}`]. *)
Definition typingKeyOf (roomId userId : string) : string :=
  String.append roomId (String.append ":" userId).

(** [slice(-1000)] *)
Definition sliceLast {A : Type} (n : nat) (l : list A) : list A :=
  skipn (List.length l - n)%nat l.

(** [handleChatMessage(connection, payload)]. The source writes to
    [connection.ws]; [connectionId] names that transport in the output. *)
Definition handleChatMessage (now : Z) (fresh : string) (connectionId : string)
  (connection : Connection.t) (payload : Payload.t) : Handler :=
  fun s =>
    let userId := Connection.userId connection in
    let username := Connection.username connection in
    let roomId := Connection.roomId connection in
    match Payload.content payload with
    | None => (s, [])
    | Some content =>
        if (List.length content =? 0)%nat
           || (List.length (trim content) =? 0)%nat
        then (s, [])
        else if (1000 <? List.length content)%nat
        then (s, wsSend connectionId connection (error MessageTooLong))
        else
          match OMap.get roomId (rooms s) with
          | None => (s, wsSend connectionId connection (error RoomNotFound))
          | Some room =>
              if (now >? Room.expiresAt room) || negb (Room.isActive room)
              then (s, wsSend connectionId connection (error RoomInactive))
              else
                let messageObj :=
                  mkChatMessage fresh (trim content) userId username now
                    (match Payload.type payload with Some t => t | None => "text" end)
                    (Room.encrypted room) in
                let pushed := Room.messages room ++ [messageObj] in
                let kept :=
                  if (1000 <? List.length pushed)%nat
                  then sliceLast 1000 pushed else pushed in
                let room' :=
                  Room.mk (Room.id room) (Room.participants room) kept
                    (Room.expiresAt room) (Room.encrypted room) (Room.isActive room) in
                ((fun s => silent (withRooms (OMap.alter (fun _ => room') roomId) s)) ;;
                 broadcastToRoom roomId (message messageObj now) None) s
          end
    end.

(** The callback handed to [setTimeout] by [handleTyping]. *)
Definition typingExpired (t : Timer.t) : Handler :=
  (fun s => silent (withUserTyping (OMap.delete (Timer.typingKey t)) s)) ;;
  broadcastToRoom (Timer.roomId t)
    (typing (Timer.userId t) (Timer.username t) false) None.

Definition typingDelay : Z := 3000.

(** [handleTyping]. The exclusion of the typing start is
    [connection.id]; the two typing stops pass none. *)
Definition handleTyping (now : Z) (connection : Connection.t) (payload : Payload.t)
  : Handler :=
  fun s =>
    let userId := Connection.userId connection in
    let username := Connection.username connection in
    let roomId := Connection.roomId connection in
    let typingKey := typingKeyOf roomId userId in
    if Payload.isTyping payload then
      let s1 :=
        match OMap.get typingKey (userTyping s) with
        | Some existing => clearTimeout (Typing.timeout existing) s
        | None => s
        end in
      let (timeout, s2) := setTimeout now typingDelay typingKey roomId userId username s1 in
      ((fun s =>
          silent (withUserTyping
                    (OMap.set typingKey (Typing.mk userId username roomId timeout)) s)) ;;
       broadcastToRoom roomId (typing userId username true)
         (Connection.id connection)) s2
    else
      let s1 :=
        match OMap.get typingKey (userTyping s) with
        | Some existing =>
            withUserTyping (OMap.delete typingKey)
              (clearTimeout (Typing.timeout existing) s)
        | None => s
        end in
      broadcastToRoom roomId (typing userId username false) None s1.

(** [participant.isOnline = false] on the first participant with that id. *)
Fixpoint markOffline (userId : string) (ps : list Participant) : list Participant :=
  match ps with
  | [] => []
  | p :: rest =>
      if String.eqb (p_id p) userId
      then mkParticipant (p_id p) (p_username p) (p_joinedAt p) false :: rest
      else p :: markOffline userId rest
  end.

Definition handleClose (connectionId : string) : Handler :=
  fun s =>
    match OMap.get connectionId (connections s) with
    | None => (s, [])
    | Some connection =>
        let userId := Connection.userId connection in
        let username := Connection.username connection in
        let roomId := Connection.roomId connection in
        let typingKey := typingKeyOf roomId userId in
        let s1 := withConnections (OMap.delete connectionId) s in
        let s2 :=
          match OMap.get roomId (roomConnections s1) with
          | Some roomConnIds =>
              let left := OSet.delete connectionId roomConnIds in
              if (OSet.size left =? 0)%nat
              then withRoomConnections (OMap.delete roomId) s1
              else withRoomConnections (OMap.alter (fun _ => left) roomId) s1
          | None => s1
          end in
        let s3 :=
          match OMap.get typingKey (userTyping s2) with
          | Some existing =>
              withUserTyping (OMap.delete typingKey)
                (clearTimeout (Typing.timeout existing) s2)
          | None => s2
          end in
        match OMap.get roomId (rooms s3) with
        | None => (s3, [])
        | Some room =>
            if existsb (fun p => String.eqb (p_id p) userId) (Room.participants room)
            then
              let hasOtherConnections :=
                existsb
                  (fun kv =>
                     String.eqb (Connection.userId (snd kv)) userId
                     && String.eqb (Connection.roomId (snd kv)) roomId)
                  (connections s3) in
              if hasOtherConnections then (s3, [])
              else
                let ps := markOffline userId (Room.participants room) in
                let room' :=
                  Room.mk (Room.id room) ps (Room.messages room)
                    (Room.expiresAt room) (Room.encrypted room) (Room.isActive room) in
                ((fun s => silent (withRooms (OMap.alter (fun _ => room') roomId) s)) ;;
                 broadcastToRoom roomId
                   (user_left userId username roomId (filter p_isOnline ps)) None) s3
            else (s3, [])
        end
    end.

(** [handleMessage]. The whole body sits in a [try] whose [catch] only
    logs: a frame that does not parse, and a frame without [payload] (the
    destructuring of the handlers throws on it), end there. *)
Definition handleMessage (now : Z) (fresh : string) (connectionId : string)
  (data : RawData) : Handler :=
  fun s =>
    match OMap.get connectionId (connections s) with
    | None => (s, [])
    | Some connection =>
        match data with
        | Unparsable => (s, [])
        | Parsed msg =>
            match Message.type msg with
            | Some t =>
                if String.eqb t "message" then
                  match Message.payload msg with
                  | Some payload =>
                      handleChatMessage now fresh connectionId connection payload s
                  | None => (s, [])
                  end
                else if String.eqb t "typing" then
                  match Message.payload msg with
                  | Some payload => handleTyping now connection payload s
                  | None => (s, [])
                  end
                else if String.eqb t "ping" then
                  (s, wsSend connectionId connection (pong now))
                else (s, [])
            | None => (s, [])
            end
        end
    end.

(** A timer that comes due leaves the pending list and its callback
    runs; a timer cleared in the meantime is skipped. *)
Definition fire (t : Timer.t) : Handler :=
  fun s =>
    if existsb (fun p => Nat.eqb (Timer.handle p) (Timer.handle t)) (timers s)
    then typingExpired t (clearTimeout (Timer.handle t) s)
    else (s, []).

Fixpoint fireAll (due : list Timer.t) : Handler :=
  match due with
  | [] => silent
  | t :: rest => fire t ;; fireAll rest
  end.

(** The timers phase of the event loop at instant [now]. All timers have
    the same delay, so the pending list is in firing order. *)
Definition runTimers (now : Z) : Handler :=
  fun s => fireAll (filter (fun t => Timer.fireAt t <=? now) (timers s)) s.

(** What can happen to the stub: a frame, a close, or time passing. *)
Inductive Input :=
| Receive (connectionId : string) (data : RawData) (fresh : string)
| Close (connectionId : string)
| Tick.

(** One turn of the event loop at instant [now]: due timers first. *)
Definition step (now : Z) (i : Input) : Handler :=
  runTimers now ;;
  match i with
  | Receive connectionId data fresh => handleMessage now fresh connectionId data
  | Close connectionId => handleClose connectionId
  | Tick => silent
  end.

Fixpoint run (trace : list (Z * Input)) : Handler :=
  match trace with
  | [] => silent
  | (now, i) :: rest => step now i ;; run rest
  end.

End Route.

Module RouteExamples.
Import Route.

(** Room r1, open until instant 1000000, with two open connections. *)
Definition twoInRoom : State :=
  mkState
    [("A", Connection.mk true "ua" "alice" "r1" 0);
     ("B", Connection.mk true "ub" "bob" "r1" 0)]
    [("r1", ["A"; "B"])]
    []
    [("r1", Room.mk "r1"
              [mkParticipant "ua" "alice" 0 true; mkParticipant "ub" "bob" 0 true]
              [] 1000000 false true)]
    [] 0.

(** The same room with a history of 1000 messages. *)
Definition oldMessage : ChatMessage :=
  mkChatMessage "m0" [111%N; 108%N; 100%N] "ub" "bob" 1 "text" false.

Definition fullRoom : State :=
  mkState (connections twoInRoom) (roomConnections twoInRoom) []
    [("r1", Room.mk "r1"
              [mkParticipant "ua" "alice" 0 true; mkParticipant "ub" "bob" 0 true]
              (repeat oldMessage 1000) 1000000 false true)]
    [] 0.

End RouteExamples.

(** ** Vocabulary of the statements about the standalone server *)

Module ServerSpec.
Import Server.

(** The transport of [clientId] is registered and open. *)
Definition isOpen (s : State) (clientId : string) : bool :=
  match OMap.get clientId (clients s) with
  | Some c => ClientConnection.ws c
  | None => false
  end.

(** Membership of a room; an unknown room has no member. *)
Definition members (s : State) (roomId : string) : list string :=
  match OMap.get roomId (rooms s) with
  | Some room => Room.clients room
  | None => []
  end.

(** The members a broadcast reaches: not excluded, registered and open. *)
Definition recipients (s : State) (roomId : string) (exclude : option string)
  : list string :=
  filter (fun d => negb (excluded d exclude) && isOpen s d) (members s roomId).

(** The same frame written to each client of a list, in order. *)
Definition fanOut (msg : Frame) (ids : list string) : list Send :=
  map (fun d => (d, msg)) ids.

(** Consistency of the registry and the room directory. *)
Record wf (s : State) : Prop := mkWf {
  wf_member :
    forall r room d,
      OMap.get r (rooms s) = Some room -> In d (Room.clients room) ->
      exists c, OMap.get d (clients s) = Some c
                /\ ClientConnection.roomId c = Some r;
  wf_identity :
    forall d c,
      OMap.get d (clients s) = Some c ->
      truthy (ClientConnection.roomId c) = true ->
      truthy (ClientConnection.userId c) = true
      /\ truthy (ClientConnection.username c) = true;
  wf_nodup :
    forall r room, OMap.get r (rooms s) = Some room -> NoDup (Room.clients room);
  wf_roomId :
    forall r room, OMap.get r (rooms s) = Some room -> r <> ""
}.

(** A frame whose [type] is the given string. *)
Definition hasType (t : string) (msg : WebSocketMessage.t) : Prop :=
  WebSocketMessage.type msg = Some t.

(** The idle test of the cleanup timer. *)
Definition inactive (now : Z) (room : Room.t) : bool :=
  now - Room.lastActivity room >? roomTimeout.

(** The silence test of the cleanup timer. *)
Definition silentTooLong (now : Z) (client : ClientConnection.t) : bool :=
  now - ClientConnection.lastPing client >? clientTimeout.

(** The room directory once [clientId] has left [roomId]: the member is
    taken out, and a room left empty is deleted. *)
Definition roomsAfterLeave (clientId roomId : string) (room : Room.t)
  (rs : OMap.t Room.t) : OMap.t Room.t :=
  let left := OSet.delete clientId (Room.clients room) in
  if (OSet.size left =? 0)%nat
  then OMap.delete roomId (OMap.alter (setRoomClients left) roomId rs)
  else OMap.alter (setRoomClients left) roomId rs.

(** The state once [clientId] has left [roomId]. *)
Definition afterLeave (clientId roomId : string) (room : Room.t) (s : State)
  : State :=
  mkState (OMap.alter (setRoomId None) clientId (clients s))
    (roomsAfterLeave clientId roomId room (rooms s)) (messageRateLimiter s).

(** The state once [clientId] has entered [roomId] under an identity. *)
Definition afterEnter (now : Z) (clientId roomId userId username : string)
  (s : State) : State :=
  let cs :=
    OMap.alter (setIdentity (Some userId) (Some username) (Some roomId)) clientId
      (clients s) in
  let rs :=
    if OMap.has roomId (rooms s) then rooms s
    else OMap.set roomId (Room.mk roomId [] now now) (rooms s) in
  mkState cs
    (OMap.alter
       (fun room =>
          setLastActivity now
            (setRoomClients (OSet.add clientId (Room.clients room)) room))
       roomId rs)
    (messageRateLimiter s).

(** The leave that opens both [handleJoinRoom] and [handleDisconnect]. *)
Definition leaveFirst (now : Z) (clientId : string) (client : ClientConnection.t)
  : Handler :=
  if truthy (ClientConnection.roomId client)
  then leaveRoom now clientId (orElse (ClientConnection.roomId client) "")
  else silent.

(** The [user_left] frames owed to the open members that stay behind when
    [clientId] goes. *)
Definition leaveNotices (now : Z) (clientId : string) (client : ClientConnection.t)
  (s : State) : list Send :=
  if truthy (ClientConnection.roomId client)
     && truthy (ClientConnection.userId client)
     && truthy (ClientConnection.username client)
  then
    let roomId := orElse (ClientConnection.roomId client) "" in
    fanOut (user_left roomId (orElse (ClientConnection.userId client) "")
              (orElse (ClientConnection.username client) "") now)
      (filter (isOpen s) (OSet.delete clientId (members s roomId)))
  else [].

(** What the consistency of a state reads of a client. *)
Definition identity (c : ClientConnection.t)
  : option string * option string * option string :=
  (ClientConnection.roomId c, ClientConnection.userId c, ClientConnection.username c).

(** A trace in which every accepted transport gets an id that is not in
    the registry, as [uuidv4()] provides. *)
Fixpoint admissible (trace : list (Z * Input)) (s : State) : bool :=
  match trace with
  | [] => true
  | (now, i) :: rest =>
      match i with
      | Connect clientId => negb (OMap.has clientId (clients s))
      | _ => true
      end && admissible rest (fst (step now i s))
  end.

(** A join frame that [handleJoinRoom] accepts. *)
Definition joinFrame (roomId userId username : string) : WebSocketMessage.t :=
  WebSocketMessage.mk (Some "join_room") (Some roomId) (Some userId) (Some username)
    None None.

End ServerSpec.

(** ** Vocabulary of the statements about the route stub *)

Module RouteSpec.
Import Route.

Definition isOpen (s : State) (connId : string) : bool :=
  match OMap.get connId (connections s) with
  | Some c => Connection.ws c
  | None => false
  end.

Definition members (s : State) (roomId : string) : list string :=
  match OMap.get roomId (roomConnections s) with
  | Some roomConnIds => roomConnIds
  | None => []
  end.

(** The members a broadcast reaches: not excluded, registered and open. *)
Definition recipients (s : State) (roomId : string) (exclude : option string)
  : list string :=
  filter (fun d => negb (excluded d exclude) && isOpen s d) (members s roomId).

Definition fanOut (msg : Frame) (ids : list string) : list Send :=
  map (fun d => (d, msg)) ids.

(** An inbound chat frame with the given content. *)
Definition chatFrame (content : ustring) (type : option string) : RawData :=
  Parsed (Message.mk (Some "message") (Some (Payload.mk (Some content) type false))).

(** An inbound typing frame. *)
Definition typingFrame (isTyping : bool) : RawData :=
  Parsed (Message.mk (Some "typing") (Some (Payload.mk None None isTyping))).

(** Every stored history holds at most 1000 messages. *)
Definition historyBounded (s : State) : Prop :=
  forall roomId room,
    OMap.get roomId (rooms s) = Some room ->
    (List.length (Room.messages room) <= 1000)%nat.

(** The number of writes of frame [f] to connection [d] in an output. *)
Definition deliveries (d : string) (f : Frame -> bool) (out : list Send) : nat :=
  List.length (filter (fun w => String.eqb (fst w) d && f (snd w)) out).

Definition isTypingFrame (userId : string) (b : bool) (f : Frame) : bool :=
  match f with
  | typing u _ b' => String.eqb u userId && Bool.eqb b b'
  | _ => false
  end.

(** The history after [push] followed by the truncation of
    [handleChatMessage]. *)
Definition keep (l : list ChatMessage) : list ChatMessage :=
  if (1000 <? List.length l)%nat then sliceLast 1000 l else l.

(** Typing starts of one connection at the given instants. *)
Definition burst (connectionId : string) (times : list Z) : list (Z * Input) :=
  map (fun t => (t, Receive connectionId (typingFrame true) "")) times.

(** Each instant of the list falls inside the auto-stop window opened by
    the one before it, [t] being the first. *)
Fixpoint spaced (t : Z) (times : list Z) : Prop :=
  match times with
  | [] => True
  | t' :: rest => t <= t' < t + typingDelay /\ spaced t' rest
  end.

(** The timers of a list belong to other typing keys and other users. *)
Definition othersOnly (conn : Connection.t) (l : list Timer.t) : Prop :=
  forall o, In o l ->
    Timer.typingKey o
      <> typingKeyOf (Connection.roomId conn) (Connection.userId conn)
    /\ Timer.userId o <> Connection.userId conn.

(** The auto-stop timer of the connection's typing indicator. *)
Definition ownTimer (conn : Connection.t) (h : nat) (t : Z) : Timer.t :=
  Timer.mk h (t + typingDelay)
    (typingKeyOf (Connection.roomId conn) (Connection.userId conn))
    (Connection.roomId conn) (Connection.userId conn) (Connection.username conn).

(** The state of the typing indicator of [conn] along a run from [s0]:
    either no timer of this user is pending ([cur = None]), or exactly one
    is, armed at instant [t] under handle [h] and recorded in
    [userTyping] ([cur = Some (h, t)]). Timer handles are below
    [nextTimer]. *)
Definition indicator (s0 : State) (conn : Connection.t) (cur : option (nat * Z))
  (s : State) : Prop :=
  connections s = connections s0
  /\ roomConnections s = roomConnections s0
  /\ exists others,
       othersOnly conn others
       /\ (forall o, In o others -> (Timer.handle o < nextTimer s)%nat)
       /\ match cur with
          | None => timers s = others
          | Some (h, t) =>
              timers s = others ++ [ownTimer conn h t]
              /\ (h < nextTimer s)%nat
              /\ (forall o, In o others -> (Timer.handle o < h)%nat)
              /\ OMap.get
                   (typingKeyOf (Connection.roomId conn) (Connection.userId conn))
                   (userTyping s)
                 = Some (Typing.mk (Connection.userId conn) (Connection.username conn)
                           (Connection.roomId conn) h)
          end.

(** No typing frame of the user in an output. *)
Definition noTypingOf (userId : string) (out : list Send) : Prop :=
  forall w b, In w out -> isTypingFrame userId b (snd w) = false.

(** A handler that leaves the [rooms] map alone. *)
Definition keepsRooms (h : Handler) : Prop :=
  forall s, rooms (fst (h s)) = rooms s.

End RouteSpec.

Module ServerScenarios.
Import Server ServerExamples.

(** An hour later both clients have just pinged; nobody has chatted. *)
Definition quietRoom : State :=
  fst (run [(3600000, Receive "A" pingFrame "f"); (3600001, Receive "B" pingFrame "f")]
         twoInRoom).

(** A minute after the joins only B has pinged. *)
Definition oneSilentTrace : list (Z * Input) :=
  [(0, Connect "A"); (1, Connect "B");
   (2, Receive "A" (join "r1" "ua" "alice") "f1");
   (3, Receive "B" (join "r1" "ub" "bob") "f2");
   (65000, Receive "B" pingFrame "f")].

Definition oneSilent : State := fst (run oneSilentTrace initial).

(** Client A after ten pings inside one minute. *)
Definition tenPings : State :=
  fst (run (map (fun t => (t, Receive "A" pingFrame "f"))
              [10; 11; 12; 13; 14; 15; 16; 17; 18; 19]) twoInRoom).

End ServerScenarios.

Module ChatScenarios.

(** Content of 1001 letters, and content made of a space and a tab. *)
Definition tooLong : ustring := repeat 97%N 1001.

Definition blank : ustring := [32%N; 9%N].

End ChatScenarios.

Module JoinScenarios.
Import Server ServerExamples.

(** A third client C sits alone in room r2. *)
Definition threeClients : State :=
  fst (run [(4, Connect "C"); (5, Receive "C" (join "r2" "uc" "carol") "f3")]
         twoInRoom).

End JoinScenarios.

(** ** Vocabulary of the statements about the rate limiter *)

Module RateLimiterSpec.
Import RateLimiter.

(** The timestamps stored under an identifier. *)
Definition stored (identifier : string) (l : t) : list Z :=
  match OMap.get identifier (attempts l) with
  | Some a => a
  | None => []
  end.

(** No identifier holds more timestamps than the limit. *)
Definition bounded (l : t) : Prop :=
  forall identifier, (List.length (stored identifier l) <= maxAttempts l)%nat.

(** A sequence of [isAllowed] calls, each with its instant and its
    identifier: the limiter after the last one. *)
Fixpoint serve (reqs : list (Z * string)) (l : t) : t :=
  match reqs with
  | [] => l
  | (now, i) :: rest => serve rest (snd (isAllowed now i l))
  end.

(** The number of calls of the sequence made under [identifier] that are
    allowed. *)
Fixpoint granted (identifier : string) (reqs : list (Z * string)) (l : t) : nat :=
  match reqs with
  | [] => 0
  | (now, i) :: rest =>
      ((if fst (isAllowed now i l) && String.eqb i identifier then 1 else 0)
       + granted identifier rest (snd (isAllowed now i l)))%nat
  end.

(** The instant of a call, the window and the timestamps stored under an
    identifier are non-negative integers, and a timestamp plus the window
    is at most [2 ^ 53]: the arithmetic of [getRemainingTime] is exact. *)
Definition exactTimes (now : Z) (identifier : string) (l : t) : bool :=
  (0 <=? now) && (now <=? 2 ^ 53) && (0 <=? windowMs l)
  && forallb (fun timestamp => (0 <=? timestamp) && (timestamp + windowMs l <=? 2 ^ 53))
       (stored identifier l).

(** A window of [2 ^ 53] ms with one attempt stored at 1700000000001. *)
Definition wideWindow : t := mk 1 (2 ^ 53) [("A", [1700000000001])].

(** Ten pings of client A and four of client B inside one minute, then an
    eleventh ping of A. *)
Definition busyMinute : list (Z * string) :=
  [(0, "A:ping"); (1, "B:ping"); (2, "A:ping"); (3, "A:ping"); (4, "B:ping");
   (5, "A:ping"); (6, "A:ping"); (7, "A:ping"); (8, "B:ping"); (9, "A:ping");
   (10, "A:ping"); (11, "A:ping"); (12, "B:ping"); (13, "A:ping");
   (59999, "A:ping")].

End RateLimiterSpec.

(** ** Further vocabulary about the standalone server *)

Module ServerSpecMore.
Import Server ServerSpec.

(** The directory holds no room without members. *)
Definition noEmptyRoom (s : State) : Prop :=
  forall r room, OMap.get r (rooms s) = Some room -> Room.clients room <> [].

(** The room of the client is not in the directory: the client never
    joined, or its room has been deleted under it. *)
Definition roomless (s : State) (client : ClientConnection.t) : Prop :=
  truthy (ClientConnection.roomId client) = false
  \/ OMap.get (orElse (ClientConnection.roomId client) "") (rooms s) = None.

(** The entry of [getRoomParticipants] for a client. *)
Definition participantOf (client : ClientConnection.t) : Participant :=
  mkParticipant (orElse (ClientConnection.userId client) "")
    (orElse (ClientConnection.username client) "") true.

(** The events of the transport of [clientId] once it is accepted: its
    frames, its close, its pongs and its leaving the open state. *)
Definition fromTransport (clientId : string) (i : Input) : Prop :=
  match i with
  | Receive c _ _ | Close c | Pong c | SocketNotOpen c => c = clientId
  | Connect _ | HeartbeatTick | CleanupTick => False
  end.

(** A chat frame and a typing frame. *)
Definition chatFrame (content : ustring) : WebSocketMessage.t :=
  WebSocketMessage.mk (Some "message") None None None
    (Some (Data.mk (Some content) None None None)) None.

Definition typingFrame (isTyping : bool) : WebSocketMessage.t :=
  WebSocketMessage.mk (Some "typing") None None None
    (Some (Data.mk None None None (Some isTyping))) None.

(** The room of alice and bob once the cleanup timer has deleted it under
    them. *)
Definition sweptRoom : State := fst (cleanup 3600010 ServerScenarios.quietRoom).

(** The callback [heartbeat] runs on each entry of the registry. *)
Definition heartbeatBody (now : Z) (clientId : string) : Handler :=
  fun s =>
    match OMap.get clientId (clients s) with
    | None => (s, [])
    | Some client =>
        if negb (ClientConnection.isAlive client)
        then ((fun s =>
                 silent (withClients (OMap.alter (setWs false) clientId) s)) ;;
              handleDisconnect now clientId) s
        else ((fun s =>
                 silent (withClients (OMap.alter (setAlive false) clientId) s)) ;;
              (fun s =>
                 if ClientConnection.ws client
                 then (s, [(clientId, ws_ping)]) else (s, []))) s
    end.

(** The callback the client loop of [cleanup] runs on each entry of the
    registry. *)
Definition cleanupBody (now : Z) (clientId : string) : Handler :=
  fun s =>
    match OMap.get clientId (clients s) with
    | None => (s, [])
    | Some client =>
        if now - ClientConnection.lastPing client >? clientTimeout
        then handleDisconnect now clientId s
        else (s, [])
    end.

(** The text the limiter key holds for the type of a frame. *)
Definition typeText (msg : WebSocketMessage.t) : string :=
  match WebSocketMessage.type msg with Some t => t | None => "undefined" end.

(** A client id without a colon, as [uuidv4()] draws them. *)
Fixpoint noColon (s : string) : bool :=
  match s with
  | EmptyString => true
  | String a rest => negb (Ascii.eqb a ":"%char) && noColon rest
  end.

(** The [isTyping] flag a typing frame is relayed with. *)
Definition typingFlag (msg : WebSocketMessage.t) : bool :=
  match WebSocketMessage.data msg with
  | Some data => match Data.typing data with Some b => b | None => false end
  | None => false
  end.

Definition isTypingEvent (f : Frame) : bool :=
  match f with
  | typing _ _ _ _ _ => true
  | _ => false
  end.

Definition isUserLeft (roomId : string) (f : Frame) : bool :=
  match f with
  | user_left r _ _ _ => String.eqb r roomId
  | _ => false
  end.

(** Client A after ten chat frames inside one minute. *)
Definition tenChats : State :=
  fst (run (map (fun t => (t, Receive "A" (Parsed (chatFrame [104%N; 105%N])) "f"))
              [10; 11; 12; 13; 14; 15; 16; 17; 18; 19])
         ServerExamples.twoInRoom).

(** Twelve frames of client A that do not parse, one per millisecond. *)
Definition twelveUnparsable : list (Z * Input) :=
  map (fun t => (t, Receive "A" Unparsable "f"))
    [10; 11; 12; 13; 14; 15; 16; 17; 18; 19; 20; 21].

(** The room of alice and bob an hour after the joins; bob has just
    pinged, alice has been silent. *)
Definition staleRoom : State :=
  fst (run [(3600001, Receive "B" ServerExamples.pingFrame "f")]
         ServerExamples.twoInRoom).

End ServerSpecMore.

(** ** Further vocabulary about the route stub *)

Module RouteSpecMore.
Import Route RouteSpec.

(** Every pending timer is the one recorded in [userTyping] under its
    typing key; handles are distinct and below [nextTimer]. *)
Definition timersRecorded (s : State) : Prop :=
  (forall tm, In tm (timers s) -> (Timer.handle tm < nextTimer s)%nat)
  /\ NoDup (map Timer.handle (timers s))
  /\ (forall tm, In tm (timers s) ->
        exists ty, OMap.get (Timer.typingKey tm) (userTyping s) = Some ty
                   /\ Typing.timeout ty = Timer.handle tm).

(** The first half of [handleClose]: the connection leaves the registry
    and the connection set of its room, and its typing indicator is
    cleared. *)
Definition afterClose (connectionId : string) (connection : Connection.t)
  (s : State) : State :=
  let userId := Connection.userId connection in
  let roomId := Connection.roomId connection in
  let typingKey := typingKeyOf roomId userId in
  let s1 := withConnections (OMap.delete connectionId) s in
  let s2 :=
    match OMap.get roomId (roomConnections s1) with
    | Some roomConnIds =>
        let left := OSet.delete connectionId roomConnIds in
        if (OSet.size left =? 0)%nat
        then withRoomConnections (OMap.delete roomId) s1
        else withRoomConnections (OMap.alter (fun _ => left) roomId) s1
    | None => s1
    end in
  match OMap.get typingKey (userTyping s2) with
  | Some existing =>
      withUserTyping (OMap.delete typingKey)
        (clearTimeout (Typing.timeout existing) s2)
  | None => s2
  end.

(** A timer of the due list is the pending timer of its handle, if one is
    pending. *)
Definition agrees (due : list Timer.t) (s : State) : Prop :=
  forall tm p, In tm due -> In p (timers s) ->
               Timer.handle p = Timer.handle tm -> p = tm.

(** Another entry of the registry has the user and the room of the
    connection. *)
Definition otherConnection (connectionId : string) (connection : Connection.t)
  (s : State) : Prop :=
  exists d conn',
    d <> connectionId
    /\ In (d, conn') (connections s)
    /\ Connection.userId conn' = Connection.userId connection
    /\ Connection.roomId conn' = Connection.roomId connection.

Definition isError (f : Frame) : bool :=
  match f with
  | error _ => true
  | _ => false
  end.

(** Alice has the room open in two tabs, bob in one. *)
Definition twoTabs : State :=
  mkState
    [("A", Connection.mk true "ua" "alice" "r1" 0);
     ("A2", Connection.mk true "ua" "alice" "r1" 5);
     ("B", Connection.mk true "ub" "bob" "r1" 0)]
    [("r1", ["A"; "A2"; "B"])]
    []
    [("r1", Room.mk "r1"
              [mkParticipant "ua" "alice" 0 true; mkParticipant "ub" "bob" 0 true]
              [] 1000000 false true)]
    [] 0.

End RouteSpecMore.

(** * Properties *)

(** ** Ordered maps and sets *)

Module OMapFacts.
Section Facts.
Variable V : Type.
Implicit Types (m : OMap.t V) (k : string).

Lemma get_set_eq k (v : V) m : OMap.get k (OMap.set k v m) = Some v.
Proof.
  induction m as [|[k' v'] m IH]; simpl.
  - now rewrite String.eqb_refl.
  - destruct (String.eqb_spec k k') as [->|Hne]; simpl.
    + now rewrite String.eqb_refl.
    + destruct (String.eqb_spec k k'); [contradiction|exact IH].
Qed.

Lemma get_set_ne k k' (v : V) m :
  k <> k' -> OMap.get k' (OMap.set k v m) = OMap.get k' m.
Proof.
  intros Hne. induction m as [|[k0 v0] m IH]; simpl.
  - destruct (String.eqb_spec k' k); congruence.
  - destruct (String.eqb_spec k k0) as [->|Hk]; simpl.
    + destruct (String.eqb_spec k' k0); congruence.
    + destruct (String.eqb_spec k' k0); [reflexivity|exact IH].
Qed.

Lemma get_alter_eq (f : V -> V) k m :
  OMap.get k (OMap.alter f k m) = option_map f (OMap.get k m).
Proof.
  induction m as [|[k' v'] m IH]; simpl; [reflexivity|].
  destruct (String.eqb_spec k k') as [->|Hne]; simpl.
  - now rewrite String.eqb_refl.
  - destruct (String.eqb_spec k k'); [contradiction|exact IH].
Qed.

Lemma get_alter_ne (f : V -> V) k k' m :
  k <> k' -> OMap.get k' (OMap.alter f k m) = OMap.get k' m.
Proof.
  intros Hne. induction m as [|[k0 v0] m IH]; simpl; [reflexivity|].
  destruct (String.eqb_spec k k0) as [->|Hk]; simpl.
  - destruct (String.eqb_spec k' k0); congruence.
  - destruct (String.eqb_spec k' k0); [reflexivity|exact IH].
Qed.

Lemma get_delete_eq k m : OMap.get k (OMap.delete k m) = None.
Proof.
  unfold OMap.delete. induction m as [|[k' v'] m IH]; simpl; [reflexivity|].
  destruct (String.eqb_spec k k') as [->|Hne]; simpl; [exact IH|].
  destruct (String.eqb_spec k k'); [contradiction|exact IH].
Qed.

Lemma get_delete_ne k k' m :
  k <> k' -> OMap.get k' (OMap.delete k m) = OMap.get k' m.
Proof.
  intros Hne. unfold OMap.delete.
  induction m as [|[k0 v0] m IH]; simpl; [reflexivity|].
  destruct (String.eqb_spec k k0) as [->|Hk]; simpl.
  - destruct (String.eqb_spec k' k0); [congruence|exact IH].
  - destruct (String.eqb_spec k' k0); [reflexivity|exact IH].
Qed.

Lemma keys_alter (f : V -> V) k m : OMap.keys (OMap.alter f k m) = OMap.keys m.
Proof.
  unfold OMap.keys. induction m as [|[k' v'] m IH]; simpl; [reflexivity|].
  destruct (String.eqb k k'); simpl; [reflexivity|now rewrite IH].
Qed.

Lemma in_keys_get k m : In k (OMap.keys m) <-> OMap.get k m <> None.
Proof.
  unfold OMap.keys. induction m as [|[k' v'] m IH]; simpl.
  - split; [tauto|congruence].
  - destruct (String.eqb_spec k k') as [->|Hne].
    + split; [congruence|auto].
    + rewrite <- IH. split; [intros [H|H]; [congruence|exact H]|auto].
Qed.

End Facts.
End OMapFacts.

Module OSetFacts.

Lemma has_In x s : OSet.has x s = true <-> In x s.
Proof.
  unfold OSet.has. rewrite existsb_exists. split.
  - intros (y & Hy & He). apply String.eqb_eq in He. now subst.
  - intros H. exists x. split; [exact H|apply String.eqb_refl].
Qed.

Lemma in_add x y s : In y (OSet.add x s) <-> y = x \/ In y s.
Proof.
  unfold OSet.add. destruct (OSet.has x s) eqn:E.
  - apply has_In in E. split; [auto|intros [->|H]; assumption].
  - rewrite in_app_iff. simpl. intuition.
Qed.

Lemma in_delete x y s : In y (OSet.delete x s) <-> y <> x /\ In y s.
Proof.
  unfold OSet.delete. rewrite filter_In.
  destruct (String.eqb_spec x y) as [->|Hne]; simpl; intuition congruence.
Qed.

Lemma not_in_delete x s : ~ In x (OSet.delete x s).
Proof. rewrite in_delete. tauto. Qed.

Lemma delete_absent x s : ~ In x s -> OSet.delete x s = s.
Proof.
  unfold OSet.delete. induction s as [|y s IH]; simpl; [reflexivity|].
  intros H. destruct (String.eqb_spec x y) as [->|Hne]; simpl.
  - exfalso. apply H. now left.
  - f_equal. apply IH. tauto.
Qed.

End OSetFacts.

(** ** The standalone server: handlers *)

Module ServerFacts.
Import Server ServerSpec.

Lemma andThen_silent_l (f : State -> State) (g : Handler) s :
  ((fun s => silent (f s)) ;; g) s = g (f s).
Proof. unfold andThen, silent. now destruct (g (f s)). Qed.

Lemma sendToClient_spec clientId msg s :
  sendToClient clientId msg s =
  (s, if isOpen s clientId then [(clientId, msg)] else []).
Proof.
  unfold sendToClient, isOpen.
  destruct (OMap.get clientId (clients s)) as [c|]; [|reflexivity].
  now destruct (ClientConnection.ws c).
Qed.

(** A broadcast leaves the state alone and writes the frame once to each
    recipient, in membership order. *)
Lemma broadcastToRoom_spec roomId msg exclude s :
  broadcastToRoom roomId msg exclude s =
  (s, fanOut msg (recipients s roomId exclude)).
Proof.
  unfold broadcastToRoom, recipients, members.
  destruct (OMap.get roomId (rooms s)) as [room|]; [|reflexivity].
  induction (Room.clients room) as [|d ds IH]; [reflexivity|].
  simpl forEach. unfold andThen at 1.
  destruct (excluded d exclude) eqn:Ex; simpl.
  - rewrite IH. now rewrite Ex.
  - rewrite sendToClient_spec, IH, Ex.
    destruct (isOpen s d); reflexivity.
Qed.

End ServerFacts.

(** ** The standalone server: rate limiting, ping, malformed frames *)

Module ServerFrames.
Import Server ServerSpec ServerFacts.

Lemma isOpen_client s c client :
  OMap.get c (clients s) = Some client -> isOpen s c = ClientConnection.ws client.
Proof. intros H. unfold isOpen. now rewrite H. Qed.

(** The limiter in front of the dispatch: the verdict on a parsed frame of
    a registered client, read on the attempts stored under its key. *)
Lemma handleMessage_limited now fresh c msg s client :
  OMap.get c (clients s) = Some client ->
  let limiter := messageRateLimiter s in
  let key := rateLimitKey c msg in
  let valid := RateLimiter.validAttempts now key limiter in
  ((RateLimiter.maxAttempts limiter <= List.length valid)%nat ->
   handleMessage now fresh c (Parsed msg) s =
   (s, if ClientConnection.ws client
       then [(c, error "Rate limit exceeded")] else []))
  /\ ((List.length valid < RateLimiter.maxAttempts limiter)%nat ->
      handleMessage now fresh c (Parsed msg) s =
      dispatch now fresh c msg
        (mkState (clients s) (rooms s)
           (RateLimiter.mk (RateLimiter.maxAttempts limiter)
              (RateLimiter.windowMs limiter)
              (OMap.set key (valid ++ [now]) (RateLimiter.attempts limiter))))).
Proof.
  intros Hc limiter key valid. unfold handleMessage. rewrite Hc.
  unfold RateLimiter.isAllowed. fold limiter key valid. split; intros Hlim.
  - apply Nat.leb_le in Hlim. rewrite Hlim. simpl negb. cbv iota.
    rewrite sendToClient_spec. now rewrite (isOpen_client _ _ _ Hc).
  - apply Nat.leb_gt in Hlim. rewrite Hlim. reflexivity.
Qed.

(** C8, as stated, fails on the route stub: connection A is registered,
    its ping is answered, and no part of the state is updated; the stub has
    no liveness record to update. *)
Lemma route_ping_updates_nothing :
  OMap.get "A" (Route.connections RouteExamples.twoInRoom)
    = Some (Route.Connection.mk true "ua" "alice" "r1" 0)
  /\ Route.handleMessage 5 "f" "A"
       (Route.Parsed (Route.Message.mk (Some "ping") None))
       RouteExamples.twoInRoom
     = (RouteExamples.twoInRoom, [("A", Route.pong 5)]).
Proof. split; reflexivity. Qed.

(** C8, amended. Standalone server: a ping frame of a registered client
    that the limiter lets through sets that client's [lastPing] to the
    current instant and its [isAlive] flag, answers with one pong frame
    carrying the instant, written to that client alone (when its transport
    is open), and leaves every other client and every room as it was. Route
    stub: a ping frame of a registered connection is answered with one pong
    frame carrying the instant, written to that connection alone, and
    changes no state; the stub keeps no liveness record. *)
Theorem ping_answered now fresh c :
  (forall msg s client limiter,
     OMap.get c (clients s) = Some client ->
     hasType "ping" msg ->
     RateLimiter.isAllowed now (rateLimitKey c msg) (messageRateLimiter s)
       = (true, limiter) ->
     exists s' client',
       handleMessage now fresh c (Parsed msg) s =
         (s', if ClientConnection.ws client then [(c, pong now)] else [])
       /\ OMap.get c (clients s') = Some client'
       /\ ClientConnection.lastPing client' = now
       /\ ClientConnection.isAlive client' = true
       /\ ClientConnection.roomId client' = ClientConnection.roomId client
       /\ ClientConnection.userId client' = ClientConnection.userId client
       /\ ClientConnection.username client' = ClientConnection.username client
       /\ ClientConnection.ws client' = ClientConnection.ws client
       /\ (forall d, d <> c -> OMap.get d (clients s') = OMap.get d (clients s))
       /\ OMap.keys (clients s') = OMap.keys (clients s)
       /\ rooms s' = rooms s)
  /\ (forall payload s conn,
        OMap.get c (Route.connections s) = Some conn ->
        Route.handleMessage now fresh c
          (Route.Parsed (Route.Message.mk (Some "ping") payload)) s
        = (s, if Route.Connection.ws conn then [(c, Route.pong now)] else [])).
Proof.
  split.
  - intros msg s client limiter Hc Ht Hok.
    exists (mkState (OMap.alter (setLiveness now true) c (clients s)) (rooms s) limiter),
           (setLiveness now true client).
    split.
    + unfold handleMessage. rewrite Hc, Hok. simpl negb. cbv iota.
      unfold dispatch. rewrite Ht. simpl.
      unfold handlePing. simpl. rewrite Hc.
      rewrite andThen_silent_l. rewrite sendToClient_spec.
      unfold withClients, isOpen. simpl.
      rewrite OMapFacts.get_alter_eq, Hc. reflexivity.
    + simpl. rewrite OMapFacts.get_alter_eq, Hc. simpl.
      repeat split; try reflexivity.
      * intros d Hd. now apply OMapFacts.get_alter_ne.
      * apply OMapFacts.keys_alter.
  - intros payload s conn Hc. unfold Route.handleMessage. rewrite Hc. reflexivity.
Qed.

Lemma ping_answered_witness :
  exists s' client',
    handleMessage 50 "f" "A" ServerExamples.pingFrame ServerExamples.twoInRoom =
      (s', [("A", pong 50)])
    /\ OMap.get "A" (clients s') = Some client'
    /\ ClientConnection.lastPing client' = 50
    /\ ClientConnection.isAlive client' = true
    /\ OMap.get "B" (clients s') = OMap.get "B" (clients ServerExamples.twoInRoom)
    /\ rooms s' = rooms ServerExamples.twoInRoom.
Proof.
  destruct (proj1 (ping_answered 50 "f" "A")
              (WebSocketMessage.mk (Some "ping") None None None None None)
              ServerExamples.twoInRoom
              (ClientConnection.mk "A" true (Some "ua") (Some "alice")
                 (Some "r1") 0 true)
              (RateLimiter.mk 10 60000
                 [("A:join_room", [2]); ("B:join_room", [3]); ("A:ping", [50])])
              eq_refl eq_refl eq_refl)
    as (s' & client' & H1 & H2 & H3 & H4 & _ & _ & _ & _ & H5 & _ & H6).
  exists s', client'. repeat split; try assumption.
  apply H5. discriminate.
Defined.

Lemma handleMessage_unparsable now fresh c s :
  handleMessage now fresh c Unparsable s =
  (s, if isOpen s c then [(c, error "Invalid message format")] else []).
Proof.
  unfold handleMessage, isOpen.
  destruct (OMap.get c (clients s)) as [client|] eqn:Hc; [|reflexivity].
  rewrite sendToClient_spec. unfold isOpen. now rewrite Hc.
Qed.

End ServerFrames.

(** ** The route stub: handlers *)

Module RouteFacts.
Import Route RouteSpec.

Lemma stub_andThen_silent_l (f : State -> State) (g : Handler) s :
  ((fun s => silent (f s)) ;; g) s = g (f s).
Proof. unfold andThen, silent. now destruct (g (f s)). Qed.

Lemma stub_broadcastToRoom_spec roomId msg exclude s :
  broadcastToRoom roomId msg exclude s =
  (s, fanOut msg (recipients s roomId exclude)).
Proof.
  unfold broadcastToRoom, recipients, members.
  destruct (OMap.get roomId (roomConnections s)) as [ids|]; [|reflexivity].
  induction ids as [|d ds IH]; [reflexivity|].
  simpl forEach. unfold andThen at 1. simpl filter. unfold isOpen at 1.
  destruct (excluded d exclude); simpl.
  - now rewrite IH.
  - destruct (OMap.get d (connections s)) as [c|]; rewrite IH; [|reflexivity].
    unfold wsSend. now destruct (Connection.ws c).
Qed.

(** The recipients of a broadcast depend on the connections and on the
    membership only. *)
Lemma recipients_ext s s' roomId exclude :
  connections s' = connections s -> roomConnections s' = roomConnections s ->
  recipients s' roomId exclude = recipients s roomId exclude.
Proof.
  intros Hc Hr. unfold recipients, members, isOpen. now rewrite Hc, Hr.
Qed.

Lemma length_trim_nil (c : ustring) :
  (List.length (trim c) =? 0)%nat = true <-> trim c = [].
Proof.
  rewrite Nat.eqb_eq. destruct (trim c); simpl; split; congruence.
Qed.

Lemma sliceLast_suffix (A : Type) n (l : list A) :
  exists dropped, l = dropped ++ sliceLast n l.
Proof.
  exists (firstn (List.length l - n) l). unfold sliceLast.
  symmetry. apply firstn_skipn.
Qed.

Lemma sliceLast_length (A : Type) n (l : list A) :
  List.length (sliceLast n l) = Nat.min n (List.length l).
Proof. unfold sliceLast. rewrite length_skipn. lia. Qed.

Lemma keep_length l : List.length (keep l) = Nat.min 1000 (List.length l).
Proof.
  unfold keep. destruct (Nat.ltb_spec 1000 (List.length l)).
  - apply sliceLast_length.
  - lia.
Qed.

Lemma keep_suffix l : exists dropped, l = dropped ++ keep l.
Proof.
  unfold keep. destruct (1000 <? List.length l)%nat.
  - apply sliceLast_suffix.
  - now exists [].
Qed.

(** What [handleChatMessage] does with a frame it accepts. *)
Lemma handleChatMessage_accepted now fresh cid conn content ty s room :
  trim content <> [] -> (List.length content <= 1000)%nat ->
  OMap.get (Connection.roomId conn) (rooms s) = Some room ->
  now <= Room.expiresAt room -> Room.isActive room = true ->
  let messageObj :=
    mkChatMessage fresh (trim content) (Connection.userId conn)
      (Connection.username conn) now
      (match ty with Some t => t | None => "text" end) (Room.encrypted room) in
  handleChatMessage now fresh cid conn (Payload.mk (Some content) ty false) s =
  (withRooms
     (OMap.alter
        (fun _ =>
           Room.mk (Room.id room) (Room.participants room)
             (keep (Room.messages room ++ [messageObj]))
             (Room.expiresAt room) (Room.encrypted room) (Room.isActive room))
        (Connection.roomId conn)) s,
   fanOut (message messageObj now) (recipients s (Connection.roomId conn) None)).
Proof.
  intros Ht Hl Hr He Ha messageObj. unfold handleChatMessage. simpl.
  assert (Hc : content <> []) by (intros ->; now apply Ht).
  destruct content as [|x xs]; [contradiction|].
  replace ((List.length (x :: xs) =? 0)%nat) with false by reflexivity.
  destruct (List.length (trim (x :: xs)) =? 0)%nat eqn:E.
  { apply length_trim_nil in E. contradiction. }
  simpl orb.
  destruct (Nat.ltb_spec 1000 (List.length (x :: xs))); [lia|].
  rewrite Hr, Ha.
  replace (now >? Room.expiresAt room) with false
    by (symmetry; rewrite Z.gtb_ltb; apply Z.ltb_ge; lia).
  simpl orb. cbv iota.
  rewrite stub_andThen_silent_l, stub_broadcastToRoom_spec.
  f_equal.
Qed.

End RouteFacts.

(** ** The route stub: the stored history *)

Module RouteHistory.
Import Route RouteSpec RouteFacts.

Lemma keepsRooms_silent (f : State -> State) :
  (forall s, rooms (f s) = rooms s) -> keepsRooms (fun s => silent (f s)).
Proof. intros H s. apply H. Qed.

Lemma keepsRooms_andThen f g : keepsRooms f -> keepsRooms g -> keepsRooms (f ;; g).
Proof.
  intros Hf Hg s. unfold andThen.
  specialize (Hf s). destruct (f s) as [s1 o1]. specialize (Hg s1).
  destruct (g s1) as [s2 o2]. simpl in *. congruence.
Qed.

Lemma keepsRooms_broadcast roomId msg exclude :
  keepsRooms (broadcastToRoom roomId msg exclude).
Proof. intros s. now rewrite stub_broadcastToRoom_spec. Qed.

Lemma keepsRooms_typingExpired t : keepsRooms (typingExpired t).
Proof.
  apply keepsRooms_andThen; [now apply keepsRooms_silent|apply keepsRooms_broadcast].
Qed.

Lemma keepsRooms_fire t : keepsRooms (fire t).
Proof.
  intros s. unfold fire.
  destruct (existsb _ (timers s)); [|reflexivity].
  now rewrite keepsRooms_typingExpired.
Qed.

Lemma keepsRooms_fireAll due : keepsRooms (fireAll due).
Proof.
  induction due as [|t due IH]; [now intros s|].
  apply keepsRooms_andThen; [apply keepsRooms_fire|exact IH].
Qed.

Lemma keepsRooms_runTimers now : keepsRooms (runTimers now).
Proof. intros s. apply keepsRooms_fireAll. Qed.

Lemma keepsRooms_handleTyping now conn payload :
  keepsRooms (handleTyping now conn payload).
Proof.
  intros s. unfold handleTyping.
  destruct (Payload.isTyping payload).
  - unfold setTimeout.
    rewrite stub_andThen_silent_l, stub_broadcastToRoom_spec. simpl.
    now destruct (OMap.get _ (userTyping s)).
  - rewrite stub_broadcastToRoom_spec. simpl.
    now destruct (OMap.get _ (userTyping s)).
Qed.

Lemma historyBounded_alter s roomId room' :
  historyBounded s ->
  (List.length (Room.messages room') <= 1000)%nat ->
  historyBounded (withRooms (OMap.alter (fun _ => room') roomId) s).
Proof.
  intros Hs Hl r room Hr. simpl in Hr.
  destruct (String.eqb_spec roomId r) as [->|Hne].
  - rewrite OMapFacts.get_alter_eq in Hr.
    destruct (OMap.get r (rooms s)); simpl in Hr; [|discriminate].
    injection Hr as <-. exact Hl.
  - rewrite OMapFacts.get_alter_ne in Hr by exact Hne. eauto.
Qed.

Lemma historyBounded_rooms s s' :
  rooms s' = rooms s -> historyBounded s -> historyBounded s'.
Proof. intros E H r room Hr. rewrite E in Hr. eauto. Qed.

Lemma historyBounded_handleChatMessage now fresh cid conn payload s :
  historyBounded s ->
  historyBounded (fst (handleChatMessage now fresh cid conn payload s)).
Proof.
  intros Hs. unfold handleChatMessage.
  destruct (Payload.content payload) as [content|]; [|exact Hs].
  destruct (_ || _); [exact Hs|].
  destruct (1000 <? _)%nat; [exact Hs|].
  destruct (OMap.get _ (rooms s)) as [room|]; [|exact Hs].
  destruct (_ || _); [exact Hs|].
  rewrite stub_andThen_silent_l, stub_broadcastToRoom_spec. simpl fst.
  apply historyBounded_alter; [exact Hs|]. simpl.
  change (List.length (keep (Room.messages room ++
            [mkChatMessage fresh (trim content) (Connection.userId conn)
               (Connection.username conn) now
               match Payload.type payload with Some t => t | None => "text" end
               (Room.encrypted room)])) <= 1000)%nat.
  rewrite keep_length. lia.
Qed.

Lemma historyBounded_handleClose cid s :
  historyBounded s -> historyBounded (fst (handleClose cid s)).
Proof.
  intros Hs. unfold handleClose.
  destruct (OMap.get cid (connections s)) as [conn|]; [|exact Hs].
  cbv zeta.
  match goal with
  | |- context [OMap.get _ (rooms ?x)] => set (s3 := x)
  end.
  assert (E : rooms s3 = rooms s).
  { subst s3.
    repeat match goal with
    | |- context [match ?x with _ => _ end] => destruct x; simpl
    end; reflexivity. }
  assert (H3 : historyBounded s3) by (eapply historyBounded_rooms; eauto).
  destruct (OMap.get _ (rooms s3)) as [room|] eqn:Hr; [|exact H3].
  destruct (existsb _ (Room.participants room)); [|exact H3].
  destruct (existsb _ (connections s3)); [exact H3|].
  rewrite stub_andThen_silent_l, stub_broadcastToRoom_spec. simpl fst.
  apply historyBounded_alter; [exact H3|]. simpl. eauto.
Qed.

Lemma historyBounded_handleMessage now fresh cid data s :
  historyBounded s -> historyBounded (fst (handleMessage now fresh cid data s)).
Proof.
  intros Hs. unfold handleMessage.
  destruct (OMap.get cid (connections s)) as [conn|]; [|exact Hs].
  destruct data as [|msg]; [exact Hs|].
  destruct (Message.type msg) as [t|]; [|exact Hs].
  destruct (String.eqb t "message").
  { destruct (Message.payload msg); [|exact Hs].
    now apply historyBounded_handleChatMessage. }
  destruct (String.eqb t "typing").
  { destruct (Message.payload msg); [|exact Hs].
    eapply historyBounded_rooms; [apply keepsRooms_handleTyping|exact Hs]. }
  destruct (String.eqb t "ping"); exact Hs.
Qed.

Lemma historyBounded_step now i s :
  historyBounded s -> historyBounded (fst (step now i s)).
Proof.
  intros Hs. unfold step, andThen.
  pose proof (keepsRooms_runTimers now s) as E.
  destruct (runTimers now s) as [s1 o1]. simpl in E.
  assert (H1 : historyBounded s1) by (eapply historyBounded_rooms; eauto).
  destruct i as [cid data fresh|cid|].
  - pose proof (historyBounded_handleMessage now fresh cid data _ H1) as H.
    now destruct (handleMessage now fresh cid data s1).
  - pose proof (historyBounded_handleClose cid _ H1) as H.
    now destruct (handleClose cid s1).
  - exact H1.
Qed.

Lemma historyBounded_run trace s :
  historyBounded s -> historyBounded (fst (run trace s)).
Proof.
  revert s. induction trace as [|[now i] trace IH]; intros s Hs; [exact Hs|].
  simpl. unfold andThen.
  pose proof (historyBounded_step now i _ Hs) as H1.
  destruct (step now i s) as [s1 o1]. simpl in H1.
  specialize (IH s1 H1). now destruct (run trace s1).
Qed.

End RouteHistory.

Module RouteHistoryBound.
Import Route RouteSpec RouteFacts RouteHistory.

(** C10. In the route stub an accepted chat message (non-blank content of
    at most 1000 code units, for a room that exists, is active and has not
    expired) is appended to the history of its room, and the history is then
    cut to its last 1000 entries: the stored list is a suffix of the old list
    followed by the new message, its length is the smaller of 1000 and the
    old length plus one, and nothing but the broadcast of the message is
    written, so the entries cut off at the front go unreported. No step of
    the stub ever takes a history of at most 1000 messages above 1000. *)
Theorem history_keeps_last_1000 now fresh cid conn content ty s room :
  OMap.get cid (connections s) = Some conn ->
  trim content <> [] ->
  (List.length content <= 1000)%nat ->
  OMap.get (Connection.roomId conn) (rooms s) = Some room ->
  now <= Room.expiresAt room ->
  Room.isActive room = true ->
  let messageObj :=
    mkChatMessage fresh (trim content) (Connection.userId conn)
      (Connection.username conn) now
      (match ty with Some t => t | None => "text" end) (Room.encrypted room) in
  let result := handleMessage now fresh cid (chatFrame content ty) s in
  (exists room' dropped,
     OMap.get (Connection.roomId conn) (rooms (fst result)) = Some room'
     /\ Room.messages room ++ [messageObj] = dropped ++ Room.messages room'
     /\ List.length (Room.messages room')
        = Nat.min 1000 (S (List.length (Room.messages room)))
     /\ (List.length (Room.messages room') <= 1000)%nat)
  /\ snd result
     = fanOut (message messageObj now) (recipients s (Connection.roomId conn) None)
  /\ (forall trace s0, historyBounded s0 -> historyBounded (fst (run trace s0))).
Proof.
  intros Hc Ht Hl Hr He Ha messageObj result.
  assert (E : result =
    (withRooms
       (OMap.alter
          (fun _ =>
             Room.mk (Room.id room) (Room.participants room)
               (keep (Room.messages room ++ [messageObj]))
               (Room.expiresAt room) (Room.encrypted room) (Room.isActive room))
          (Connection.roomId conn)) s,
     fanOut (message messageObj now) (recipients s (Connection.roomId conn) None))).
  { subst result. unfold handleMessage, chatFrame. rewrite Hc. simpl.
    now apply handleChatMessage_accepted. }
  rewrite E. cbn [fst snd]. split; [|split; [reflexivity|]].
  - destruct (keep_suffix (Room.messages room ++ [messageObj])) as [dropped Hd].
    exists (Room.mk (Room.id room) (Room.participants room)
              (keep (Room.messages room ++ [messageObj]))
              (Room.expiresAt room) (Room.encrypted room) (Room.isActive room)),
           dropped.
    split.
    { unfold withRooms. cbn [rooms]. rewrite OMapFacts.get_alter_eq, Hr. reflexivity. }
    cbn [Room.messages]. split; [exact Hd|].
    rewrite keep_length, length_app. cbn [List.length]. split; lia.
  - intros trace s0. apply historyBounded_run.
Qed.

Lemma history_keeps_last_1000_witness :
  let messageObj := mkChatMessage "m1" [104%N; 105%N] "ua" "alice" 7 "text" false in
  let result :=
    handleMessage 7 "m1" "A" (chatFrame [104%N; 105%N] None) RouteExamples.fullRoom in
  (exists room' dropped,
     OMap.get "r1" (rooms (fst result)) = Some room'
     /\ repeat RouteExamples.oldMessage 1000 ++ [messageObj]
        = dropped ++ Room.messages room'
     /\ List.length (Room.messages room')
        = Nat.min 1000 (S (List.length (repeat RouteExamples.oldMessage 1000)))
     /\ (List.length (Room.messages room') <= 1000)%nat)
  /\ snd result = [("A", message messageObj 7); ("B", message messageObj 7)]
  /\ (forall trace s0, historyBounded s0 -> historyBounded (fst (run trace s0))).
Proof.
  exact (@history_keeps_last_1000 7 "m1" "A"
           (Connection.mk true "ua" "alice" "r1" 0) [104%N; 105%N] None
           RouteExamples.fullRoom
           (Room.mk "r1"
              [mkParticipant "ua" "alice" 0 true; mkParticipant "ub" "bob" 0 true]
              (repeat RouteExamples.oldMessage 1000) 1000000 false true)
           eq_refl ltac:(discriminate) ltac:(simpl; lia) eq_refl
           ltac:(simpl; lia) eq_refl).
Defined.

End RouteHistoryBound.

(** ** Frames that do not parse *)

Module MalformedFrames.

(** C7, as stated, fails on the route stub: connection A is registered and
    open, its frame does not parse, and no error frame is written to it. *)
Lemma route_unparsable_unanswered :
  OMap.get "A" (Route.connections RouteExamples.twoInRoom)
    = Some (Route.Connection.mk true "ua" "alice" "r1" 0)
  /\ ~ (exists e,
          In ("A", Route.error e)
            (snd (Route.handleMessage 5 "f" "A" Route.Unparsable
                    RouteExamples.twoInRoom))).
Proof.
  split; [reflexivity|].
  intros [e H]. vm_compute in H. exact H.
Qed.

(** C7, amended. A frame on which [JSON.parse] throws changes no state in
    either implementation. The standalone server answers it with one error
    frame "Invalid message format", written to the originating client alone
    (when it is registered and its transport is open); the route stub writes
    nothing. *)
Theorem unparsable_frame now fresh c :
  (forall s,
     Server.handleMessage now fresh c Server.Unparsable s =
     (s, if ServerSpec.isOpen s c
         then [(c, Server.error "Invalid message format")] else []))
  /\ (forall s, Route.handleMessage now fresh c Route.Unparsable s = (s, [])).
Proof.
  split; intros s.
  - apply ServerFrames.handleMessage_unparsable.
  - unfold Route.handleMessage.
    now destruct (OMap.get c (Route.connections s)).
Qed.

End MalformedFrames.

(** ** The standalone server: chat and typing fan-out *)

Module ServerBroadcast.
Import Server ServerSpec ServerFacts.

Lemma truthy_Some r : truthy (Some r) = true <-> r <> "".
Proof.
  simpl. destruct (String.eqb_spec r ""); simpl; split; congruence.
Qed.

Lemma orElse_Some r d : r <> "" -> orElse (Some r) d = r.
Proof.
  intros H. unfold orElse. apply truthy_Some in H. now rewrite H.
Qed.

Lemma truthyU_Some (c : ustring) : truthyU (Some c) = true <-> c <> [].
Proof. destruct c; simpl; split; congruence. Qed.

Lemma recipients_congr s s' r exclude :
  clients s' = clients s -> members s' r = members s r ->
  recipients s' r exclude = recipients s r exclude.
Proof.
  intros Hc Hm. unfold recipients, isOpen. now rewrite Hc, Hm.
Qed.

Lemma members_alter_activity now r' r s :
  members (withRooms (OMap.alter (setLastActivity now) r') s) r = members s r.
Proof.
  unfold members. simpl.
  destruct (String.eqb_spec r' r) as [->|Hne].
  - rewrite OMapFacts.get_alter_eq. now destruct (OMap.get r (rooms s)).
  - now rewrite OMapFacts.get_alter_ne.
Qed.

(** When every member is registered with an open transport, a broadcast
    without exclusion reaches the whole membership. *)
Lemma recipients_all s r :
  (forall d, In d (members s r) -> isOpen s d = true) ->
  recipients s r None = members s r.
Proof.
  intros H. unfold recipients.
  induction (members s r) as [|d ds IH]; [reflexivity|].
  simpl. rewrite (H d) by now left. simpl. f_equal.
  apply IH. intros d' Hd'. apply H. now right.
Qed.

(** ... and a broadcast that excludes [c] reaches the membership without
    [c]. *)
Lemma recipients_others s r c :
  (forall d, In d (members s r) -> isOpen s d = true) ->
  recipients s r (Some c) = OSet.delete c (members s r).
Proof.
  intros H. unfold recipients, OSet.delete.
  induction (members s r) as [|d ds IH]; [reflexivity|].
  simpl. rewrite (H d) by now left.
  rewrite (String.eqb_sym c d). rewrite andb_true_r.
  destruct (String.eqb d c); simpl.
  - apply IH. intros d' Hd'. apply H. now right.
  - f_equal. apply IH. intros d' Hd'. apply H. now right.
Qed.

Lemma length_delete_member c (l : OSet.t) :
  NoDup l -> In c l -> S (List.length (OSet.delete c l)) = List.length l.
Proof.
  unfold OSet.delete. induction 1 as [|x l Hx Hl IH]; simpl; [tauto|].
  intros [->|Hin].
  - rewrite String.eqb_refl. simpl. f_equal.
    rewrite forallb_filter_id; [reflexivity|].
    apply forallb_forall. intros y Hy.
    destruct (String.eqb_spec c y) as [->|]; [contradiction|reflexivity].
  - destruct (String.eqb_spec c x) as [->|Hne]; [contradiction|].
    simpl. f_equal. now apply IH.
Qed.

(** What [handleChatMessage] does with a frame whose content is not empty,
    for a client whose room exists. *)
Lemma handleChatMessage_relays now fresh c msg data content s client r room :
  OMap.get c (clients s) = Some client ->
  WebSocketMessage.data msg = Some data ->
  Data.content data = Some content ->
  content <> [] ->
  ClientConnection.roomId client = Some r ->
  OMap.get r (rooms s) = Some room ->
  r <> "" ->
  handleChatMessage now fresh c msg s =
  (withRooms (OMap.alter (setLastActivity now) r) s,
   fanOut
     (message r (ClientConnection.userId client) (ClientConnection.username client)
        (mkChatData (orElse (WebSocketMessage.id msg) fresh) content
           (ClientConnection.userId client) (ClientConnection.username client)
           (orElse (Data.type data) "text")
           (match Data.encrypted data with Some b => b | None => false end))
        now)
     (recipients s r None)).
Proof.
  intros Hc Hd Hco Hne Hr Hroom Hrne.
  unfold handleChatMessage. rewrite Hc, Hd, Hr, Hco.
  rewrite (proj2 (truthy_Some r) Hrne), (proj2 (truthyU_Some content) Hne).
  simpl negb. cbv iota. rewrite (orElse_Some _ _ Hrne). cbv zeta. rewrite Hroom.
  rewrite andThen_silent_l, broadcastToRoom_spec. f_equal. f_equal.
  apply recipients_congr; [reflexivity|apply members_alter_activity].
Qed.

(** What [handleTyping] does for a client whose room exists. *)
Lemma handleTyping_relays now c msg s client r room :
  OMap.get c (clients s) = Some client ->
  ClientConnection.roomId client = Some r ->
  OMap.get r (rooms s) = Some room ->
  r <> "" ->
  handleTyping now c msg s =
  (s,
   fanOut
     (typing r (ClientConnection.userId client) (ClientConnection.username client)
        (match WebSocketMessage.data msg with
         | Some data => match Data.typing data with Some b => b | None => false end
         | None => false
         end) now)
     (recipients s r (Some c))).
Proof.
  intros Hc Hr Hroom Hrne. unfold handleTyping. rewrite Hc, Hr.
  rewrite (proj2 (truthy_Some r) Hrne). simpl negb. cbv iota.
  rewrite (orElse_Some _ _ Hrne). cbv zeta. rewrite Hroom.
  apply broadcastToRoom_spec.
Qed.

(** A parsed frame that the limiter lets through is recorded and
    dispatched on its type. *)
Lemma handleMessage_dispatch now fresh c msg s client limiter :
  OMap.get c (clients s) = Some client ->
  RateLimiter.isAllowed now (rateLimitKey c msg) (messageRateLimiter s)
    = (true, limiter) ->
  handleMessage now fresh c (Parsed msg) s =
  dispatch now fresh c msg (mkState (clients s) (rooms s) limiter).
Proof.
  intros Hc Hok. unfold handleMessage. now rewrite Hc, Hok.
Qed.

(** The two verdicts of the limiter on a parsed frame. *)
Lemma handleMessage_refused now fresh c msg s client :
  OMap.get c (clients s) = Some client ->
  fst (RateLimiter.isAllowed now (rateLimitKey c msg) (messageRateLimiter s)) = false ->
  handleMessage now fresh c (Parsed msg) s =
  (s, if isOpen s c then [(c, error "Rate limit exceeded")] else []).
Proof.
  intros Hc Hno. unfold handleMessage. rewrite Hc.
  destruct (RateLimiter.isAllowed _ _ _) as [[|] limiter]; [discriminate|].
  simpl negb. cbv iota. apply sendToClient_spec.
Qed.

Lemma handleMessage_allowed now fresh c msg s client :
  OMap.get c (clients s) = Some client ->
  fst (RateLimiter.isAllowed now (rateLimitKey c msg) (messageRateLimiter s)) = true ->
  handleMessage now fresh c (Parsed msg) s =
  dispatch now fresh c msg
    (mkState (clients s) (rooms s)
       (snd (RateLimiter.isAllowed now (rateLimitKey c msg) (messageRateLimiter s)))).
Proof.
  intros Hc Hok. apply (handleMessage_dispatch now fresh c msg s client _ Hc).
  destruct (RateLimiter.isAllowed _ _ _) as [b limiter]. simpl in *. now subst b.
Qed.

End ServerBroadcast.

(** ** Validation of chat content *)

Module ChatValidation.
Import ChatScenarios.

(** C2, as stated, fails on both implementations. In the route stub a
    frame with blank content gets no error reply; the standalone server
    relays content of 1001 code units to the room. *)
Lemma blank_unanswered_and_long_relayed :
  (~ exists e,
       In ("A", Route.error e)
         (snd (Route.handleMessage 5 "f" "A" (RouteSpec.chatFrame blank None)
                 RouteExamples.twoInRoom)))
  /\ In ("B",
         Server.message "r1" (Some "ua") (Some "alice")
           (Server.mkChatData "f" tooLong (Some "ua") (Some "alice") "text" false) 5)
       (snd (Server.handleMessage 5 "f" "A" (ServerExamples.chat tooLong)
               ServerExamples.twoInRoom)).
Proof.
  split.
  - intros [e H]. vm_compute in H. exact H.
  - vm_compute. right. left. reflexivity.
Qed.

Lemma route_chat_rejected_blank now fresh c conn content ty s :
  trim content = [] ->
  Route.handleChatMessage now fresh c conn
    (Route.Payload.mk (Some content) ty false) s = (s, []).
Proof.
  intros Ht. unfold Route.handleChatMessage. simpl.
  rewrite (proj2 (RouteFacts.length_trim_nil content) Ht).
  now rewrite orb_true_r.
Qed.

Lemma route_chat_rejected_long now fresh c conn content ty s :
  trim content <> [] -> (1000 < List.length content)%nat ->
  Route.handleChatMessage now fresh c conn
    (Route.Payload.mk (Some content) ty false) s =
  (s, Route.wsSend c conn (Route.error Route.MessageTooLong)).
Proof.
  intros Ht Hl. unfold Route.handleChatMessage. simpl.
  destruct (List.length content =? 0)%nat eqn:E0;
    [apply Nat.eqb_eq in E0; lia|].
  destruct (List.length (trim content) =? 0)%nat eqn:E1;
    [apply RouteFacts.length_trim_nil in E1; contradiction|].
  simpl. apply Nat.ltb_lt in Hl. now rewrite Hl.
Qed.

(** C2, amended. Route stub: blank content (empty, or white space only)
    is dropped with no reply and no broadcast; content that is not blank and
    longer than 1000 code units, white space included, gets the error reply
    to the sender alone and no broadcast; content that is not blank and at
    most 1000 code units long is, for a room that exists, is active and has
    not expired, trimmed and broadcast to the open connections of the room.
    Standalone server, for a chat frame of a registered client that is in
    a room of the directory: a frame the rate limiter refuses is answered
    "Rate limit exceeded" to the sender alone and relayed to nobody; of the
    frames the limiter allows, only empty content is dropped (silently), and
    any other content, of any length and blank or not, is relayed unchanged
    to the open members of the sender's room. *)
Theorem chat_content_validation now fresh c :
  (forall s conn content ty,
     OMap.get c (Route.connections s) = Some conn ->
     let result :=
       Route.handleMessage now fresh c (RouteSpec.chatFrame content ty) s in
     (trim content = [] -> result = (s, []))
     /\ (trim content <> [] -> (1000 < List.length content)%nat ->
         result = (s, Route.wsSend c conn (Route.error Route.MessageTooLong)))
     /\ (trim content <> [] -> (List.length content <= 1000)%nat ->
         forall room,
           OMap.get (Route.Connection.roomId conn) (Route.rooms s) = Some room ->
           now <= Route.Room.expiresAt room ->
           Route.Room.isActive room = true ->
           snd result =
           RouteSpec.fanOut
             (Route.message
                (Route.mkChatMessage fresh (trim content)
                   (Route.Connection.userId conn) (Route.Connection.username conn)
                   now (match ty with Some t => t | None => "text" end)
                   (Route.Room.encrypted room))
                now)
             (RouteSpec.recipients s (Route.Connection.roomId conn) None)))
  /\
  (forall s client msg data content r room,
     OMap.get c (Server.clients s) = Some client ->
     ServerSpec.hasType "message" msg ->
     Server.WebSocketMessage.data msg = Some data ->
     Server.Data.content data = Some content ->
     Server.ClientConnection.roomId client = Some r ->
     r <> "" ->
     OMap.get r (Server.rooms s) = Some room ->
     let verdict :=
       RateLimiter.isAllowed now (Server.rateLimitKey c msg)
         (Server.messageRateLimiter s) in
     let result := Server.handleMessage now fresh c (Server.Parsed msg) s in
     (fst verdict = false ->
      result =
      (s, if ServerSpec.isOpen s c
          then [(c, Server.error "Rate limit exceeded")] else []))
     /\ (fst verdict = true ->
         (content = [] ->
          result =
          (Server.mkState (Server.clients s) (Server.rooms s) (snd verdict), []))
         /\ (content <> [] ->
             snd result =
             ServerSpec.fanOut
               (Server.message r (Server.ClientConnection.userId client)
                  (Server.ClientConnection.username client)
                  (Server.mkChatData
                     (orElse (Server.WebSocketMessage.id msg) fresh) content
                     (Server.ClientConnection.userId client)
                     (Server.ClientConnection.username client)
                     (orElse (Server.Data.type data) "text")
                     (match Server.Data.encrypted data with
                      | Some b => b
                      | None => false
                      end))
                  now)
               (ServerSpec.recipients s r None)))).
Proof.
  split.
  - intros s conn content ty Hc result.
    assert (E : result =
              Route.handleChatMessage now fresh c conn
                (Route.Payload.mk (Some content) ty false) s).
    { subst result. unfold Route.handleMessage, RouteSpec.chatFrame.
      now rewrite Hc. }
    rewrite E. repeat split.
    + apply route_chat_rejected_blank.
    + apply route_chat_rejected_long.
    + intros Ht Hl room Hr He Ha.
      now rewrite (@RouteFacts.handleChatMessage_accepted now fresh c conn content ty s
                     room Ht Hl Hr He Ha).
  - intros s client msg data content r room Hc Ht Hd Hco Hr Hrne Hroom verdict result.
    split.
    { intros Hno. exact (ServerBroadcast.handleMessage_refused now fresh c msg s
                           client Hc Hno). }
    intros Hok.
    assert (E : result =
              Server.handleChatMessage now fresh c msg
                (Server.mkState (Server.clients s) (Server.rooms s) (snd verdict))).
    { subst result verdict.
      rewrite (ServerBroadcast.handleMessage_allowed now fresh c msg s client Hc Hok).
      unfold Server.dispatch. rewrite Ht. reflexivity. }
    rewrite E. split.
    + intros ->. unfold Server.handleChatMessage. simpl. rewrite Hc, Hd, Hco.
      simpl. now rewrite andb_false_r.
    + intros Hne.
      rewrite (@ServerBroadcast.handleChatMessage_relays now fresh c msg data content
                 (Server.mkState (Server.clients s) (Server.rooms s) (snd verdict))
                 client r room Hc Hd Hco Hne Hr Hroom Hrne).
      reflexivity.
Qed.

Lemma chat_content_validation_witness :
  Route.handleMessage 5 "f" "A" (RouteSpec.chatFrame blank None)
    RouteExamples.twoInRoom = (RouteExamples.twoInRoom, [])
  /\ Route.handleMessage 5 "f" "A" (RouteSpec.chatFrame tooLong None)
       RouteExamples.twoInRoom
     = (RouteExamples.twoInRoom, [("A", Route.error Route.MessageTooLong)])
  /\ Server.handleMessage 20 "f" "A"
       (Server.Parsed (ServerSpecMore.chatFrame [104%N; 105%N]))
       ServerSpecMore.tenChats
     = (ServerSpecMore.tenChats, [("A", Server.error "Rate limit exceeded")]).
Proof.
  pose proof (proj1 (chat_content_validation 5 "f" "A") RouteExamples.twoInRoom
                (Route.Connection.mk true "ua" "alice" "r1" 0)) as H.
  split; [|split].
  - exact (proj1 (H blank None eq_refl) eq_refl).
  - refine (proj1 (proj2 (H tooLong None eq_refl)) _ _).
    + vm_compute. discriminate.
    + vm_compute. lia.
  - assert (Hc : OMap.get "A" (Server.clients ServerSpecMore.tenChats)
                 = Some (Server.ClientConnection.mk "A" true (Some "ua")
                           (Some "alice") (Some "r1") 0 true))
      by (vm_compute; reflexivity).
    assert (Hr : OMap.get "r1" (Server.rooms ServerSpecMore.tenChats)
                 = Some (Server.Room.mk "r1" ["A"; "B"] 2 19))
      by (vm_compute; reflexivity).
    assert (Hv : fst (RateLimiter.isAllowed 20
                        (Server.rateLimitKey "A"
                           (ServerSpecMore.chatFrame [104%N; 105%N]))
                        (Server.messageRateLimiter ServerSpecMore.tenChats))
                 = false) by (vm_compute; reflexivity).
    assert (Ho : ServerSpec.isOpen ServerSpecMore.tenChats "A" = true)
      by (vm_compute; reflexivity).
    pose proof (proj1 (proj2 (chat_content_validation 20 "f" "A")
                         ServerSpecMore.tenChats _
                         (ServerSpecMore.chatFrame [104%N; 105%N])
                         (Server.Data.mk (Some [104%N; 105%N]) None None None)
                         [104%N; 105%N] "r1" _
                         Hc eq_refl eq_refl eq_refl eq_refl
                         ltac:(discriminate) Hr) Hv) as E.
    rewrite Ho in E. exact E.
Defined.

End ChatValidation.

(** ** Completeness of the fan-out *)

Module BroadcastCompleteness.

(** Standalone server: a relayed chat message is written once to each of
    the N members of the sender's room, the sender included, when all of them
    are registered with an open transport. *)
Lemma server_chat_reaches_all now fresh c msg data content s client r room limiter :
  OMap.get c (Server.clients s) = Some client ->
  ServerSpec.hasType "message" msg ->
  Server.WebSocketMessage.data msg = Some data ->
  Server.Data.content data = Some content ->
  content <> [] ->
  Server.ClientConnection.roomId client = Some r ->
  r <> "" ->
  OMap.get r (Server.rooms s) = Some room ->
  (forall d, In d (Server.Room.clients room) -> ServerSpec.isOpen s d = true) ->
  RateLimiter.isAllowed now (Server.rateLimitKey c msg)
    (Server.messageRateLimiter s) = (true, limiter) ->
  exists frame,
    snd (Server.handleMessage now fresh c (Server.Parsed msg) s)
    = ServerSpec.fanOut frame (Server.Room.clients room).
Proof.
  intros Hc Ht Hd Hco Hne Hr Hrne Hroom Hopen Hok.
  rewrite (ServerBroadcast.handleMessage_dispatch _ _ _ _ _ _ _ Hc Hok).
  unfold Server.dispatch. rewrite Ht. simpl.
  rewrite (@ServerBroadcast.handleChatMessage_relays now fresh c msg data content
             (Server.mkState (Server.clients s) (Server.rooms s) limiter)
             client r room Hc Hd Hco Hne Hr Hroom Hrne).
  eexists. simpl snd. f_equal.
  rewrite ServerBroadcast.recipients_all; unfold ServerSpec.members; simpl;
    rewrite Hroom; [reflexivity|exact Hopen].
Qed.

(** Standalone server: a typing frame is written once to each of the
    other N-1 members, and not to the sender. *)
Lemma server_typing_reaches_others now fresh c msg s client r room limiter :
  OMap.get c (Server.clients s) = Some client ->
  ServerSpec.hasType "typing" msg ->
  Server.ClientConnection.roomId client = Some r ->
  r <> "" ->
  OMap.get r (Server.rooms s) = Some room ->
  NoDup (Server.Room.clients room) ->
  In c (Server.Room.clients room) ->
  (forall d, In d (Server.Room.clients room) -> ServerSpec.isOpen s d = true) ->
  RateLimiter.isAllowed now (Server.rateLimitKey c msg)
    (Server.messageRateLimiter s) = (true, limiter) ->
  exists frame,
    snd (Server.handleMessage now fresh c (Server.Parsed msg) s)
    = ServerSpec.fanOut frame (OSet.delete c (Server.Room.clients room))
    /\ S (List.length (OSet.delete c (Server.Room.clients room)))
       = List.length (Server.Room.clients room)
    /\ ~ In c (OSet.delete c (Server.Room.clients room)).
Proof.
  intros Hc Ht Hr Hrne Hroom Hnd Hin Hopen Hok.
  rewrite (ServerBroadcast.handleMessage_dispatch _ _ _ _ _ _ _ Hc Hok).
  unfold Server.dispatch. rewrite Ht. simpl.
  rewrite (@ServerBroadcast.handleTyping_relays now c msg
             (Server.mkState (Server.clients s) (Server.rooms s) limiter)
             client r room Hc Hr Hroom Hrne).
  eexists. simpl snd. split; [|split].
  - f_equal.
    rewrite ServerBroadcast.recipients_others; unfold ServerSpec.members; simpl;
      rewrite Hroom; [reflexivity|exact Hopen].
  - now apply ServerBroadcast.length_delete_member.
  - apply OSetFacts.not_in_delete.
Qed.

(** Route stub: the exclusion handed to [broadcastToRoom] for a typing
    start is [connection.id], which no stored connection has; the frame goes
    to every open connection of the room. *)
Lemma route_typing_start_not_excluded now fresh c conn s :
  OMap.get c (Route.connections s) = Some conn ->
  snd (Route.handleMessage now fresh c (RouteSpec.typingFrame true) s)
  = RouteSpec.fanOut
      (Route.typing (Route.Connection.userId conn) (Route.Connection.username conn)
         true)
      (RouteSpec.recipients s (Route.Connection.roomId conn) None).
Proof.
  intros Hc. unfold Route.handleMessage, RouteSpec.typingFrame. rewrite Hc. simpl.
  unfold Route.handleTyping. simpl. unfold Route.setTimeout.
  rewrite RouteFacts.stub_andThen_silent_l, RouteFacts.stub_broadcastToRoom_spec.
  simpl snd. f_equal. apply RouteFacts.recipients_ext.
  - simpl. now destruct (OMap.get _ (Route.userTyping s)).
  - simpl. now destruct (OMap.get _ (Route.userTyping s)).
Qed.

(** C1, on the route stub. Connections A and B are the two members of room
    r1; A sends a typing start, then a typing stop. Each frame is written to
    A itself as well as to B: two writes for a room of two, not one. *)
Theorem route_typing_reaches_sender :
  RouteSpec.members RouteExamples.twoInRoom "r1" = ["A"; "B"]
  /\ snd (Route.handleMessage 5 "f" "A" (RouteSpec.typingFrame true)
            RouteExamples.twoInRoom)
     = [("A", Route.typing "ua" "alice" true);
        ("B", Route.typing "ua" "alice" true)]
  /\ snd (Route.handleMessage 5 "f" "A" (RouteSpec.typingFrame false)
            RouteExamples.twoInRoom)
     = [("A", Route.typing "ua" "alice" false);
        ("B", Route.typing "ua" "alice" false)].
Proof. repeat split. Qed.

End BroadcastCompleteness.

(** ** The standalone server: leaving and entering a room *)

Module ServerRooms.
Import Server ServerSpec ServerFacts ServerBroadcast.

(** [leaveRoom] for a registered client and an existing room. *)
Lemma leaveRoom_spec now c r s client room :
  OMap.get c (clients s) = Some client ->
  OMap.get r (rooms s) = Some room ->
  leaveRoom now c r s =
  (afterLeave c r room s,
   if truthy (ClientConnection.userId client)
      && truthy (ClientConnection.username client)
   then fanOut (user_left r (orElse (ClientConnection.userId client) "")
                  (orElse (ClientConnection.username client) "") now)
          (filter (isOpen s) (OSet.delete c (Room.clients room)))
   else []).
Proof.
  intros Hc Hr. unfold leaveRoom. rewrite Hc, Hr.
  rewrite andThen_silent_l.
  set (left := OSet.delete c (Room.clients room)).
  set (s1 := withRooms (OMap.alter (setRoomClients left) r) s).
  assert (Hrec : recipients s1 r (Some c) = filter (isOpen s) left).
  { unfold recipients, members. subst s1. simpl.
    rewrite OMapFacts.get_alter_eq, Hr. simpl.
    apply filter_ext_in. intros d Hd. subst left.
    apply OSetFacts.in_delete in Hd. destruct Hd as [Hne _].
    destruct (String.eqb_spec d c); [contradiction|]. reflexivity. }
  destruct (truthy (ClientConnection.userId client)
            && truthy (ClientConnection.username client)).
  - unfold andThen at 1. rewrite broadcastToRoom_spec, Hrec.
    unfold andThen, silent. rewrite app_nil_r. f_equal.
    unfold afterLeave, roomsAfterLeave. fold left.
    destruct (OSet.size left =? 0)%nat; reflexivity.
  - unfold andThen, silent. simpl. f_equal.
    unfold afterLeave, roomsAfterLeave. fold left.
    destruct (OSet.size left =? 0)%nat; reflexivity.
Qed.

(** [leaveRoom] for a room that is no longer in the directory. *)
Lemma leaveRoom_no_room now c r s :
  OMap.get r (rooms s) = None -> leaveRoom now c r s = (s, []).
Proof.
  intros Hr. unfold leaveRoom. rewrite Hr.
  now destruct (OMap.get c (clients s)).
Qed.

(** Leaving never adds a room. *)
Lemma roomsAfterLeave_none c r room rs k :
  OMap.get k rs = None -> OMap.get k (roomsAfterLeave c r room rs) = None.
Proof.
  intros Hk. unfold roomsAfterLeave.
  assert (Ha : forall f, OMap.get k (OMap.alter f r rs) = None).
  { intros f. destruct (String.eqb_spec r k) as [->|Hne].
    - now rewrite OMapFacts.get_alter_eq, Hk.
    - now rewrite OMapFacts.get_alter_ne. }
  destruct (OSet.size _ =? 0)%nat; [|apply Ha].
  destruct (String.eqb_spec r k) as [->|Hne].
  - apply OMapFacts.get_delete_eq.
  - rewrite OMapFacts.get_delete_ne by exact Hne. apply Ha.
Qed.

(** [handleJoinRoom] on a frame that carries a room, a user and a name:
    the implicit leave runs first, the join follows. *)
Lemma handleJoinRoom_spec now c roomId userId username s client :
  OMap.get c (clients s) = Some client ->
  roomId <> "" -> userId <> "" -> username <> "" ->
  handleJoinRoom now c (joinFrame roomId userId username) s =
  (let (s1, o1) :=
     (if truthy (ClientConnection.roomId client)
      then leaveRoom now c (orElse (ClientConnection.roomId client) "")
      else silent) s in
   let s4 := afterEnter now c roomId userId username s1 in
   (s4,
    o1 ++ fanOut (user_joined roomId userId username now)
            (recipients s4 roomId (Some c))
       ++ (if isOpen s4 c
           then [(c, room_joined roomId (getRoomParticipants roomId s4))]
           else []))).
Proof.
  intros Hc Hr Hu Hn. unfold handleJoinRoom, joinFrame. rewrite Hc.
  cbn [WebSocketMessage.roomId WebSocketMessage.userId WebSocketMessage.username].
  rewrite (proj2 (truthy_Some _) Hr), (proj2 (truthy_Some _) Hu),
    (proj2 (truthy_Some _) Hn).
  simpl negb. cbv iota.
  rewrite !orElse_Some by assumption. cbv zeta.
  unfold andThen at 1.
  destruct ((if truthy (ClientConnection.roomId client)
             then leaveRoom now c (orElse (ClientConnection.roomId client) "")
             else silent) s) as [s1 o1].
  rewrite !andThen_silent_l.
  unfold andThen. rewrite broadcastToRoom_spec, sendToClient_spec.
  unfold afterEnter, withRooms, withClients. simpl.
  destruct (OMap.has roomId (rooms s1)); reflexivity.
Qed.

End ServerRooms.

(** ** The standalone server: the sweep of inactive rooms *)

Module IdleRooms.
Import Server ServerSpec ServerFacts ServerBroadcast ServerRooms.

Lemma existsb_keys (V : Type) k (m : OMap.t V) :
  existsb (String.eqb k) (OMap.keys m) = OMap.has k m.
Proof.
  unfold OMap.has, OMap.keys. induction m as [|[k' v] m IH]; simpl; [reflexivity|].
  destruct (String.eqb k k'); [reflexivity|exact IH].
Qed.

(** The loop over the room ids leaves a room in place unless it is visited
    while inactive. *)
Lemma cleanupRooms_loop now ks :
  forall s,
    let result :=
      forEach ks
        (fun roomId s =>
           match OMap.get roomId (rooms s) with
           | None => (s, [])
           | Some room =>
               if now - Room.lastActivity room >? roomTimeout
               then silent (withRooms (OMap.delete roomId) s)
               else (s, [])
           end) s in
    snd result = []
    /\ clients (fst result) = clients s
    /\ messageRateLimiter (fst result) = messageRateLimiter s
    /\ forall k,
         OMap.get k (rooms (fst result)) =
         match OMap.get k (rooms s) with
         | Some room =>
             if inactive now room && existsb (String.eqb k) ks
             then None else Some room
         | None => None
         end.
Proof.
  induction ks as [|k0 ks IH]; intros s; simpl.
  - repeat split. intros k. destruct (OMap.get k (rooms s)); [|reflexivity].
    now rewrite andb_false_r.
  - unfold andThen.
    destruct (OMap.get k0 (rooms s)) as [room0|] eqn:H0.
    + destruct (now - Room.lastActivity room0 >? roomTimeout) eqn:Hst.
      * unfold silent.
        specialize (IH (withRooms (OMap.delete k0) s)). simpl in IH.
        destruct (forEach ks _ (withRooms (OMap.delete k0) s)) as [s2 o2].
        simpl in *. destruct IH as (-> & Hc & Hl & Hg). repeat split; try assumption.
        intros k. rewrite Hg. destruct (String.eqb_spec k k0) as [->|Hne].
        -- rewrite OMapFacts.get_delete_eq, H0. unfold inactive. now rewrite Hst.
        -- rewrite OMapFacts.get_delete_ne by congruence. reflexivity.
      * specialize (IH s). simpl in IH.
        destruct (forEach ks _ s) as [s2 o2].
        simpl in *. destruct IH as (-> & Hc & Hl & Hg). repeat split; try assumption.
        intros k. rewrite Hg. destruct (String.eqb_spec k k0) as [->|Hne].
        -- rewrite H0. unfold inactive. now rewrite Hst.
        -- reflexivity.
    + specialize (IH s). simpl in IH.
      destruct (forEach ks _ s) as [s2 o2].
      simpl in *. destruct IH as (-> & Hc & Hl & Hg). repeat split; try assumption.
      intros k. rewrite Hg. destruct (String.eqb_spec k k0) as [->|Hne].
      -- now rewrite H0.
      -- reflexivity.
Qed.

(** The first loop of the cleanup timer writes nothing, keeps the
    registry, and removes exactly the inactive rooms. *)
Lemma cleanupRooms_spec now s :
  snd (cleanupRooms now s) = []
  /\ clients (fst (cleanupRooms now s)) = clients s
  /\ messageRateLimiter (fst (cleanupRooms now s)) = messageRateLimiter s
  /\ forall k,
       OMap.get k (rooms (fst (cleanupRooms now s))) =
       match OMap.get k (rooms s) with
       | Some room => if inactive now room then None else Some room
       | None => None
       end.
Proof.
  destruct (cleanupRooms_loop now (OMap.keys (rooms s)) s) as (Ho & Hc & Hl & Hg).
  unfold cleanupRooms. repeat split; try assumption.
  intros k. rewrite Hg. rewrite existsb_keys. unfold OMap.has.
  destruct (OMap.get k (rooms s)); [|reflexivity].
  now rewrite andb_true_r.
Qed.

(** A join into a room id that the directory does not hold creates the
    room afresh, with the joiner as its only member. *)
Lemma join_creates_room now c roomId userId username s client :
  OMap.get c (clients s) = Some client ->
  roomId <> "" -> userId <> "" -> username <> "" ->
  OMap.get roomId (rooms s) = None ->
  OMap.get roomId
    (rooms (fst (handleJoinRoom now c (joinFrame roomId userId username) s)))
  = Some (Room.mk roomId [c] now now).
Proof.
  intros Hc Hr Hu Hn Hnone.
  rewrite (handleJoinRoom_spec now c roomId userId username s client Hc Hr Hu Hn).
  assert (H1 : OMap.get roomId
                 (rooms (fst ((if truthy (ClientConnection.roomId client)
                               then leaveRoom now c
                                      (orElse (ClientConnection.roomId client) "")
                               else silent) s))) = None).
  { destruct (truthy (ClientConnection.roomId client)); [|exact Hnone].
    set (old := orElse (ClientConnection.roomId client) "").
    destruct (OMap.get old (rooms s)) as [room|] eqn:Hold.
    - rewrite (leaveRoom_spec now c old s client room Hc Hold). simpl.
      now apply roomsAfterLeave_none.
    - now rewrite leaveRoom_no_room. }
  destruct ((if truthy (ClientConnection.roomId client)
             then leaveRoom now c (orElse (ClientConnection.roomId client) "")
             else silent) s) as [s1 o1].
  simpl in H1. simpl. unfold OMap.has. rewrite H1.
  rewrite OMapFacts.get_alter_eq, OMapFacts.get_set_eq. reflexivity.
Qed.

(** C6, as stated, fails: room r1 has the two members A and B, both of
    which pinged a few milliseconds ago, and the sweep deletes it because
    nobody chatted for an hour. *)
Lemma sweep_deletes_occupied_room :
  members ServerScenarios.quietRoom "r1" = ["A"; "B"]
  /\ OMap.get "r1" (rooms (fst (cleanup 3600010 ServerScenarios.quietRoom))) = None
  /\ OMap.keys (clients (fst (cleanup 3600010 ServerScenarios.quietRoom)))
     = ["A"; "B"].
Proof. vm_compute. repeat split. Qed.

(** C6, amended. The sweep of the room directory deletes exactly the rooms
    whose last activity lies more than an hour back, members or not; every
    other room stays as it is; the sweep writes nothing and leaves the
    registry alone. A later join with the id of a room that is not in the
    directory creates a fresh entry, created at the instant of the join with
    the joiner as its only member. *)
Theorem idle_sweep now s :
  (snd (cleanupRooms now s) = []
   /\ clients (fst (cleanupRooms now s)) = clients s
   /\ forall k,
        OMap.get k (rooms (fst (cleanupRooms now s))) =
        match OMap.get k (rooms s) with
        | Some room =>
            if now - Room.lastActivity room >? 60 * 60 * 1000
            then None else Some room
        | None => None
        end)
  /\ (forall later fresh c roomId userId username s1 client limiter,
        OMap.get c (clients s1) = Some client ->
        roomId <> "" -> userId <> "" -> username <> "" ->
        OMap.get roomId (rooms s1) = None ->
        RateLimiter.isAllowed later
          (rateLimitKey c (joinFrame roomId userId username))
          (messageRateLimiter s1) = (true, limiter) ->
        OMap.get roomId
          (rooms (fst (handleMessage later fresh c
                         (Parsed (joinFrame roomId userId username)) s1)))
        = Some (Room.mk roomId [c] later later)).
Proof.
  split.
  - destruct (cleanupRooms_spec now s) as (Ho & Hc & _ & Hg). repeat split; assumption.
  - intros later fresh c roomId userId username s1 client limiter Hc Hr Hu Hn Hnone Hok.
    rewrite (handleMessage_dispatch _ _ _ _ _ _ _ Hc Hok).
    unfold dispatch. simpl.
    exact (join_creates_room later c roomId userId username
             (mkState (clients s1) (rooms s1) limiter) client Hc Hr Hu Hn Hnone).
Qed.

Lemma idle_sweep_witness :
  OMap.get "r1" (rooms (fst (cleanupRooms 3600010 ServerScenarios.quietRoom))) = None
  /\ OMap.get "r1"
       (rooms (fst (handleMessage 3600020 "f" "A"
                      (Parsed (joinFrame "r1" "ua" "alice"))
                      (fst (cleanupRooms 3600010 ServerScenarios.quietRoom)))))
     = Some (Room.mk "r1" ["A"] 3600020 3600020).
Proof.
  split.
  - rewrite (proj2 (proj2 (proj1 (idle_sweep 3600010 ServerScenarios.quietRoom)))).
    reflexivity.
  - eapply (proj2 (idle_sweep 0 initial)).
    + vm_compute. reflexivity.
    + discriminate.
    + discriminate.
    + discriminate.
    + reflexivity.
    + vm_compute. reflexivity.
Defined.

End IdleRooms.

(** ** The standalone server: consistency of registry and directory *)

Module ServerInvariant.
Import Server ServerSpec ServerFacts ServerBroadcast ServerRooms.

Lemma truthy_roomId client :
  truthy (ClientConnection.roomId client) = true ->
  exists r, ClientConnection.roomId client = Some r /\ r <> ""
            /\ orElse (ClientConnection.roomId client) "" = r.
Proof.
  intros H. destruct (ClientConnection.roomId client) as [r|] eqn:E; [|discriminate].
  exists r. apply truthy_Some in H. split; [reflexivity|]. split; [exact H|].
  now apply orElse_Some.
Qed.

(** In a consistent state a client is a member of its own room only. *)
Lemma member_roomId s c client k :
  wf s -> OMap.get c (clients s) = Some client -> In c (members s k) ->
  ClientConnection.roomId client = Some k /\ k <> "".
Proof.
  intros W Hc Hin. unfold members in Hin.
  destruct (OMap.get k (rooms s)) as [room|] eqn:Hk; [|contradiction].
  destruct (wf_member s W k room c Hk Hin) as (c' & Hc' & Hr).
  rewrite Hc in Hc'. injection Hc' as <-. split; [exact Hr|].
  exact (wf_roomId s W k room Hk).
Qed.

Lemma get_roomsAfterLeave c r room rs k :
  OMap.get r rs = Some room ->
  OMap.get k (roomsAfterLeave c r room rs) =
  if String.eqb k r
  then (if (OSet.size (OSet.delete c (Room.clients room)) =? 0)%nat then None
        else Some (setRoomClients (OSet.delete c (Room.clients room)) room))
  else OMap.get k rs.
Proof.
  intros Hr. unfold roomsAfterLeave.
  destruct (String.eqb_spec k r) as [->|Hne].
  - destruct (OSet.size _ =? 0)%nat.
    + apply OMapFacts.get_delete_eq.
    + now rewrite OMapFacts.get_alter_eq, Hr.
  - destruct (OSet.size _ =? 0)%nat.
    + rewrite OMapFacts.get_delete_ne by congruence.
      now rewrite OMapFacts.get_alter_ne by congruence.
    + now rewrite OMapFacts.get_alter_ne by congruence.
Qed.

Lemma members_afterLeave s c client r room k :
  wf s -> OMap.get c (clients s) = Some client ->
  ClientConnection.roomId client = Some r ->
  OMap.get r (rooms s) = Some room ->
  members (afterLeave c r room s) k = OSet.delete c (members s k).
Proof.
  intros W Hc Hrc Hr. unfold members at 1. simpl.
  rewrite (get_roomsAfterLeave c r room (rooms s) k Hr).
  destruct (String.eqb_spec k r) as [->|Hne].
  - unfold members. rewrite Hr.
    destruct (OSet.delete c (Room.clients room)) eqn:E; reflexivity.
  - fold (members s k). symmetry. apply OSetFacts.delete_absent.
    intros Hin. destruct (member_roomId s c client k W Hc Hin) as [Hk _].
    congruence.
Qed.

Lemma NoDup_delete c (l : OSet.t) : NoDup l -> NoDup (OSet.delete c l).
Proof. apply NoDup_filter. Qed.

Lemma NoDup_add c (l : OSet.t) : NoDup l -> NoDup (OSet.add c l).
Proof.
  intros H. unfold OSet.add. destruct (OSet.has c l) eqn:E; [exact H|].
  apply NoDup_app; [exact H|constructor; [tauto|constructor]|].
  intros x Hx [<-|[]]. apply OSetFacts.has_In in Hx. congruence.
Qed.

Lemma wf_afterLeave s c client r room :
  wf s -> OMap.get c (clients s) = Some client ->
  ClientConnection.roomId client = Some r ->
  OMap.get r (rooms s) = Some room ->
  wf (afterLeave c r room s).
Proof.
  intros W Hc Hrc Hr. constructor; simpl.
  - intros k room' d Hk Hd.
    assert (Hm : In d (members (afterLeave c r room s) k)).
    { unfold members. simpl. now rewrite Hk. }
    rewrite (members_afterLeave s c client r room k W Hc Hrc Hr) in Hm.
    apply OSetFacts.in_delete in Hm. destruct Hm as [Hne Hm].
    rewrite OMapFacts.get_alter_ne by congruence.
    unfold members in Hm. destruct (OMap.get k (rooms s)) as [room0|] eqn:H0;
      [|contradiction].
    exact (wf_member s W k room0 d H0 Hm).
  - intros d cd Hd Ht. destruct (String.eqb_spec c d) as [<-|Hne].
    + rewrite OMapFacts.get_alter_eq, Hc in Hd. injection Hd as <-. discriminate.
    + rewrite OMapFacts.get_alter_ne in Hd by exact Hne.
      exact (wf_identity s W d cd Hd Ht).
  - intros k room' Hk. rewrite (get_roomsAfterLeave c r room (rooms s) k Hr) in Hk.
    destruct (String.eqb k r).
    + destruct (OSet.size _ =? 0)%nat; [discriminate|]. injection Hk as <-. simpl.
      apply NoDup_delete. exact (wf_nodup s W r room Hr).
    + exact (wf_nodup s W k room' Hk).
  - intros k room' Hk. rewrite (get_roomsAfterLeave c r room (rooms s) k Hr) in Hk.
    destruct (String.eqb_spec k r) as [->|Hne].
    + exact (wf_roomId s W r room Hr).
    + exact (wf_roomId s W k room' Hk).
Qed.

(** The leave that opens a join or a disconnect: the frames it writes. *)
Lemma leaveFirst_out now c client s :
  OMap.get c (clients s) = Some client ->
  snd (leaveFirst now c client s) = leaveNotices now c client s.
Proof.
  intros Hc. unfold leaveFirst, leaveNotices.
  destruct (truthy (ClientConnection.roomId client)) eqn:Ht; [|reflexivity].
  simpl andb. set (r := orElse (ClientConnection.roomId client) "").
  destruct (OMap.get r (rooms s)) as [room|] eqn:Hr.
  - rewrite (leaveRoom_spec now c r s client room Hc Hr). simpl.
    unfold members. now rewrite Hr.
  - rewrite leaveRoom_no_room by exact Hr. simpl.
    unfold members. rewrite Hr. simpl.
    now destruct (truthy _ && truthy _).
Qed.

(** ... and the state it leaves: consistent, with the client in no room
    any more and every other client untouched. *)
Lemma leaveFirst_state now c client s :
  wf s -> OMap.get c (clients s) = Some client ->
  let s1 := fst (leaveFirst now c client s) in
  wf s1
  /\ (forall k, members s1 k = OSet.delete c (members s k))
  /\ (exists r1, OMap.get c (clients s1) = Some (setRoomId r1 client))
  /\ (forall d, d <> c -> OMap.get d (clients s1) = OMap.get d (clients s))
  /\ OMap.keys (clients s1) = OMap.keys (clients s)
  /\ messageRateLimiter s1 = messageRateLimiter s.
Proof.
  intros W Hc s1.
  assert (Hstay :
    (forall k, ~ In c (members s k)) ->
    wf s /\ (forall k, members s k = OSet.delete c (members s k))
    /\ (exists r1, OMap.get c (clients s) = Some (setRoomId r1 client))
    /\ (forall d, d <> c -> OMap.get d (clients s) = OMap.get d (clients s))
    /\ OMap.keys (clients s) = OMap.keys (clients s)
    /\ messageRateLimiter s = messageRateLimiter s).
  { intros Hno. split; [exact W|].
    split; [intros k; symmetry; apply OSetFacts.delete_absent, Hno|].
    split; [exists (ClientConnection.roomId client); rewrite Hc; now destruct client|].
    repeat split. }
  subst s1. unfold leaveFirst.
  destruct (truthy (ClientConnection.roomId client)) eqn:Ht.
  - destruct (truthy_roomId client Ht) as (r & Hrc & Hrne & ->).
    destruct (OMap.get r (rooms s)) as [room|] eqn:Hr.
    + rewrite (leaveRoom_spec now c r s client room Hc Hr). simpl fst.
      split; [exact (wf_afterLeave s c client r room W Hc Hrc Hr)|].
      split; [intros k; exact (members_afterLeave s c client r room k W Hc Hrc Hr)|].
      simpl. split.
      { exists None. now rewrite OMapFacts.get_alter_eq, Hc. }
      split; [intros d Hd; apply OMapFacts.get_alter_ne; congruence|].
      split; [apply OMapFacts.keys_alter|reflexivity].
    + rewrite leaveRoom_no_room by exact Hr. simpl fst. apply Hstay.
      intros k Hin. destruct (member_roomId s c client k W Hc Hin) as [Hk _].
      rewrite Hrc in Hk. injection Hk as <-.
      unfold members in Hin. now rewrite Hr in Hin.
  - simpl fst. apply Hstay.
    intros k Hin. destruct (member_roomId s c client k W Hc Hin) as [Hk Hne].
    rewrite Hk in Ht. apply truthy_Some in Hne. congruence.
Qed.

End ServerInvariant.

(** ** The standalone server: joining while in a room *)

Module ServerJoin.
Import Server ServerSpec ServerFacts ServerBroadcast ServerRooms ServerInvariant.

Lemma get_rooms_afterEnter now c B userId username s k :
  OMap.get k (rooms (afterEnter now c B userId username s)) =
  if String.eqb k B
  then Some (match OMap.get B (rooms s) with
             | Some room =>
                 setLastActivity now
                   (setRoomClients (OSet.add c (Room.clients room)) room)
             | None => Room.mk B [c] now now
             end)
  else OMap.get k (rooms s).
Proof.
  unfold afterEnter. simpl. unfold OMap.has.
  destruct (String.eqb_spec k B) as [->|Hne].
  - rewrite OMapFacts.get_alter_eq.
    destruct (OMap.get B (rooms s)) as [room|] eqn:HB.
    + now rewrite HB.
    + now rewrite OMapFacts.get_set_eq.
  - rewrite OMapFacts.get_alter_ne by congruence.
    destruct (OMap.get B (rooms s)); [reflexivity|].
    now rewrite OMapFacts.get_set_ne by congruence.
Qed.

Lemma members_afterEnter now c B userId username s k :
  members (afterEnter now c B userId username s) k =
  if String.eqb k B then OSet.add c (members s B) else members s k.
Proof.
  unfold members at 1. rewrite get_rooms_afterEnter.
  destruct (String.eqb k B); [|reflexivity].
  unfold members. now destruct (OMap.get B (rooms s)).
Qed.

Lemma wf_afterEnter now c B userId username s client :
  wf s -> OMap.get c (clients s) = Some client ->
  (forall k, ~ In c (members s k)) ->
  B <> "" -> userId <> "" -> username <> "" ->
  wf (afterEnter now c B userId username s).
Proof.
  intros W Hc Hno HB Hu Hn.
  assert (Hcl : forall d,
    OMap.get d (clients (afterEnter now c B userId username s)) =
    if String.eqb c d
    then Some (setIdentity (Some userId) (Some username) (Some B) client)
    else OMap.get d (clients s)).
  { intros d. simpl. destruct (String.eqb_spec c d) as [<-|Hne].
    - now rewrite OMapFacts.get_alter_eq, Hc.
    - now rewrite OMapFacts.get_alter_ne. }
  constructor.
  - intros k room d Hk Hd.
    assert (Hm : In d (members (afterEnter now c B userId username s) k)).
    { unfold members. now rewrite Hk. }
    rewrite members_afterEnter in Hm. rewrite Hcl.
    destruct (String.eqb_spec c d) as [<-|Hne].
    + destruct (String.eqb_spec k B) as [->|HkB].
      * eexists. split; reflexivity.
      * exfalso. exact (Hno k Hm).
    + assert (Hm' : In d (members s k)).
      { destruct (String.eqb_spec k B) as [->|HkB]; [|exact Hm].
        apply OSetFacts.in_add in Hm. destruct Hm; [congruence|assumption]. }
      unfold members in Hm'.
      destruct (OMap.get k (rooms s)) as [room0|] eqn:H0; [|contradiction].
      exact (wf_member s W k room0 d H0 Hm').
  - intros d cd Hd Ht. rewrite Hcl in Hd.
    destruct (String.eqb_spec c d) as [<-|Hne].
    + injection Hd as <-. simpl. split; now apply truthy_Some.
    + exact (wf_identity s W d cd Hd Ht).
  - intros k room Hk. rewrite get_rooms_afterEnter in Hk.
    destruct (String.eqb_spec k B) as [->|HkB].
    + injection Hk as <-.
      destruct (OMap.get B (rooms s)) as [room0|] eqn:H0; simpl.
      * apply NoDup_add. exact (wf_nodup s W B room0 H0).
      * constructor; [tauto|constructor].
    + exact (wf_nodup s W k room Hk).
  - intros k room Hk. rewrite get_rooms_afterEnter in Hk.
    destruct (String.eqb_spec k B) as [->|HkB]; [exact HB|].
    exact (wf_roomId s W k room Hk).
Qed.

Lemma wf_limiter s l : wf s -> wf (mkState (clients s) (rooms s) l).
Proof. intros [W1 W2 W3 W4]. constructor; assumption. Qed.

(** [handleJoinRoom] for a registered client, in terms of the leave that
    opens it. *)
Lemma handleJoinRoom_leaveFirst now c B userId username s client :
  OMap.get c (clients s) = Some client ->
  B <> "" -> userId <> "" -> username <> "" ->
  handleJoinRoom now c (joinFrame B userId username) s =
  (let s4 := afterEnter now c B userId username (fst (leaveFirst now c client s)) in
   (s4,
    leaveNotices now c client s
    ++ fanOut (user_joined B userId username now) (recipients s4 B (Some c))
    ++ (if isOpen s4 c
        then [(c, room_joined B (getRoomParticipants B s4))] else []))).
Proof.
  intros Hc HB Hu Hn.
  rewrite (handleJoinRoom_spec now c B userId username s client Hc HB Hu Hn).
  fold (leaveFirst now c client s).
  rewrite <- (leaveFirst_out now c client s Hc).
  now destruct (leaveFirst now c client s).
Qed.

(** A join keeps the registry and the directory consistent. *)
Lemma handleJoinRoom_fields now c msg B userId username s :
  WebSocketMessage.roomId msg = Some B ->
  WebSocketMessage.userId msg = Some userId ->
  WebSocketMessage.username msg = Some username ->
  handleJoinRoom now c msg s = handleJoinRoom now c (joinFrame B userId username) s.
Proof.
  intros EB Eu En. unfold handleJoinRoom, joinFrame.
  cbn [WebSocketMessage.roomId WebSocketMessage.userId WebSocketMessage.username].
  now rewrite EB, Eu, En.
Qed.

Lemma wf_handleJoinRoom now c msg s :
  wf s -> wf (fst (handleJoinRoom now c msg s)).
Proof.
  intros W.
  destruct (OMap.get c (clients s)) as [client|] eqn:Hc;
    [|unfold handleJoinRoom; rewrite Hc; exact W].
  destruct (truthy (WebSocketMessage.roomId msg)
            && truthy (WebSocketMessage.userId msg)
            && truthy (WebSocketMessage.username msg)) eqn:Hv;
    [|unfold handleJoinRoom; rewrite Hc, Hv; exact W].
  apply andb_prop in Hv. destruct Hv as [Hv Hn].
  apply andb_prop in Hv. destruct Hv as [HB Hu].
  destruct (WebSocketMessage.roomId msg) as [B|] eqn:EB; [|discriminate].
  destruct (WebSocketMessage.userId msg) as [u|] eqn:Eu; [|discriminate].
  destruct (WebSocketMessage.username msg) as [n|] eqn:En; [|discriminate].
  apply truthy_Some in HB, Hu, Hn.
  rewrite (handleJoinRoom_fields now c msg B u n s EB Eu En).
  rewrite (handleJoinRoom_leaveFirst now c B u n s client Hc HB Hu Hn).
  cbv zeta. cbn [fst].
  destruct (leaveFirst_state now c client s W Hc) as (W1 & Hm & (r1 & Hc1) & _).
  apply (wf_afterEnter now c B u n _ (setRoomId r1 client) W1 Hc1); try assumption.
  intros k. rewrite Hm. apply OSetFacts.not_in_delete.
Qed.

Lemma isOpen_afterEnter now c B userId username s d :
  isOpen (afterEnter now c B userId username s) d = isOpen s d.
Proof.
  unfold isOpen. simpl. destruct (String.eqb_spec c d) as [<-|Hne].
  - rewrite OMapFacts.get_alter_eq. now destruct (OMap.get c (clients s)).
  - now rewrite OMapFacts.get_alter_ne.
Qed.

(** C4. In a consistent state, let client [c] be a member of room [A] and
    let it send a join for room [B] (that the limiter lets through). The
    frames written are, in this order: [user_left] for [c] to the open
    members that remain in [A]; [user_joined] to the open members of [B]
    other than [c]; the [room_joined] confirmation to [c]. Afterwards [c] is
    a member of [B], of no other room ([A] included, unless [A] is [B]),
    its [roomId] is [B], and the state is consistent again: no client is
    ever a member of two rooms. *)
Theorem join_moves_connection now fresh c A B userId username s client limiter :
  wf s ->
  OMap.get c (clients s) = Some client ->
  In c (members s A) ->
  B <> "" -> userId <> "" -> username <> "" ->
  RateLimiter.isAllowed now (rateLimitKey c (joinFrame B userId username))
    (messageRateLimiter s) = (true, limiter) ->
  let result :=
    handleMessage now fresh c (Parsed (joinFrame B userId username)) s in
  let s' := fst result in
  exists oldUser oldName,
    ClientConnection.userId client = Some oldUser
    /\ ClientConnection.username client = Some oldName
    /\ snd result =
       fanOut (user_left A oldUser oldName now)
         (filter (isOpen s) (OSet.delete c (members s A)))
       ++ fanOut (user_joined B userId username now) (recipients s' B (Some c))
       ++ (if isOpen s c
           then [(c, room_joined B (getRoomParticipants B s'))] else [])
    /\ (A <> B -> ~ In c (members s' A))
    /\ In c (members s' B)
    /\ (forall k, In c (members s' k) -> k = B)
    /\ (exists client',
          OMap.get c (clients s') = Some client'
          /\ ClientConnection.roomId client' = Some B)
    /\ wf s'.
Proof.
  intros W Hc HA HB Hu Hn Hok result s'.
  destruct (member_roomId s c client A W Hc HA) as [HrA HAne].
  assert (HtA : truthy (ClientConnection.roomId client) = true)
    by (rewrite HrA; now apply truthy_Some).
  destruct (wf_identity s W c client Hc HtA) as [Htu Htn].
  destruct (ClientConnection.userId client) as [oldUser|] eqn:Eu; [|discriminate].
  destruct (ClientConnection.username client) as [oldName|] eqn:En; [|discriminate].
  exists oldUser, oldName. split; [reflexivity|]. split; [reflexivity|].
  set (sl := mkState (clients s) (rooms s) limiter).
  assert (Wl : wf sl) by now apply wf_limiter.
  assert (E : result =
    (let s4 := afterEnter now c B userId username (fst (leaveFirst now c client sl)) in
     (s4,
      leaveNotices now c client sl
      ++ fanOut (user_joined B userId username now) (recipients s4 B (Some c))
      ++ (if isOpen s4 c
          then [(c, room_joined B (getRoomParticipants B s4))] else [])))).
  { subst result. rewrite (handleMessage_dispatch _ _ _ _ _ _ _ Hc Hok).
    unfold dispatch. simpl.
    exact (handleJoinRoom_leaveFirst now c B userId username sl client Hc HB Hu Hn). }
  destruct (leaveFirst_state now c client sl Wl Hc)
    as (W1 & Hm & (r1 & Hc1) & Hother & _ & _).
  set (s1 := fst (leaveFirst now c client sl)) in *.
  assert (Es' : s' = afterEnter now c B userId username s1)
    by (subst s'; rewrite E; reflexivity).
  assert (Hno : forall k, ~ In c (members s1 k))
    by (intros k; rewrite Hm; apply OSetFacts.not_in_delete).
  split.
  { rewrite E. cbv zeta. cbn [snd]. fold s1. rewrite <- Es'. f_equal.
    - unfold leaveNotices. rewrite HtA, Eu, En, Htu, Htn. simpl andb. cbv iota.
      rewrite HrA. rewrite !orElse_Some by (try assumption; now apply truthy_Some).
      reflexivity.
    - f_equal. rewrite Es', isOpen_afterEnter.
      unfold isOpen. rewrite Hc1. unfold sl. simpl. now rewrite Hc. }
  rewrite Es'. split; [|split; [|split; [|split]]].
  - intros HAB Hin. rewrite members_afterEnter in Hin.
    destruct (String.eqb_spec A B); [contradiction|]. exact (Hno A Hin).
  - rewrite members_afterEnter, String.eqb_refl. apply OSetFacts.in_add. now left.
  - intros k Hin. rewrite members_afterEnter in Hin.
    destruct (String.eqb_spec k B); [assumption|]. exfalso. exact (Hno k Hin).
  - eexists. split.
    + simpl. rewrite OMapFacts.get_alter_eq. fold (clients s1). rewrite Hc1.
      reflexivity.
    + reflexivity.
  - apply (wf_afterEnter now c B userId username s1 (setRoomId r1 client) W1 Hc1);
      assumption.
Qed.

End ServerJoin.

(** ** The standalone server: disconnects and the sweep of silent clients *)

Module ServerSweep.
Import Server ServerSpec ServerFacts ServerBroadcast ServerRooms ServerInvariant.

Lemma handleDisconnect_spec now c s client :
  OMap.get c (clients s) = Some client ->
  handleDisconnect now c s =
  (withClients (OMap.delete c) (fst (leaveFirst now c client s)),
   leaveNotices now c client s).
Proof.
  intros Hc. unfold handleDisconnect. rewrite Hc.
  change ((leaveFirst now c client ;;
           (fun s => silent (withClients (OMap.delete c) s))) s
          = (withClients (OMap.delete c) (fst (leaveFirst now c client s)),
             leaveNotices now c client s)).
  unfold andThen. rewrite <- (leaveFirst_out now c client s Hc).
  destruct (leaveFirst now c client s) as [s1 o1]. unfold silent. cbn [fst snd].
  now rewrite app_nil_r.
Qed.

(** A disconnect takes the client out of the registry and out of every
    membership, and keeps the state consistent. *)
Lemma handleDisconnect_state now c s client :
  wf s -> OMap.get c (clients s) = Some client ->
  let s' := fst (handleDisconnect now c s) in
  wf s'
  /\ OMap.get c (clients s') = None
  /\ (forall d, d <> c -> OMap.get d (clients s') = OMap.get d (clients s))
  /\ (forall k, members s' k = OSet.delete c (members s k)).
Proof.
  intros W Hc s'. subst s'. rewrite (handleDisconnect_spec now c s client Hc).
  cbn [fst].
  destruct (leaveFirst_state now c client s W Hc) as (W1 & Hm & _ & Hother & _ & _).
  set (s1 := fst (leaveFirst now c client s)) in *.
  assert (Hno : forall k, ~ In c (members s1 k))
    by (intros k; rewrite Hm; apply OSetFacts.not_in_delete).
  split; [|split; [|split]].
  - constructor; simpl.
    + intros k room d Hk Hd.
      assert (Hin : In d (members s1 k)) by (unfold members; now rewrite Hk).
      assert (Hne : c <> d) by (intros ->; exact (Hno k Hin)).
      rewrite OMapFacts.get_delete_ne by exact Hne.
      exact (wf_member s1 W1 k room d Hk Hd).
    + intros d cd Hd Ht. destruct (String.eqb_spec c d) as [<-|Hne].
      * now rewrite OMapFacts.get_delete_eq in Hd.
      * rewrite OMapFacts.get_delete_ne in Hd by exact Hne.
        exact (wf_identity s1 W1 d cd Hd Ht).
    + exact (wf_nodup s1 W1).
    + exact (wf_roomId s1 W1).
  - simpl. apply OMapFacts.get_delete_eq.
  - intros d Hd. simpl. rewrite OMapFacts.get_delete_ne by congruence.
    now apply Hother.
  - intros k. exact (Hm k).
Qed.

Lemma wf_handleDisconnect now c s : wf s -> wf (fst (handleDisconnect now c s)).
Proof.
  intros W. destruct (OMap.get c (clients s)) as [client|] eqn:Hc.
  - exact (proj1 (handleDisconnect_state now c s client W Hc)).
  - unfold handleDisconnect. now rewrite Hc.
Qed.

Lemma members_nonempty_room s k d :
  wf s -> In d (members s k) -> k <> "".
Proof.
  intros W Hin. unfold members in Hin.
  destruct (OMap.get k (rooms s)) as [room|] eqn:Hk; [|contradiction].
  exact (wf_roomId s W k room Hk).
Qed.

(** The loop over the client ids: who stays, who goes, and the farewell
    frames the ones that stay receive. *)
Lemma cleanupClients_loop now ks :
  forall s, wf s ->
    let result :=
      forEach ks
        (fun clientId s =>
           match OMap.get clientId (clients s) with
           | None => (s, [])
           | Some client =>
               if now - ClientConnection.lastPing client >? clientTimeout
               then handleDisconnect now clientId s
               else (s, [])
           end) s in
    wf (fst result)
    /\ (forall d,
          OMap.get d (clients (fst result)) =
          match OMap.get d (clients s) with
          | Some x =>
              if silentTooLong now x && existsb (String.eqb d) ks
              then None else Some x
          | None => None
          end)
    /\ (forall k d, In d (members (fst result) k) -> In d (members s k))
    /\ (forall c client A u n d,
          In c ks -> OMap.get c (clients s) = Some client ->
          silentTooLong now client = true ->
          ClientConnection.roomId client = Some A ->
          ClientConnection.userId client = Some u ->
          ClientConnection.username client = Some n ->
          In d (members (fst result) A) ->
          isOpen (fst result) d = true ->
          In (d, user_left A u n now) (snd result)).
Proof.
  induction ks as [|c0 ks IH]; intros s W; simpl.
  - split; [exact W|]. split; [|split; [auto|intros; contradiction]].
    intros d. destruct (OMap.get d (clients s)); [|reflexivity].
    now rewrite andb_false_r.
  - unfold andThen.
    set (h := fun clientId s =>
                match OMap.get clientId (clients s) with
                | None => (s, [])
                | Some client =>
                    if now - ClientConnection.lastPing client >? clientTimeout
                    then handleDisconnect now clientId s
                    else (s, [])
                end) in *.
    destruct (OMap.get c0 (clients s)) as [client0|] eqn:H0.
    + destruct (now - ClientConnection.lastPing client0 >? clientTimeout) eqn:Hst.
      * (* the head is evicted *)
        destruct (handleDisconnect_state now c0 s client0 W H0)
          as (W1 & Hgone & Hother & Hm).
        pose proof (handleDisconnect_spec now c0 s client0 H0) as Hspec.
        destruct (handleDisconnect now c0 s) as [s1 o1]. simpl in W1, Hgone, Hother, Hm.
        injection Hspec as _ Ho1.
        specialize (IH s1 W1). simpl in IH.
        destruct (forEach ks h s1) as [s2 o2]. simpl in IH |- *.
        destruct IH as (W2 & Hcl & Hsub & Hout).
        assert (Hcl' : forall d,
          OMap.get d (clients s2) =
          match OMap.get d (clients s) with
          | Some x =>
              if silentTooLong now x && (String.eqb d c0 || existsb (String.eqb d) ks)
              then None else Some x
          | None => None
          end).
        { intros d. rewrite Hcl. destruct (String.eqb_spec d c0) as [->|Hne].
          - rewrite Hgone, H0. unfold silentTooLong. now rewrite Hst.
          - rewrite (Hother d Hne). reflexivity. }
        split; [exact W2|]. split; [exact Hcl'|]. split.
        { intros k d Hd. apply Hsub in Hd. rewrite Hm in Hd.
          now apply OSetFacts.in_delete in Hd. }
        intros c client A u n d Hin Hc Hs HA Hu Hn Hd Hopen.
        apply in_or_app.
        destruct (String.eqb_spec c c0) as [->|Hne].
        -- left. rewrite H0 in Hc. injection Hc as <-.
           assert (HAne : A <> "") by exact (members_nonempty_room s2 A d W2 Hd).
           assert (HtA : truthy (ClientConnection.roomId client0) = true)
             by (rewrite HA; now apply truthy_Some).
           destruct (wf_identity s W c0 client0 H0 HtA) as [Htu Htn].
           rewrite Ho1. unfold leaveNotices. rewrite HtA, Htu, Htn. simpl andb.
           cbv iota. rewrite HA, Hu, Hn in *.
           rewrite !orElse_Some by (try assumption; now apply truthy_Some).
           unfold fanOut.
           apply (in_map (fun d => (d, user_left A u n now))).
           apply filter_In. split.
           ++ rewrite <- Hm. now apply Hsub.
           ++ unfold isOpen in Hopen |- *. rewrite Hcl' in Hopen.
              destruct (OMap.get d (clients s)) as [x|]; [|discriminate].
              now destruct (silentTooLong now x && _).
        -- right. destruct Hin as [->|Hin]; [contradiction|].
           apply (Hout c client A u n d); try assumption.
           rewrite (Hother c Hne). exact Hc.
      * (* the head stays *)
        specialize (IH s W). simpl in IH.
        destruct (forEach ks h s) as [s2 o2]. simpl in IH |- *.
        destruct IH as (W2 & Hcl & Hsub & Hout).
        split; [exact W2|]. split; [|split; [exact Hsub|]].
        { intros d. rewrite Hcl. destruct (String.eqb_spec d c0) as [->|Hne].
          - rewrite H0. unfold silentTooLong. now rewrite Hst.
          - reflexivity. }
        intros c client A u n d Hin Hc Hs HA Hu Hn Hd Hopen.
        destruct Hin as [->|Hin].
        -- rewrite H0 in Hc. injection Hc as <-. unfold silentTooLong in Hs. congruence.
        -- exact (Hout c client A u n d Hin Hc Hs HA Hu Hn Hd Hopen).
    + (* the head is not registered *)
      specialize (IH s W). simpl in IH.
      destruct (forEach ks h s) as [s2 o2]. simpl in IH |- *.
      destruct IH as (W2 & Hcl & Hsub & Hout).
      split; [exact W2|]. split; [|split; [exact Hsub|]].
      { intros d. rewrite Hcl. destruct (String.eqb_spec d c0) as [->|Hne].
        - now rewrite H0.
        - reflexivity. }
      intros c client A u n d Hin Hc Hs HA Hu Hn Hd Hopen.
      destruct Hin as [->|Hin]; [congruence|].
      exact (Hout c client A u n d Hin Hc Hs HA Hu Hn Hd Hopen).
Qed.

End ServerSweep.

(** ** The standalone server: every reachable state is consistent *)

Module ServerReachable.
Import Server ServerSpec ServerFacts ServerBroadcast ServerRooms ServerInvariant.
Import ServerJoin ServerSweep.

Lemma wf_initial : wf initial.
Proof. constructor; simpl; intros; discriminate. Qed.

(** Consistency reads the identity of the clients and the membership of
    the rooms, nothing else. *)
Lemma wf_same s s' :
  wf s ->
  (forall d, option_map identity (OMap.get d (clients s'))
             = option_map identity (OMap.get d (clients s))) ->
  (forall k, option_map Room.clients (OMap.get k (rooms s'))
             = option_map Room.clients (OMap.get k (rooms s))) ->
  wf s'.
Proof.
  intros W Hc Hr. constructor.
  - intros k room d Hk Hd. specialize (Hr k). rewrite Hk in Hr. simpl in Hr.
    destruct (OMap.get k (rooms s)) as [room0|] eqn:H0; [|discriminate].
    injection Hr as Hr. rewrite Hr in Hd.
    destruct (wf_member s W k room0 d H0 Hd) as (c0 & Hc0 & Hr0).
    specialize (Hc d). rewrite Hc0 in Hc.
    destruct (OMap.get d (clients s')) as [c1|]; [|discriminate].
    injection Hc as Hc. exists c1. split; [reflexivity|]. congruence.
  - intros d c1 Hd Ht. specialize (Hc d). rewrite Hd in Hc.
    destruct (OMap.get d (clients s)) as [c0|] eqn:H0; [|discriminate].
    injection Hc as E1 E2 E3.
    rewrite E1 in Ht. destruct (wf_identity s W d c0 H0 Ht). split; congruence.
  - intros k room Hk. specialize (Hr k). rewrite Hk in Hr.
    destruct (OMap.get k (rooms s)) as [room0|] eqn:H0; [|discriminate].
    injection Hr as Hr. simpl in Hr. rewrite Hr. exact (wf_nodup s W k room0 H0).
  - intros k room Hk. specialize (Hr k). rewrite Hk in Hr.
    destruct (OMap.get k (rooms s)) as [room0|] eqn:H0; [|discriminate].
    exact (wf_roomId s W k room0 H0).
Qed.

Lemma wf_alter_client (f : ClientConnection.t -> ClientConnection.t) c s :
  (forall x, identity (f x) = identity x) ->
  wf s -> wf (withClients (OMap.alter f c) s).
Proof.
  intros Hf W. apply (wf_same s); [exact W| |reflexivity].
  intros d. simpl. destruct (String.eqb_spec c d) as [<-|Hne].
  - rewrite OMapFacts.get_alter_eq. destruct (OMap.get c (clients s)); simpl;
      [now rewrite Hf|reflexivity].
  - now rewrite OMapFacts.get_alter_ne.
Qed.

Lemma wf_alter_room (f : Room.t -> Room.t) r s :
  (forall x, Room.clients (f x) = Room.clients x) ->
  wf s -> wf (withRooms (OMap.alter f r) s).
Proof.
  intros Hf W. apply (wf_same s); [exact W|reflexivity|].
  intros k. simpl. destruct (String.eqb_spec r k) as [<-|Hne].
  - rewrite OMapFacts.get_alter_eq. destruct (OMap.get r (rooms s)); simpl;
      [now rewrite Hf|reflexivity].
  - now rewrite OMapFacts.get_alter_ne.
Qed.

Lemma forEach_preserves (P : State -> Prop) ks (h : string -> Handler) :
  (forall k s, P s -> P (fst (h k s))) ->
  forall s, P s -> P (fst (forEach ks h s)).
Proof.
  intros Hh. induction ks as [|k ks IH]; intros s Hs; [exact Hs|].
  simpl. unfold andThen. specialize (Hh k s Hs).
  destruct (h k s) as [s1 o1]. specialize (IH s1 Hh).
  now destruct (forEach ks h s1).
Qed.

Lemma wf_cleanupRooms now s : wf s -> wf (fst (cleanupRooms now s)).
Proof.
  intros W. destruct (IdleRooms.cleanupRooms_spec now s) as (_ & Hc & _ & Hg).
  assert (Hsub : forall k room,
            OMap.get k (rooms (fst (cleanupRooms now s))) = Some room ->
            OMap.get k (rooms s) = Some room).
  { intros k room Hk. rewrite Hg in Hk.
    destruct (OMap.get k (rooms s)) as [room0|]; [|discriminate].
    now destruct (inactive now room0). }
  constructor.
  - intros k room d Hk Hd. rewrite Hc. exact (wf_member s W k room d (Hsub _ _ Hk) Hd).
  - intros d c0. rewrite Hc. exact (wf_identity s W d c0).
  - intros k room Hk. exact (wf_nodup s W k room (Hsub _ _ Hk)).
  - intros k room Hk. exact (wf_roomId s W k room (Hsub _ _ Hk)).
Qed.

Lemma wf_cleanup now s : wf s -> wf (fst (cleanup now s)).
Proof.
  intros W. unfold cleanup, andThen.
  pose proof (wf_cleanupRooms now s W) as W1.
  destruct (cleanupRooms now s) as [s1 o1]. simpl in W1.
  pose proof (proj1 (cleanupClients_loop now (OMap.keys (clients s1)) s1 W1)) as W2.
  unfold cleanupClients.
  now destruct (forEach _ _ s1).
Qed.

Lemma wf_heartbeat now s : wf s -> wf (fst (heartbeat now s)).
Proof.
  intros W. unfold heartbeat. apply forEach_preserves; [|exact W].
  clear s W. intros c s W.
  destruct (OMap.get c (clients s)) as [client|]; [|exact W].
  destruct (ClientConnection.isAlive client); simpl negb; cbv iota.
  - rewrite andThen_silent_l. destruct (ClientConnection.ws client); simpl;
      now apply wf_alter_client.
  - rewrite andThen_silent_l. apply wf_handleDisconnect.
    now apply wf_alter_client.
Qed.

Lemma wf_handleConnection now c s :
  OMap.has c (clients s) = false -> wf s -> wf (fst (handleConnection now c s)).
Proof.
  intros Hfresh W. unfold handleConnection.
  rewrite andThen_silent_l, sendToClient_spec. simpl fst.
  assert (Hn : OMap.get c (clients s) = None).
  { unfold OMap.has in Hfresh. now destruct (OMap.get c (clients s)). }
  constructor; simpl.
  - intros k room d Hk Hd. destruct (wf_member s W k room d Hk Hd) as (c0 & Hc0 & Hr0).
    assert (c <> d) by congruence.
    exists c0. now rewrite OMapFacts.get_set_ne.
  - intros d c0 Hd Ht. destruct (String.eqb_spec c d) as [<-|Hne].
    + rewrite OMapFacts.get_set_eq in Hd. injection Hd as <-. discriminate.
    + rewrite OMapFacts.get_set_ne in Hd by exact Hne.
      exact (wf_identity s W d c0 Hd Ht).
  - exact (wf_nodup s W).
  - exact (wf_roomId s W).
Qed.

Lemma wf_handleChatMessage now fresh c msg s :
  wf s -> wf (fst (handleChatMessage now fresh c msg s)).
Proof.
  intros W. unfold handleChatMessage.
  destruct (OMap.get c (clients s)) as [client|]; [|exact W].
  destruct (WebSocketMessage.data msg) as [data|]; [|exact W].
  destruct (negb _); [exact W|].
  cbv zeta. destruct (OMap.get _ (rooms s)); [|exact W].
  rewrite andThen_silent_l, broadcastToRoom_spec. simpl fst.
  now apply wf_alter_room.
Qed.

Lemma wf_handleTyping now c msg s : wf s -> wf (fst (handleTyping now c msg s)).
Proof.
  intros W. unfold handleTyping.
  destruct (OMap.get c (clients s)) as [client|]; [|exact W].
  destruct (negb _); [exact W|].
  cbv zeta. destruct (OMap.get _ (rooms s)); [|exact W].
  now rewrite broadcastToRoom_spec.
Qed.

Lemma wf_handlePing now c msg s : wf s -> wf (fst (handlePing now c msg s)).
Proof.
  intros W. unfold handlePing.
  destruct (OMap.get c (clients s)) as [client|]; [|exact W].
  rewrite andThen_silent_l, sendToClient_spec. simpl fst.
  now apply wf_alter_client.
Qed.

Lemma wf_handleMessage now fresh c rawData s :
  wf s -> wf (fst (handleMessage now fresh c rawData s)).
Proof.
  intros W. unfold handleMessage.
  destruct (OMap.get c (clients s)) as [client|]; [|exact W].
  destruct rawData as [|msg]; [now rewrite sendToClient_spec|].
  destruct (RateLimiter.isAllowed _ _ _) as [[|] limiter]; simpl negb; cbv iota;
    [|now rewrite sendToClient_spec].
  pose proof (wf_limiter s limiter W) as Wl.
  unfold dispatch. destruct (WebSocketMessage.type msg) as [t|]; [|exact Wl].
  destruct (String.eqb t "join_room"); [now apply wf_handleJoinRoom|].
  destruct (String.eqb t "message"); [now apply wf_handleChatMessage|].
  destruct (String.eqb t "typing"); [now apply wf_handleTyping|].
  destruct (String.eqb t "ping"); [now apply wf_handlePing|exact Wl].
Qed.

(** Every step from a consistent state, with a fresh id for an accepted
    transport, ends in a consistent state. *)
Lemma wf_step now i s :
  match i with
  | Connect c => OMap.has c (clients s) = false
  | _ => True
  end ->
  wf s -> wf (fst (step now i s)).
Proof.
  intros Hi W. destruct i; simpl.
  - now apply wf_handleConnection.
  - now apply wf_handleMessage.
  - now apply wf_handleDisconnect.
  - unfold handlePong. simpl. now apply wf_alter_client.
  - now apply wf_alter_client.
  - now apply wf_heartbeat.
  - now apply wf_cleanup.
Qed.

Lemma wf_run trace :
  forall s, wf s -> admissible trace s = true -> wf (fst (run trace s)).
Proof.
  induction trace as [|[now i] trace IH]; intros s W Ha; [exact W|].
  simpl in Ha. apply andb_prop in Ha. destruct Ha as [Hi Ha].
  simpl. unfold andThen.
  assert (W1 : wf (fst (step now i s))).
  { apply wf_step; [|exact W]. destruct i; try exact I.
    now apply negb_true_iff in Hi. }
  specialize (IH _ W1 Ha).
  destruct (step now i s) as [s1 o1]. cbn [fst] in IH.
  now destruct (run trace s1).
Qed.

End ServerReachable.

(** ** The join at work *)

Module JoinAtWork.
Import Server ServerSpec ServerFacts ServerBroadcast ServerRooms ServerInvariant.
Import ServerJoin ServerSweep ServerReachable.

Lemma get_in_keys (V : Type) k (m : OMap.t V) v :
  OMap.get k m = Some v -> In k (OMap.keys m).
Proof. intros H. apply OMapFacts.in_keys_get. congruence. Qed.

Lemma wf_threeClients : wf JoinScenarios.threeClients.
Proof.
  apply wf_run; [|reflexivity].
  apply wf_run; [exact wf_initial|reflexivity].
Qed.

Lemma join_moves_connection_witness :
  let result :=
    handleMessage 9 "f" "A" (Parsed (joinFrame "r2" "ua" "alice"))
      JoinScenarios.threeClients in
  members JoinScenarios.threeClients "r1" = ["A"; "B"]
  /\ snd result =
     [("B", user_left "r1" "ua" "alice" 9);
      ("C", user_joined "r2" "ua" "alice" 9);
      ("A", room_joined "r2"
              [mkParticipant "uc" "carol" true; mkParticipant "ua" "alice" true])]
  /\ members (fst result) "r1" = ["B"]
  /\ members (fst result) "r2" = ["C"; "A"]
  /\ (forall k, In "A" (members (fst result) k) -> k = "r2")
  /\ wf (fst result).
Proof.
  intros result.
  destruct (@join_moves_connection 9 "f" "A" "r1" "r2" "ua" "alice"
              JoinScenarios.threeClients
              (ClientConnection.mk "A" true (Some "ua") (Some "alice")
                 (Some "r1") 0 true)
              (RateLimiter.mk 10 60000
                 [("A:join_room", [2; 9]); ("B:join_room", [3]);
                  ("C:join_room", [5])])
              wf_threeClients eq_refl ltac:(simpl; now left)
              ltac:(discriminate) ltac:(discriminate) ltac:(discriminate) eq_refl)
    as (oldUser & oldName & _ & _ & _ & _ & _ & H6 & _ & H8).
  split; [reflexivity|]. split; [reflexivity|]. split; [reflexivity|].
  split; [reflexivity|]. split; [exact H6|exact H8].
Defined.

End JoinAtWork.

(** ** The route stub: typing indicators and their timers *)

Module RouteTyping.
Import Route RouteSpec RouteFacts.

Lemma deliveries_app d f o1 o2 :
  deliveries d f (o1 ++ o2) = (deliveries d f o1 + deliveries d f o2)%nat.
Proof. unfold deliveries. now rewrite filter_app, length_app. Qed.

Lemma deliveries_none userId d b out :
  noTypingOf userId out -> deliveries d (isTypingFrame userId b) out = 0%nat.
Proof.
  intros H. unfold deliveries.
  induction out as [|w out IH]; [reflexivity|]. simpl.
  rewrite (H w b) by now left. rewrite andb_false_r.
  apply IH. intros w' b' Hw. apply H. now right.
Qed.

Lemma noTypingOf_nil userId : noTypingOf userId [].
Proof. intros w b []. Qed.

Lemma noTypingOf_app userId o1 o2 :
  noTypingOf userId o1 -> noTypingOf userId o2 -> noTypingOf userId (o1 ++ o2).
Proof.
  intros H1 H2 w b Hw. apply in_app_or in Hw. destruct Hw; [now apply H1|now apply H2].
Qed.

Lemma noTypingOf_other userId other username b ids :
  other <> userId -> noTypingOf userId (fanOut (typing other username b) ids).
Proof.
  intros Hne w b' Hw. unfold fanOut in Hw. apply in_map_iff in Hw.
  destruct Hw as (d & <- & _). simpl.
  destruct (String.eqb_spec other userId); [contradiction|reflexivity].
Qed.

(** A frame fanned out over a duplicate-free list reaches each of its
    elements once. *)
Lemma deliveries_fanOut_once d userId username b ids :
  NoDup ids -> In d ids ->
  deliveries d (isTypingFrame userId b) (fanOut (typing userId username b) ids)
  = 1%nat.
Proof.
  unfold deliveries, fanOut. intros Hnd.
  induction Hnd as [|x l Hx Hl IH]; [intros []|].
  intros Hin. simpl. rewrite String.eqb_refl, eqb_reflx. simpl.
  destruct (String.eqb_spec x d) as [->|Hne]; simpl.
  - f_equal. clear IH Hin Hl. induction l as [|y l IH]; [reflexivity|]. simpl.
    destruct (String.eqb_spec y d) as [->|Hy]; simpl.
    + exfalso. apply Hx. now left.
    + apply IH. intros H. apply Hx. now right.
  - apply IH. destruct Hin; [contradiction|assumption].
Qed.

Lemma deliveries_fanOut_opposite d userId username b ids :
  deliveries d (isTypingFrame userId b) (fanOut (typing userId username (negb b)) ids)
  = 0%nat.
Proof.
  unfold deliveries, fanOut. induction ids as [|x l IH]; [reflexivity|]. simpl.
  replace (Bool.eqb b (negb b)) with false by now destruct b.
  now rewrite !andb_false_r.
Qed.

Lemma fireAll_app a b s : fireAll (a ++ b) s = (fireAll a ;; fireAll b) s.
Proof.
  revert s. induction a as [|t a IH]; intros s; simpl.
  - unfold andThen, silent. now destruct (fireAll b s).
  - unfold andThen. destruct (fire t s) as [s1 o1].
    rewrite IH. unfold andThen.
    destruct (fireAll a s1) as [s2 o2]. destruct (fireAll b s2) as [s3 o3].
    now rewrite app_assoc.
Qed.

Lemma typingExpired_spec t s :
  typingExpired t s =
  (withUserTyping (OMap.delete (Timer.typingKey t)) s,
   fanOut (typing (Timer.userId t) (Timer.username t) false)
     (recipients s (Timer.roomId t) None)).
Proof.
  unfold typingExpired. rewrite stub_andThen_silent_l, stub_broadcastToRoom_spec.
  f_equal.
Qed.

Lemma filter_handle_others (others : list Timer.t) h :
  (forall o, In o others -> Timer.handle o <> h) ->
  filter (fun t => negb (Nat.eqb (Timer.handle t) h)) others = others.
Proof.
  intros H. apply forallb_filter_id. apply forallb_forall. intros o Ho.
  apply negb_true_iff. apply Nat.eqb_neq. now apply H.
Qed.

Section Indicator.
Variables (s0 : State) (conn : Connection.t).

Local Abbreviation key :=
  (typingKeyOf (Connection.roomId conn) (Connection.userId conn)).

(** Firing a timer of somebody else leaves the indicator as it is and
    writes no typing frame of this user. *)
Lemma fire_other cur tm s :
  indicator s0 conn cur s ->
  Timer.typingKey tm <> key ->
  Timer.userId tm <> Connection.userId conn ->
  match cur with Some (h, _) => Timer.handle tm <> h | None => True end ->
  indicator s0 conn cur (fst (fire tm s))
  /\ noTypingOf (Connection.userId conn) (snd (fire tm s))
  /\ nextTimer (fst (fire tm s)) = nextTimer s.
Proof.
  intros (Hc & Hr & others & Ho & Hfresh & Hcur) Hk Hu Hh. unfold fire.
  destruct (existsb _ (timers s)).
  2:{ simpl. split; [|split; [apply noTypingOf_nil|reflexivity]].
      split; [exact Hc|]. split; [exact Hr|]. now exists others. }
  rewrite typingExpired_spec. simpl.
  split; [|split; [now apply noTypingOf_other|reflexivity]].
  split; [exact Hc|]. split; [exact Hr|].
  exists (filter (fun t => negb (Nat.eqb (Timer.handle t) (Timer.handle tm))) others).
  split; [intros o Hin; apply filter_In in Hin; now apply Ho|].
  split; [intros o Hin; apply filter_In in Hin; now apply Hfresh|].
  destruct cur as [[h t]|].
  - destruct Hcur as (Ht & Hlt & Hbelow & Hty). split; [|split; [|split]].
    + cbn [timers withUserTyping clearTimeout].
      rewrite Ht, filter_app. f_equal. simpl.
      destruct (Nat.eqb_spec h (Timer.handle tm)); [congruence|reflexivity].
    + exact Hlt.
    + intros o Hin. apply filter_In in Hin. now apply Hbelow.
    + cbn [userTyping withUserTyping clearTimeout]. fold key.
      rewrite OMapFacts.get_delete_ne by exact Hk. exact Hty.
  - cbn [timers withUserTyping clearTimeout]. now rewrite Hcur.
Qed.

Lemma fireAll_others cur due :
  forall s,
    indicator s0 conn cur s ->
    othersOnly conn due ->
    (forall o, In o due ->
       match cur with Some (h, _) => Timer.handle o <> h | None => True end) ->
    indicator s0 conn cur (fst (fireAll due s))
    /\ noTypingOf (Connection.userId conn) (snd (fireAll due s))
    /\ nextTimer (fst (fireAll due s)) = nextTimer s.
Proof.
  induction due as [|tm due IH]; intros s Hi Ho Hh.
  - simpl. split; [exact Hi|]. split; [apply noTypingOf_nil|reflexivity].
  - simpl. unfold andThen.
    destruct (Ho tm (or_introl eq_refl)) as [Hk Hu].
    destruct (fire_other cur tm s Hi Hk Hu (Hh tm (or_introl eq_refl)))
      as (Hi1 & Hn1 & Hx1).
    destruct (fire tm s) as [s1 o1]. simpl in Hi1, Hn1, Hx1.
    destruct (IH s1 Hi1 (fun o H => Ho o (or_intror H)) (fun o H => Hh o (or_intror H)))
      as (Hi2 & Hn2 & Hx2).
    destruct (fireAll due s1) as [s2 o2]. simpl in *.
    split; [exact Hi2|]. split; [now apply noTypingOf_app|congruence].
Qed.

End Indicator.

End RouteTyping.

Module RouteTypingBurst.
Import Route RouteSpec RouteFacts RouteTyping.

Section Burst.
Variables (s0 : State) (conn : Connection.t).

Local Abbreviation key :=
  (typingKeyOf (Connection.roomId conn) (Connection.userId conn)).

Lemma filter_due_own now h t :
  filter (fun x => Timer.fireAt x <=? now) [ownTimer conn h t]
  = if t + typingDelay <=? now then [ownTimer conn h t] else [].
Proof. reflexivity. Qed.

(** While the window of the indicator is open, the timers that come due
    are other people's. *)
Lemma runTimers_quiet cur now s :
  indicator s0 conn cur s ->
  match cur with Some (_, t) => now < t + typingDelay | None => True end ->
  indicator s0 conn cur (fst (runTimers now s))
  /\ noTypingOf (Connection.userId conn) (snd (runTimers now s))
  /\ nextTimer (fst (runTimers now s)) = nextTimer s.
Proof.
  intros Hi Hw. unfold runTimers.
  pose proof Hi as (_ & _ & others & Ho & Hfresh & Hcur).
  assert (E : filter (fun t => Timer.fireAt t <=? now) (timers s)
              = filter (fun t => Timer.fireAt t <=? now) others).
  { destruct cur as [[h t]|].
    - destruct Hcur as (Ht & _). rewrite Ht, filter_app, filter_due_own.
      destruct (Z.leb_spec (t + typingDelay) now); [lia|apply app_nil_r].
    - now rewrite Hcur. }
  rewrite E. apply fireAll_others; [exact Hi| |].
  - intros o Hin. apply filter_In in Hin. now apply Ho.
  - intros o Hin. apply filter_In in Hin. destruct Hin as [Hin _].
    destruct cur as [[h t]|]; [|exact I].
    destruct Hcur as (_ & _ & Hbelow & _). specialize (Hbelow o Hin). lia.
Qed.

(** A typing start replaces the pending timer of the indicator, if any, by
    a new one and is broadcast, refresh or not, with no exclusion. *)
Lemma handleTyping_start cur now s :
  indicator s0 conn cur s ->
  indicator s0 conn (Some (nextTimer s, now))
    (fst (handleTyping now conn (Payload.mk None None true) s))
  /\ snd (handleTyping now conn (Payload.mk None None true) s)
     = fanOut (typing (Connection.userId conn) (Connection.username conn) true)
         (recipients s0 (Connection.roomId conn) None).
Proof.
  intros (Hc & Hr & others & Ho & Hfresh & Hcur).
  unfold handleTyping. cbn [Payload.isTyping]. cbv zeta. fold key.
  set (s1 := match OMap.get key (userTyping s) with
             | Some existing => clearTimeout (Typing.timeout existing) s
             | None => s
             end).
  assert (H1 : connections s1 = connections s0
               /\ roomConnections s1 = roomConnections s0
               /\ nextTimer s1 = nextTimer s
               /\ exists others1,
                    timers s1 = others1
                    /\ othersOnly conn others1
                    /\ forall o, In o others1 -> (Timer.handle o < nextTimer s)%nat).
  { subst s1. destruct cur as [[h t]|].
    - destruct Hcur as (Ht & Hlt & Hbelow & Hty). fold key in Hty. rewrite Hty.
      cbn [Typing.timeout].
      split; [exact Hc|]. split; [exact Hr|]. split; [reflexivity|].
      exists others. split; [|split; assumption].
      cbn [timers clearTimeout]. rewrite Ht, filter_app. simpl.
      rewrite Nat.eqb_refl. simpl. rewrite app_nil_r.
      apply filter_handle_others. intros o Hin. specialize (Hbelow o Hin). lia.
    - destruct (OMap.get key (userTyping s)) as [existing|].
      + split; [exact Hc|]. split; [exact Hr|]. split; [reflexivity|].
        eexists. split; [reflexivity|]. cbn [timers clearTimeout]. rewrite Hcur.
        split; intros o Hin; apply filter_In in Hin; [now apply Ho|now apply Hfresh].
      + split; [exact Hc|]. split; [exact Hr|]. split; [reflexivity|].
        exists others. split; [exact Hcur|]. split; assumption. }
  destruct H1 as (Hc1 & Hr1 & Hn1 & others1 & Ht1 & Ho1 & Hf1).
  unfold setTimeout. rewrite stub_andThen_silent_l, stub_broadcastToRoom_spec.
  cbn [fst snd]. split.
  - split; [exact Hc1|]. split; [exact Hr1|]. exists others1.
    split; [exact Ho1|]. cbn [nextTimer withUserTyping].
    split; [intros o Hin; specialize (Hf1 o Hin); lia|].
    split; [|split; [|split]].
    + cbn [timers withUserTyping]. rewrite Ht1, Hn1. reflexivity.
    + lia.
    + intros o Hin. now apply Hf1.
    + cbn [userTyping withUserTyping]. rewrite OMapFacts.get_set_eq, Hn1. reflexivity.
  - f_equal. apply recipients_ext; cbn [connections roomConnections withUserTyping];
      [rewrite Hc1|rewrite Hr1]; reflexivity.
Qed.

(** One turn of the event loop on a typing start that arrives while the
    window is open (or while no indicator is active). *)
Lemma step_start cur now c fresh s :
  OMap.get c (connections s0) = Some conn ->
  indicator s0 conn cur s ->
  match cur with Some (_, t) => now < t + typingDelay | None => True end ->
  exists h quiet,
    indicator s0 conn (Some (h, now))
      (fst (step now (Receive c (typingFrame true) fresh) s))
    /\ snd (step now (Receive c (typingFrame true) fresh) s)
       = quiet
         ++ fanOut (typing (Connection.userId conn) (Connection.username conn) true)
              (recipients s0 (Connection.roomId conn) None)
    /\ noTypingOf (Connection.userId conn) quiet.
Proof.
  intros Hc Hi Hw. unfold step, andThen.
  destruct (runTimers_quiet cur now s Hi Hw) as (Hi1 & Hq & _).
  destruct (runTimers now s) as [s1 o1]. cbn [fst snd] in Hi1, Hq.
  assert (Hc1 : OMap.get c (connections s1) = Some conn).
  { destruct Hi1 as (E & _). now rewrite E. }
  unfold handleMessage, typingFrame. rewrite Hc1. simpl.
  destruct (handleTyping_start cur now s1 Hi1) as (Hi2 & Hout).
  destruct (handleTyping now conn (Payload.mk None None true) s1) as [s2 o2].
  cbn [fst snd] in *. exists (nextTimer s1), o1.
  split; [exact Hi2|]. split; [now rewrite Hout|exact Hq].
Qed.

(** The turn of the event loop in which the window has elapsed: the timer
    of the indicator fires, once, and the indicator is gone. *)
Lemma step_expire h t now s :
  indicator s0 conn (Some (h, t)) s ->
  t + typingDelay <= now ->
  exists quiet,
    indicator s0 conn None (fst (step now Tick s))
    /\ OMap.get key (userTyping (fst (step now Tick s))) = None
    /\ snd (step now Tick s)
       = quiet
         ++ fanOut (typing (Connection.userId conn) (Connection.username conn) false)
              (recipients s0 (Connection.roomId conn) None)
    /\ noTypingOf (Connection.userId conn) quiet.
Proof.
  intros Hi Hw. unfold step, andThen, runTimers.
  pose proof Hi as (_ & _ & others & Ho & Hfresh & Ht & Hlt & Hbelow & Hty).
  rewrite Ht, filter_app, filter_due_own.
  destruct (Z.leb_spec (t + typingDelay) now); [|lia].
  rewrite fireAll_app. unfold andThen.
  set (due := filter (fun x => Timer.fireAt x <=? now) others).
  destruct (fireAll_others s0 conn (Some (h, t)) due s Hi) as (Hi1 & Hq & Hn1).
  { intros o Hin. apply filter_In in Hin. now apply Ho. }
  { intros o Hin. apply filter_In in Hin. destruct Hin as [Hin _].
    specialize (Hbelow o Hin). lia. }
  destruct (fireAll due s) as [s1 o1]. cbn [fst snd] in Hi1, Hq, Hn1.
  destruct Hi1 as (Hc1 & Hr1 & others1 & Ho1 & Hf1 & Ht1 & Hlt1 & Hb1 & Hty1).
  simpl fireAll. unfold andThen, fire.
  assert (Hex : existsb (fun p => Nat.eqb (Timer.handle p)
                                   (Timer.handle (ownTimer conn h t))) (timers s1)
                = true).
  { apply existsb_exists. exists (ownTimer conn h t). split.
    - rewrite Ht1. apply in_or_app. right. now left.
    - apply Nat.eqb_refl. }
  rewrite Hex, typingExpired_spec. unfold silent. cbn [fst snd].
  exists o1. split; [|split; [|split]].
  - split; [exact Hc1|]. split; [exact Hr1|]. exists others1.
    split; [exact Ho1|]. split; [exact Hf1|].
    cbn [timers withUserTyping clearTimeout ownTimer Timer.handle].
    rewrite Ht1, filter_app. simpl. rewrite Nat.eqb_refl. simpl.
    rewrite app_nil_r. apply filter_handle_others.
    intros o Hin. specialize (Hb1 o Hin). lia.
  - cbn [userTyping withUserTyping clearTimeout ownTimer Timer.typingKey].
    apply OMapFacts.get_delete_eq.
  - rewrite !app_nil_r. f_equal. f_equal.
    apply recipients_ext; cbn [connections roomConnections clearTimeout];
      assumption.
  - exact Hq.
Qed.

End Burst.

End RouteTypingBurst.

(** ** The standalone server: where typing frames come from *)

Module ServerTypingRelay.
Import Server ServerSpec ServerSpecMore ServerFacts ServerBroadcast ServerRooms.
Import ServerInvariant ServerJoin ServerSweep.

Lemma fanOut_frames d f msg ids :
  In (d, f) (fanOut msg ids) -> f = msg /\ In d ids.
Proof.
  unfold fanOut. rewrite in_map_iff. intros (x & E & Hx).
  injection E as -> ->. now split.
Qed.

Lemma leaveNotices_frames now c client s d f :
  In (d, f) (leaveNotices now c client s) -> isTypingEvent f = false.
Proof.
  unfold leaveNotices. destruct (_ && _); [|contradiction]. cbv zeta.
  intros H. apply fanOut_frames in H. destruct H as [-> _]. reflexivity.
Qed.

Lemma disconnect_frames now c s d f :
  In (d, f) (snd (handleDisconnect now c s)) -> isTypingEvent f = false.
Proof.
  destruct (OMap.get c (clients s)) as [client|] eqn:Hc.
  - rewrite (handleDisconnect_spec now c s client Hc). cbn [snd].
    apply leaveNotices_frames.
  - unfold handleDisconnect. rewrite Hc. contradiction.
Qed.

Lemma forEach_frames ks (h : string -> Handler) :
  (forall k s d f, In (d, f) (snd (h k s)) -> isTypingEvent f = false) ->
  forall s d f, In (d, f) (snd (forEach ks h s)) -> isTypingEvent f = false.
Proof.
  intros Hh. induction ks as [|k ks IH]; intros s d f; [contradiction|].
  cbn [forEach]. unfold andThen. pose proof (Hh k s d f) as H1.
  destruct (h k s) as [s1 o1]. specialize (IH s1 d f).
  destruct (forEach ks h s1) as [s2 o2]. cbn [snd] in *.
  intros H. apply in_app_or in H. destruct H; auto.
Qed.

Lemma join_frames now c msg s d f :
  In (d, f) (snd (handleJoinRoom now c msg s)) -> isTypingEvent f = false.
Proof.
  destruct (OMap.get c (clients s)) as [client|] eqn:Hc;
    [|unfold handleJoinRoom; rewrite Hc; contradiction].
  destruct (truthy (WebSocketMessage.roomId msg)
            && truthy (WebSocketMessage.userId msg)
            && truthy (WebSocketMessage.username msg)) eqn:Hv;
    [|unfold handleJoinRoom; rewrite Hc, Hv; contradiction].
  apply andb_prop in Hv. destruct Hv as [Hv Hn].
  apply andb_prop in Hv. destruct Hv as [HB Hu].
  destruct (WebSocketMessage.roomId msg) as [B|] eqn:EB; [|discriminate].
  destruct (WebSocketMessage.userId msg) as [u|] eqn:Eu; [|discriminate].
  destruct (WebSocketMessage.username msg) as [n|] eqn:En; [|discriminate].
  apply truthy_Some in HB, Hu, Hn.
  rewrite (handleJoinRoom_fields now c msg B u n s EB Eu En).
  rewrite (handleJoinRoom_leaveFirst now c B u n s client Hc HB Hu Hn).
  cbv zeta. cbn [snd]. intros H.
  apply in_app_or in H. destruct H as [H|H];
    [now apply leaveNotices_frames in H|].
  apply in_app_or in H. destruct H as [H|H].
  - apply fanOut_frames in H. destruct H as [-> _]. reflexivity.
  - destruct (isOpen _ c); [|contradiction].
    destruct H as [H|[]]. injection H as _ <-. reflexivity.
Qed.

Lemma typing_relay now c msg s d f :
  In (d, f) (snd (handleTyping now c msg s)) ->
  d <> c /\ exists r u n, f = typing r u n (typingFlag msg) now.
Proof.
  unfold handleTyping.
  destruct (OMap.get c (clients s)) as [client|]; [|contradiction].
  destruct (negb _); [contradiction|]. cbv zeta.
  destruct (OMap.get _ (rooms s)); [|contradiction].
  rewrite broadcastToRoom_spec. cbn [snd]. intros H.
  apply fanOut_frames in H. destruct H as [-> H].
  unfold recipients in H. apply filter_In in H. destruct H as [_ H].
  apply andb_prop in H. destruct H as [H _]. apply negb_true_iff in H.
  simpl in H. apply String.eqb_neq in H. split; [exact H|].
  eexists _, _, _. reflexivity.
Qed.

(** Every typing frame the server writes, in any step, is the relay of a
    typing frame received in that step. *)
Lemma typing_frames_are_relays now i s d f :
  In (d, f) (snd (step now i s)) ->
  isTypingEvent f = true ->
  exists c msg fresh,
    i = Receive c (Parsed msg) fresh
    /\ hasType "typing" msg
    /\ d <> c
    /\ exists r u n, f = typing r u n (typingFlag msg) now.
Proof.
  intros H Hf.
  assert (Hno : isTypingEvent f = false -> False) by congruence.
  assert (Hsend : forall x msg0 s0,
             isTypingEvent msg0 = false ->
             In (d, f) (snd (sendToClient x msg0 s0)) -> False).
  { intros x msg0 s0 Hm. rewrite sendToClient_spec. cbn [snd].
    destruct (isOpen s0 x); [|contradiction].
    intros [E|[]]. injection E as _ <-. congruence. }
  destruct i as [c|c rawData fresh|c|c|c| |]; cbn [step] in H.
  - exfalso. unfold handleConnection in H. rewrite andThen_silent_l in H.
    (eapply Hsend; [|exact H]; reflexivity).
  - unfold handleMessage in H.
    destruct (OMap.get c (clients s)) as [client|]; [|contradiction].
    destruct rawData as [|msg]; [exfalso; (eapply Hsend; [|exact H]; reflexivity)|].
    destruct (RateLimiter.isAllowed _ _ _) as [[|] limiter];
      simpl negb in H; cbv iota in H;
      [|exfalso; (eapply Hsend; [|exact H]; reflexivity)].
    unfold dispatch in H.
    destruct (WebSocketMessage.type msg) as [t|] eqn:Et; [|contradiction].
    destruct (String.eqb t "join_room");
      [exfalso; apply Hno; exact (join_frames _ _ _ _ _ _ H)|].
    destruct (String.eqb t "message").
    { exfalso. unfold handleChatMessage in H. cbn [clients rooms] in H.
      destruct (OMap.get c (clients s)) as [client'|]; [|contradiction].
      destruct (WebSocketMessage.data msg) as [data|]; [|contradiction].
      destruct (negb _); [contradiction|]. cbv zeta in H.
      destruct (OMap.get _ (rooms s)) as [room|]; [|contradiction].
      rewrite andThen_silent_l, broadcastToRoom_spec in H. cbn [snd] in H.
      apply fanOut_frames in H. destruct H as [-> _]. discriminate. }
    destruct (String.eqb_spec t "typing") as [->|Hne].
    { apply typing_relay in H. destruct H as [Hd Hr].
      exists c, msg, fresh. split; [reflexivity|]. split; [exact Et|].
      split; assumption. }
    exfalso.
    destruct (String.eqb t "ping"); [|contradiction].
    unfold handlePing in H. cbn [clients] in H.
    destruct (OMap.get c (clients s)); [|contradiction].
    rewrite andThen_silent_l in H. (eapply Hsend; [|exact H]; reflexivity).
  - exfalso. apply Hno. exact (disconnect_frames _ _ _ _ _ H).
  - contradiction.
  - contradiction.
  - exfalso. apply Hno. revert H. unfold heartbeat. apply forEach_frames.
    clear. intros k s d f.
    destruct (OMap.get k (clients s)) as [client|]; [|contradiction].
    destruct (negb (ClientConnection.isAlive client)); rewrite andThen_silent_l.
    + apply disconnect_frames.
    + destruct (ClientConnection.ws client); [|contradiction].
      intros [E|[]]. injection E as _ <-. reflexivity.
  - exfalso. apply Hno. revert H. unfold cleanup, andThen.
    destruct (IdleRooms.cleanupRooms_spec now s) as (Ho & _).
    destruct (cleanupRooms now s) as [s1 o1]. cbn [snd] in Ho. subst o1.
    assert (Hl : forall x y, In (x, y) (snd (cleanupClients now s1)) ->
                             isTypingEvent y = false).
    { unfold cleanupClients. apply forEach_frames. intros k s2 x y.
      destruct (OMap.get k (clients s2)) as [client|]; [|contradiction].
      destruct (_ >? _); [apply disconnect_frames|contradiction]. }
    destruct (cleanupClients now s1) as [s2 o2]. cbn [snd app] in *.
    apply Hl.
Qed.

End ServerTypingRelay.

(** ** Typing debounce *)

Module TypingDebounce.
Import Route RouteSpec RouteFacts RouteTyping RouteTypingBurst.

Lemma run_app a b s : run (a ++ b) s = (run a ;; run b) s.
Proof.
  revert s. induction a as [|[now i] a IH]; intros s; simpl.
  - unfold andThen, silent. now destruct (run b s).
  - unfold andThen. destruct (step now i s) as [s1 o1]. rewrite IH.
    unfold andThen. destruct (run a s1) as [s2 o2]. destruct (run b s2) as [s3 o3].
    now rewrite app_assoc.
Qed.

Lemma last_cons (t t' : Z) times : last (t' :: times) t = last times t'.
Proof.
  revert t t'. induction times as [|x times IH]; intros t t'; [reflexivity|].
  change (last (t' :: x :: times) t) with (last (x :: times) t).
  now rewrite (IH t x), (IH t' x).
Qed.

(** A burst of typing starts, each inside the window of the one before:
    every one of them is broadcast, and one timer is left pending. *)
Lemma burst_run s0 c conn d :
  OMap.get c (connections s0) = Some conn ->
  NoDup (recipients s0 (Connection.roomId conn) None) ->
  In d (recipients s0 (Connection.roomId conn) None) ->
  forall times cur s t,
    indicator s0 conn cur s ->
    match cur with Some (_, t0) => t < t0 + typingDelay | None => True end ->
    spaced t times ->
    exists h,
      indicator s0 conn (Some (h, last times t)) (fst (run (burst c (t :: times)) s))
      /\ deliveries d (isTypingFrame (Connection.userId conn) true)
           (snd (run (burst c (t :: times)) s))
         = List.length (t :: times)
      /\ deliveries d (isTypingFrame (Connection.userId conn) false)
           (snd (run (burst c (t :: times)) s))
         = 0%nat.
Proof.
  intros Hc Hnd Hd. induction times as [|t' times IH]; intros cur s t Hi Hw Hsp.
  - destruct (step_start s0 conn cur t c "" s Hc Hi Hw) as (h & quiet & Hi1 & Hout & Hq).
    simpl. unfold andThen, silent.
    destruct (step t (Receive c (typingFrame true) "") s) as [s1 o1].
    cbn [fst snd] in *. exists h. split; [exact Hi1|].
    rewrite app_nil_r, Hout, !deliveries_app, !(deliveries_none _ _ _ _ Hq).
    rewrite deliveries_fanOut_once by assumption.
    now rewrite (deliveries_fanOut_opposite d _ _ false).
  - destruct (step_start s0 conn cur t c "" s Hc Hi Hw) as (h & quiet & Hi1 & Hout & Hq).
    destruct Hsp as [[Hle Hlt] Hsp].
    change (burst c (t :: t' :: times))
      with ((t, Receive c (typingFrame true) "") :: burst c (t' :: times)).
    cbn [run]. unfold andThen.
    destruct (step t (Receive c (typingFrame true) "") s) as [s1 o1].
    cbn [fst snd] in *.
    destruct (IH (Some (h, t)) s1 t' Hi1 Hlt Hsp) as (h' & Hi2 & Ht2 & Hf2).
    destruct (run (burst c (t' :: times)) s1) as [s2 o2]. cbn [fst snd] in *.
    exists h'. split; [rewrite last_cons; exact Hi2|].
    rewrite !deliveries_app, Ht2, Hf2, Hout, !deliveries_app,
      !(deliveries_none _ _ _ _ Hq).
    rewrite deliveries_fanOut_once by assumption.
    rewrite (deliveries_fanOut_opposite d _ _ false). simpl. split; lia.
Qed.

(** C3, as stated, fails on the route stub: two typing starts of A, one
    second apart, give connection B two typing-start frames. *)
Lemma refresh_is_broadcast_again :
  deliveries "B" (isTypingFrame "ua" true)
    (snd (run (burst "A" [0; 1000]) RouteExamples.twoInRoom)) = 2%nat
  /\ deliveries "B" (isTypingFrame "ua" true)
       (snd (run (burst "A" [0; 1000]) RouteExamples.twoInRoom)) <> 1%nat.
Proof. split; [reflexivity|discriminate]. Qed.

(** C3, amended. Route stub: let a connection send typing starts at
    instants each of which falls inside the 3000 ms window opened by the one
    before, from a state in which no auto-stop timer of its user or of its
    typing key is pending, and let the event loop run once the window of the
    last start has elapsed. Then every other open connection of the room
    has been written one typing-start frame per start (a refresh is
    broadcast again, not suppressed) and exactly one typing-stop frame,
    written by the single timer that each start had replaced; afterwards no
    indicator and no timer is left for the key.
    Standalone server: it keeps no typing state and no timer. A typing
    frame of a client that is in a room of the directory is, when the rate
    limiter allows it, relayed with its own flag to the open members of that
    room other than the sender, and when the limiter refuses it, answered
    "Rate limit exceeded" to the sender alone. No typing frame is ever sent
    automatically: every typing frame the server writes, in any step
    (frames, closes, pongs, both timers), is the relay of a typing frame
    received in that step, to a client other than its sender. *)
Theorem typing_burst :
  (forall s c conn d t times T,
     OMap.get c (connections s) = Some conn ->
     othersOnly conn (timers s) ->
     (forall o, In o (timers s) -> (Timer.handle o < nextTimer s)%nat) ->
     NoDup (members s (Connection.roomId conn)) ->
     In d (recipients s (Connection.roomId conn) (Some c)) ->
     spaced t times ->
     last times t + typingDelay <= T ->
     let result := run (burst c (t :: times) ++ [(T, Tick)]) s in
     deliveries d (isTypingFrame (Connection.userId conn) true) (snd result)
     = List.length (t :: times)
     /\ deliveries d (isTypingFrame (Connection.userId conn) false) (snd result)
        = 1%nat
     /\ OMap.get (typingKeyOf (Connection.roomId conn) (Connection.userId conn))
          (userTyping (fst result)) = None
     /\ (forall o, In o (timers (fst result)) ->
           Timer.typingKey o
           <> typingKeyOf (Connection.roomId conn) (Connection.userId conn)))
  /\
  (forall now fresh c msg s client r room,
     OMap.get c (Server.clients s) = Some client ->
     ServerSpec.hasType "typing" msg ->
     Server.ClientConnection.roomId client = Some r ->
     r <> "" ->
     OMap.get r (Server.rooms s) = Some room ->
     let verdict :=
       RateLimiter.isAllowed now (Server.rateLimitKey c msg)
         (Server.messageRateLimiter s) in
     (fst verdict = false ->
      Server.handleMessage now fresh c (Server.Parsed msg) s =
      (s, if ServerSpec.isOpen s c
          then [(c, Server.error "Rate limit exceeded")] else []))
     /\ (fst verdict = true ->
         Server.handleMessage now fresh c (Server.Parsed msg) s =
         (Server.mkState (Server.clients s) (Server.rooms s) (snd verdict),
          ServerSpec.fanOut
            (Server.typing r (Server.ClientConnection.userId client)
               (Server.ClientConnection.username client)
               (ServerSpecMore.typingFlag msg) now)
            (ServerSpec.recipients s r (Some c)))))
  /\
  (forall now i s d r u n b t,
     In (d, Server.typing r u n b t) (snd (Server.step now i s)) ->
     exists c msg fresh,
       i = Server.Receive c (Server.Parsed msg) fresh
       /\ ServerSpec.hasType "typing" msg
       /\ d <> c
       /\ b = ServerSpecMore.typingFlag msg
       /\ t = now).
Proof.
  split; [|split].
  - intros s c conn d t times T Hc Ho Hfresh Hnd Hd' Hsp HT result.
    assert (Hd : In d (recipients s (Connection.roomId conn) None)).
    { unfold recipients in *. apply filter_In in Hd'. apply filter_In.
      destruct Hd' as [Hm Hb]. split; [exact Hm|].
      apply andb_prop in Hb. simpl. exact (proj2 Hb). }
    assert (Hi : indicator s conn None s).
    { split; [reflexivity|]. split; [reflexivity|]. exists (timers s).
      split; [exact Ho|]. split; [exact Hfresh|reflexivity]. }
    assert (Hnd' : NoDup (recipients s (Connection.roomId conn) None))
      by (unfold recipients; now apply NoDup_filter).
    destruct (burst_run s c conn d Hc Hnd' Hd times None s t Hi I Hsp)
      as (h & Hi1 & Ht1 & Hf1).
    subst result. rewrite run_app. unfold andThen.
    destruct (run (burst c (t :: times)) s) as [s1 o1]. cbn [fst snd] in *.
    destruct (step_expire s conn h (last times t) T s1 Hi1 HT)
      as (quiet & Hi2 & Hgone & Hout & Hq).
    cbn [run]. unfold andThen, silent.
    destruct (step T Tick s1) as [s2 o2]. cbn [fst snd] in *.
    rewrite app_nil_r, !deliveries_app, Ht1, Hf1, Hout, !deliveries_app,
      !(deliveries_none _ _ _ _ Hq).
    rewrite deliveries_fanOut_once by assumption.
    rewrite (deliveries_fanOut_opposite d _ _ true).
    split; [simpl; lia|]. split; [reflexivity|]. split; [exact Hgone|].
    destruct Hi2 as (_ & _ & others & Hoth & _ & Ht2).
    intros o Hin. rewrite Ht2 in Hin. now apply Hoth.
  - intros now fresh c msg s client r room Hc Ht Hr Hrne Hroom verdict. split.
    + intros Hno. exact (ServerBroadcast.handleMessage_refused now fresh c msg s
                           client Hc Hno).
    + intros Hok. subst verdict.
      rewrite (ServerBroadcast.handleMessage_allowed now fresh c msg s client Hc Hok).
      unfold Server.dispatch. rewrite Ht. simpl.
      exact (ServerBroadcast.handleTyping_relays now c msg
               (Server.mkState (Server.clients s) (Server.rooms s) _)
               client r room Hc Hr Hroom Hrne).
  - intros now i s d r u n b t H.
    destruct (ServerTypingRelay.typing_frames_are_relays now i s d _ H eq_refl)
      as (c & msg & fresh & Hi & Ht & Hd & r' & u' & n' & E).
    exists c, msg, fresh. injection E as _ _ _ -> ->. now repeat split.
Qed.

Lemma typing_burst_witness :
  let result :=
    run (burst "A" [0; 1000; 2500] ++ [(5500, Tick)]) RouteExamples.twoInRoom in
  spaced 0 [1000; 2500]
  /\ deliveries "B" (isTypingFrame "ua" true) (snd result) = 3%nat
  /\ deliveries "B" (isTypingFrame "ua" false) (snd result) = 1%nat
  /\ OMap.get "r1:ua" (userTyping (fst result)) = None.
Proof.
  intros result.
  assert (Hsp : spaced 0 [1000; 2500]).
  { simpl. unfold typingDelay. lia. }
  assert (Ho : othersOnly (Connection.mk true "ua" "alice" "r1" 0)
                 (timers RouteExamples.twoInRoom)) by (intros o []).
  assert (Hf : forall o, In o (timers RouteExamples.twoInRoom) ->
                 (Timer.handle o < nextTimer RouteExamples.twoInRoom)%nat)
    by (intros o []).
  assert (Hnd : NoDup (members RouteExamples.twoInRoom "r1")).
  { simpl. repeat constructor; simpl; intuition discriminate. }
  assert (HT : last [1000; 2500] 0 + typingDelay <= 5500)
    by (simpl; unfold typingDelay; lia).
  pose proof (proj1 typing_burst RouteExamples.twoInRoom "A"
                (Connection.mk true "ua" "alice" "r1" 0)) as H.
  destruct (H "B" 0 [1000; 2500] 5500 eq_refl Ho Hf Hnd
              ltac:(simpl; tauto) Hsp HT) as (B1 & B2 & B3 & _).
  split; [exact Hsp|]. split; [exact B1|]. split; [exact B2|exact B3].
Defined.

End TypingDebounce.

(** ** The standalone server: the heartbeat timer *)

Module ServerHeartbeat.
Import Server ServerSpec ServerFacts ServerBroadcast ServerRooms ServerInvariant.
Import ServerJoin ServerSweep ServerReachable.

Lemma get_alter_client (f : ClientConnection.t -> ClientConnection.t) c s d :
  OMap.get d (clients (withClients (OMap.alter f c) s)) =
  if String.eqb c d then option_map f (OMap.get d (clients s))
  else OMap.get d (clients s).
Proof.
  simpl. destruct (String.eqb_spec c d) as [<-|Hne].
  - apply OMapFacts.get_alter_eq.
  - now apply OMapFacts.get_alter_ne.
Qed.

(** The loop of the heartbeat over the client ids. A client found with
    its [isAlive] flag down is terminated and disconnected; the others have
    their flag lowered and are pinged. *)
Lemma heartbeat_loop now ks :
  forall s, wf s ->
    let result :=
      forEach ks
        (fun clientId s =>
           match OMap.get clientId (clients s) with
           | None => (s, [])
           | Some client =>
               if negb (ClientConnection.isAlive client)
               then ((fun s =>
                        silent (withClients (OMap.alter (setWs false) clientId) s)) ;;
                     handleDisconnect now clientId) s
               else ((fun s =>
                        silent (withClients (OMap.alter (setAlive false) clientId) s)) ;;
                     (fun s =>
                        if ClientConnection.ws client
                        then (s, [(clientId, ws_ping)]) else (s, []))) s
           end) s in
    wf (fst result)
    /\ (forall d x',
          OMap.get d (clients (fst result)) = Some x' ->
          exists x, OMap.get d (clients s) = Some x
                    /\ ClientConnection.ws x = ClientConnection.ws x')
    /\ (forall k d, In d (members (fst result) k) -> In d (members s k))
    /\ (forall c, In c ks ->
          (forall x, OMap.get c (clients s) = Some x ->
                     ClientConnection.isAlive x = false) ->
          OMap.get c (clients (fst result)) = None)
    /\ (forall c client A u n d,
          In c ks -> OMap.get c (clients s) = Some client ->
          ClientConnection.isAlive client = false ->
          ClientConnection.roomId client = Some A ->
          ClientConnection.userId client = Some u ->
          ClientConnection.username client = Some n ->
          In d (members (fst result) A) ->
          isOpen (fst result) d = true ->
          In (d, user_left A u n now) (snd result)).
Proof.
  induction ks as [|c0 ks IH]; intros s W.
  - simpl. split; [exact W|]. split; [eauto|]. split; [auto|].
    split; intros; contradiction.
  - set (h := fun clientId s =>
                match OMap.get clientId (clients s) with
                | None => (s, [])
                | Some client =>
                    if negb (ClientConnection.isAlive client)
                    then ((fun s =>
                             silent (withClients (OMap.alter (setWs false) clientId) s)) ;;
                          handleDisconnect now clientId) s
                    else ((fun s =>
                             silent (withClients (OMap.alter (setAlive false) clientId) s)) ;;
                          (fun s =>
                             if ClientConnection.ws client
                             then (s, [(clientId, ws_ping)]) else (s, []))) s
                end) in *.
    cbn [forEach]. unfold andThen. cbv zeta.
    destruct (OMap.get c0 (clients s)) as [client0|] eqn:H0.
    + destruct (ClientConnection.isAlive client0) eqn:Halive.
      * (* the head is alive: its flag is lowered *)
        set (s1 := withClients (OMap.alter (setAlive false) c0) s).
        assert (E : h c0 s = (s1, if ClientConnection.ws client0
                                  then [(c0, ws_ping)] else [])).
        { unfold h. rewrite H0, Halive. simpl negb. cbv iota.
          rewrite andThen_silent_l. fold s1.
          now destruct (ClientConnection.ws client0). }
        rewrite E. clear E.
        assert (W1 : wf s1) by (now apply wf_alter_client).
        assert (Hget1 : forall d, OMap.get d (clients s1) =
                          if String.eqb c0 d
                          then option_map (setAlive false) (OMap.get d (clients s))
                          else OMap.get d (clients s))
          by (intros d; apply get_alter_client).
        specialize (IH s1 W1). cbv zeta in IH.
        destruct (forEach ks h s1) as [s2 o2]. cbn [fst snd] in IH |- *.
        destruct IH as (W2 & Hws2 & Hsub & Hgone & Hout).
        split; [exact W2|]. split.
        { intros d x' Hd. destruct (Hws2 d x' Hd) as (x1 & Hx1 & E1).
          rewrite Hget1 in Hx1. destruct (String.eqb c0 d).
          - destruct (OMap.get d (clients s)) as [x|]; [|discriminate].
            injection Hx1 as <-. exists x. split; [reflexivity|exact E1].
          - exists x1. split; assumption. }
        split; [exact Hsub|]. split.
        { intros c Hin Hdead. destruct Hin as [->|Hin].
          - rewrite (Hdead client0 H0) in Halive. discriminate.
          - apply Hgone; [exact Hin|]. intros x Hx. rewrite Hget1 in Hx.
            destruct (String.eqb c0 c).
            + destruct (OMap.get c (clients s)); [|discriminate].
              injection Hx as <-. reflexivity.
            + now apply Hdead. }
        intros c client A u n d Hin Hc Hdead HA Hu Hn Hd Hopen.
        apply in_or_app. right.
        destruct Hin as [->|Hin]; [congruence|].
        apply (Hout c client A u n d); try assumption.
        rewrite Hget1.
        destruct (String.eqb_spec c0 c) as [->|Hne]; [congruence|exact Hc].
      * (* the head is dead: it is terminated and disconnected *)
        set (sa := withClients (OMap.alter (setWs false) c0) s).
        assert (E : h c0 s = handleDisconnect now c0 sa).
        { unfold h. rewrite H0, Halive. simpl negb. cbv iota.
          apply andThen_silent_l. }
        rewrite E. clear E.
        assert (Wa : wf sa) by (now apply wf_alter_client).
        assert (Ha : OMap.get c0 (clients sa) = Some (setWs false client0)).
        { subst sa. rewrite get_alter_client, String.eqb_refl. now rewrite H0. }
        assert (Hgeta : forall d, d <> c0 ->
                          OMap.get d (clients sa) = OMap.get d (clients s)).
        { intros d Hd. subst sa. rewrite get_alter_client.
          destruct (String.eqb_spec c0 d); [congruence|reflexivity]. }
        destruct (handleDisconnect_state now c0 sa (setWs false client0) Wa Ha)
          as (W1 & Hgone1 & Hother & Hm).
        pose proof (handleDisconnect_spec now c0 sa (setWs false client0) Ha) as Hspec.
        destruct (handleDisconnect now c0 sa) as [s1 o1].
        cbn [fst snd] in W1, Hgone1, Hother, Hm.
        injection Hspec as _ Ho1.
        specialize (IH s1 W1). cbv zeta in IH.
        destruct (forEach ks h s1) as [s2 o2]. cbn [fst snd] in IH |- *.
        destruct IH as (W2 & Hws2 & Hsub & Hgone & Hout).
        assert (Hback : forall d x',
                  OMap.get d (clients s2) = Some x' ->
                  d <> c0 /\ exists x, OMap.get d (clients s) = Some x
                                       /\ ClientConnection.ws x = ClientConnection.ws x').
        { intros d x' Hd. destruct (Hws2 d x' Hd) as (x1 & Hx1 & E1).
          destruct (String.eqb_spec d c0) as [->|Hne]; [congruence|].
          split; [exact Hne|]. exists x1. split; [|exact E1].
          rewrite <- (Hgeta d Hne), <- (Hother d Hne). exact Hx1. }
        split; [exact W2|].
        split; [intros d x' Hd; exact (proj2 (Hback d x' Hd))|].
        split.
        { intros k d Hd. apply Hsub in Hd. rewrite Hm in Hd.
          apply OSetFacts.in_delete in Hd. exact (proj2 Hd). }
        split.
        { intros c Hin Hdead. destruct (String.eqb_spec c c0) as [->|Hne].
          - destruct (OMap.get c0 (clients s2)) as [x'|] eqn:E; [|reflexivity].
            destruct (Hback c0 x' E) as [Hne _]. congruence.
          - destruct Hin as [->|Hin]; [congruence|].
            apply Hgone; [exact Hin|]. intros x Hx.
            rewrite (Hother c Hne), (Hgeta c Hne) in Hx. now apply Hdead. }
        intros c client A u n d Hin Hc Hdead HA Hu Hn Hd Hopen.
        apply in_or_app.
        destruct (String.eqb_spec c c0) as [->|Hne].
        -- left. rewrite H0 in Hc. injection Hc as <-.
           assert (HAne : A <> "") by exact (members_nonempty_room s2 A d W2 Hd).
           rewrite Ho1. unfold leaveNotices. cbn [setWs ClientConnection.roomId
             ClientConnection.userId ClientConnection.username].
           assert (HtA : truthy (ClientConnection.roomId client0) = true)
             by (rewrite HA; now apply truthy_Some).
           destruct (wf_identity s W c0 client0 H0 HtA) as [Htu Htn].
           rewrite HtA, Htu, Htn. simpl andb. cbv iota. rewrite HA, Hu, Hn in *.
           rewrite !orElse_Some by (try assumption; now apply truthy_Some).
           unfold fanOut.
           apply (in_map (fun d => (d, user_left A u n now))).
           apply filter_In. split.
           ++ rewrite <- Hm. now apply Hsub.
           ++ unfold isOpen in Hopen |- *.
              destruct (OMap.get d (clients s2)) as [x'|] eqn:E; [|discriminate].
              destruct (Hback d x' E) as (Hdne & x & Hx & Ews).
              rewrite (Hgeta d Hdne), Hx. congruence.
        -- right. destruct Hin as [->|Hin]; [contradiction|].
           apply (Hout c client A u n d); try assumption.
           rewrite (Hother c Hne), (Hgeta c Hne). exact Hc.
    + (* the head is not registered *)
      assert (E : h c0 s = (s, [])) by (unfold h; now rewrite H0).
      rewrite E. clear E.
      specialize (IH s W). cbv zeta in IH.
      destruct (forEach ks h s) as [s2 o2]. cbn [fst snd] in IH |- *.
      destruct IH as (W2 & Hws2 & Hsub & Hgone & Hout).
      split; [exact W2|]. split; [exact Hws2|]. split; [exact Hsub|]. split.
      { intros c Hin Hdead. destruct Hin as [->|Hin].
        - destruct (OMap.get c (clients s2)) as [x'|] eqn:E; [|reflexivity].
          destruct (Hws2 c x' E) as (x & Hx & _). congruence.
        - now apply Hgone. }
      intros c client A u n d Hin Hc Hdead HA Hu Hn Hd Hopen.
      destruct Hin as [->|Hin]; [congruence|].
      exact (Hout c client A u n d Hin Hc Hdead HA Hu Hn Hd Hopen).
Qed.

End ServerHeartbeat.

(** ** Eviction of silent clients *)

Module SilentClients.
Import Server ServerSpec ServerFacts ServerBroadcast ServerRooms ServerInvariant.
Import ServerJoin ServerSweep ServerReachable ServerHeartbeat.

(** Eviction by a timer, read on the state the timer leaves: the client
    is out of the registry and of every membership, and the members its
    room has afterwards are notified when their transport is open. *)
Lemma eviction_by_tick now s c client :
  wf s ->
  OMap.get c (clients s) = Some client ->
  (now - ClientConnection.lastPing client > 60000 ->
   let result := cleanup now s in
   let s' := fst result in
   OMap.get c (clients s') = None
   /\ (forall k, ~ In c (members s' k))
   /\ (forall A u n d,
         ClientConnection.roomId client = Some A ->
         ClientConnection.userId client = Some u ->
         ClientConnection.username client = Some n ->
         In d (members s' A) -> isOpen s' d = true ->
         In (d, user_left A u n now) (snd result))
   /\ (forall d x,
         OMap.get d (clients s) = Some x ->
         now - ClientConnection.lastPing x <= 60000 ->
         OMap.get d (clients s') = Some x)
   /\ wf s')
  /\ (ClientConnection.isAlive client = false ->
      let result := heartbeat now s in
      let s' := fst result in
      OMap.get c (clients s') = None
      /\ (forall k, ~ In c (members s' k))
      /\ (forall A u n d,
            ClientConnection.roomId client = Some A ->
            ClientConnection.userId client = Some u ->
            ClientConnection.username client = Some n ->
            In d (members s' A) -> isOpen s' d = true ->
            In (d, user_left A u n now) (snd result))
      /\ wf s').
Proof.
  intros W Hc.
  assert (Hno : forall s', wf s' -> OMap.get c (clients s') = None ->
                  forall k, ~ In c (members s' k)).
  { intros s' W' Hgone k Hin. unfold members in Hin.
    destruct (OMap.get k (rooms s')) as [room|] eqn:Hk; [|contradiction].
    destruct (wf_member s' W' k room c Hk Hin) as (x & Hx & _). congruence. }
  split.
  - intros Hsilent result s'.
    assert (Hs : silentTooLong now client = true).
    { unfold silentTooLong, clientTimeout. rewrite Z.gtb_ltb. apply Z.ltb_lt. lia. }
    destruct (IdleRooms.cleanupRooms_spec now s) as (Ho1 & Hc1 & _ & _).
    pose proof (wf_cleanupRooms now s W) as W1.
    subst s' result. unfold cleanup, andThen.
    destruct (cleanupRooms now s) as [s1 o1]. simpl in Ho1, Hc1, W1. subst o1.
    destruct (cleanupClients_loop now (OMap.keys (clients s1)) s1 W1)
      as (W2 & Hcl & Hsub & Hout).
    unfold cleanupClients.
    destruct (forEach (OMap.keys (clients s1)) _ s1) as [s2 o2].
    cbn [fst snd] in *. rewrite Hc1 in *.
    assert (Hgone : OMap.get c (clients s2) = None).
    { rewrite Hcl, Hc, Hs. simpl.
      rewrite IdleRooms.existsb_keys. unfold OMap.has. now rewrite Hc. }
    split; [exact Hgone|]. split; [exact (Hno s2 W2 Hgone)|].
    split; [|split; [|exact W2]].
    + intros A u n d HA Hu Hn Hd Hopen.
      apply (Hout c client A u n d); try assumption.
      exact (JoinAtWork.get_in_keys _ _ _ _ Hc).
    + intros d x Hd Hfresh. rewrite Hcl, Hd.
      replace (silentTooLong now x) with false; [reflexivity|].
      symmetry. unfold silentTooLong, clientTimeout. rewrite Z.gtb_ltb.
      apply Z.ltb_ge. lia.
  - intros Hdead result s'. subst s' result. unfold heartbeat.
    destruct (heartbeat_loop now (OMap.keys (clients s)) s W)
      as (W2 & _ & _ & Hgone & Hout).
    destruct (forEach (OMap.keys (clients s)) _ s) as [s2 o2].
    cbn [fst snd] in *.
    assert (Hin : In c (OMap.keys (clients s)))
      by exact (JoinAtWork.get_in_keys _ _ _ _ Hc).
    assert (Hg : OMap.get c (clients s2) = None).
    { apply Hgone; [exact Hin|]. intros x Hx. congruence. }
    split; [exact Hg|]. split; [exact (Hno s2 W2 Hg)|]. split; [|exact W2].
    intros A u n d HA Hu Hn Hd Hopen.
    exact (Hout c client A u n d Hin Hc Hdead HA Hu Hn Hd Hopen).
Qed.

Lemma wf_oneSilent : wf ServerScenarios.oneSilent.
Proof. apply wf_run; [exact wf_initial|reflexivity]. Qed.

End SilentClients.

(** ** The rate limiter *)

Module RateLimiterFacts.
Import RateLimiter RateLimiterSpec.

Lemma stored_isAllowed now i l identifier :
  stored identifier (snd (isAllowed now i l)) =
  if fst (isAllowed now i l) && String.eqb i identifier
  then validAttempts now i l ++ [now]
  else stored identifier l.
Proof.
  unfold isAllowed.
  destruct (maxAttempts l <=? List.length (validAttempts now i l))%nat;
    [reflexivity|].
  cbn [fst snd]. unfold stored at 1. cbn [attempts].
  destruct (String.eqb_spec i identifier) as [->|Hne]; simpl.
  - now rewrite OMapFacts.get_set_eq.
  - now rewrite OMapFacts.get_set_ne.
Qed.

Lemma isAllowed_params now i l :
  maxAttempts (snd (isAllowed now i l)) = maxAttempts l
  /\ windowMs (snd (isAllowed now i l)) = windowMs l.
Proof.
  unfold isAllowed.
  now destruct (maxAttempts l <=? List.length (validAttempts now i l))%nat.
Qed.

Lemma validAttempts_stored now i l :
  validAttempts now i l
  = filter (fun timestamp => now - timestamp <? windowMs l) (stored i l).
Proof. reflexivity. Qed.

Lemma fst_isAllowed now i l :
  fst (isAllowed now i l)
  = negb (maxAttempts l <=? List.length (validAttempts now i l))%nat.
Proof.
  unfold isAllowed.
  now destruct (maxAttempts l <=? List.length (validAttempts now i l))%nat.
Qed.

Lemma bounded_isAllowed now i l : bounded l -> bounded (snd (isAllowed now i l)).
Proof.
  intros B identifier. rewrite stored_isAllowed.
  rewrite (proj1 (isAllowed_params now i l)), fst_isAllowed.
  destruct (Nat.leb_spec (maxAttempts l) (List.length (validAttempts now i l)));
    simpl; [apply B|].
  destruct (String.eqb i identifier); [|apply B].
  rewrite length_app. simpl. lia.
Qed.

(** The timestamps at or after [T] among the stored ones. *)
Lemma recent_valid T now i l :
  T <= now -> now < T + windowMs l ->
  filter (fun t => T <=? t) (validAttempts now i l)
  = filter (fun t => T <=? t) (stored i l).
Proof.
  intros H1 H2. rewrite validAttempts_stored.
  induction (stored i l) as [|t a IH]; [reflexivity|]. simpl.
  destruct (Z.ltb_spec (now - t) (windowMs l)); simpl.
  - destruct (T <=? t); [f_equal|]; exact IH.
  - destruct (Z.leb_spec T t); [lia|exact IH].
Qed.

Lemma granted_window identifier T reqs :
  forall l,
    (forall now, In (now, identifier) reqs -> T <= now < T + windowMs l) ->
    (granted identifier reqs l
     + List.length (filter (fun t => (T <=? t)%Z) (stored identifier l))
     <= Nat.max (List.length (filter (fun t => (T <=? t)%Z) (stored identifier l)))
          (maxAttempts l))%nat.
Proof.
  induction reqs as [|[now i] reqs IH]; intros l Hw; [simpl; lia|].
  cbn [granted].
  destruct (isAllowed_params now i l) as [Hm Hwin].
  assert (Hw' : forall t, In (t, identifier) reqs ->
                  T <= t < T + windowMs (snd (isAllowed now i l))).
  { intros t Ht. rewrite Hwin. apply Hw. now right. }
  specialize (IH (snd (isAllowed now i l)) Hw').
  rewrite stored_isAllowed, Hm in IH.
  destruct (fst (isAllowed now i l) && String.eqb i identifier) eqn:E.
  - apply andb_prop in E. destruct E as [Hok Hi].
    apply String.eqb_eq in Hi. subst i.
    destruct (Hw now (or_introl eq_refl)) as [H1 H2].
    rewrite filter_app, length_app, (recent_valid T now identifier l H1 H2) in IH.
    simpl in IH. destruct (Z.leb_spec T now); [|lia]. simpl in IH.
    rewrite fst_isAllowed in Hok. apply negb_true_iff, Nat.leb_gt in Hok.
    pose proof (filter_length_le (fun t => T <=? t) (validAttempts now identifier l))
      as Hle.
    rewrite (recent_valid T now identifier l H1 H2) in Hle. lia.
  - simpl. exact IH.
Qed.

(** X1. In any sequence of [isAllowed] calls, whatever the identifiers
    interleaved with it and whatever the limiter holds at the start, the
    calls made under one identifier at instants inside one window (from [T]
    up to but not including [T + windowMs]) are allowed at most
    [maxAttempts] times. *)
Theorem at_most_maxAttempts_per_window identifier T reqs l :
  (forall now, In (now, identifier) reqs -> T <= now < T + windowMs l) ->
  (granted identifier reqs l <= maxAttempts l)%nat.
Proof.
  intros Hw. pose proof (granted_window identifier T reqs l Hw). lia.
Qed.

Lemma at_most_maxAttempts_per_window_witness :
  (forall now, In (now, "A:ping") busyMinute ->
     0 <= now < 0 + windowMs messageRateLimiter)
  /\ granted "A:ping" busyMinute messageRateLimiter = 10%nat
  /\ (granted "A:ping" busyMinute messageRateLimiter
      <= maxAttempts messageRateLimiter)%nat.
Proof.
  assert (H : forall now, In (now, "A:ping") busyMinute ->
                0 <= now < 0 + windowMs messageRateLimiter).
  { intros now Hin. simpl in Hin.
    repeat (destruct Hin as [Hin|Hin];
            [injection Hin as <-; simpl; lia || discriminate Hin|]).
    contradiction. }
  split; [exact H|]. split; [reflexivity|].
  exact (at_most_maxAttempts_per_window "A:ping" 0 busyMinute messageRateLimiter H).
Defined.

Lemma bounded_serve reqs : forall l, bounded l -> bounded (serve reqs l).
Proof.
  induction reqs as [|[now i] reqs IH]; intros l B; [exact B|].
  simpl. apply IH. now apply bounded_isAllowed.
Qed.

(** X2. The limiter never stores more timestamps under an identifier than
    its limit: if that holds before a sequence of [isAllowed] calls it holds
    after it, and it holds of a new limiter. *)
Theorem storage_bounded reqs l :
  bounded l -> bounded (serve reqs l) /\ bounded (mk (maxAttempts l) (windowMs l) []).
Proof.
  intros B. split; [now apply bounded_serve|]. intros identifier. simpl. lia.
Qed.

Lemma storage_bounded_witness :
  bounded messageRateLimiter
  /\ (List.length (stored "A:ping" (serve busyMinute messageRateLimiter)) <= 10)%nat.
Proof.
  assert (B : bounded messageRateLimiter) by (intros identifier; simpl; lia).
  split; [exact B|].
  exact (proj1 (storage_bounded busyMinute messageRateLimiter B) "A:ping").
Defined.

Lemma oldest_le t0 rest : oldest t0 rest <= t0.
Proof.
  unfold oldest. revert t0. induction rest as [|x rest IH]; intros t0; simpl; [lia|].
  specialize (IH (Z.min t0 x)). lia.
Qed.

Lemma oldest_lower t0 rest x : In x (t0 :: rest) -> oldest t0 rest <= x.
Proof.
  unfold oldest. revert t0. induction rest as [|y rest IH]; intros t0 Hin; simpl.
  - destruct Hin as [->|[]]. lia.
  - destruct Hin as [->|[->|Hin]].
    + pose proof (oldest_le (Z.min x y) rest). unfold oldest in *. lia.
    + pose proof (oldest_le (Z.min t0 x) rest). unfold oldest in *. lia.
    + apply IH. now right.
Qed.

Lemma oldest_in t0 rest : In (oldest t0 rest) (t0 :: rest).
Proof.
  unfold oldest. revert t0. induction rest as [|y rest IH]; intros t0; simpl.
  - now left.
  - destruct (IH (Z.min t0 y)) as [H|H].
    + destruct (Z.min_spec t0 y) as [[_ E]|[_ E]]; rewrite E in *; auto.
    + right. now right.
Qed.

Lemma filter_all_length (A : Type) (f : A -> bool) (a : list A) :
  List.length (filter f a) = List.length a -> forall x, In x a -> f x = true.
Proof.
  induction a as [|y a IH]; intros Hl x Hin; [contradiction|].
  simpl in Hl. pose proof (filter_length_le f a) as Hle.
  destruct (f y) eqn:E; simpl in Hl; [|lia].
  destruct Hin as [->|Hin]; [exact E|]. apply IH; [lia|exact Hin].
Qed.

Lemma filter_drop_length (A : Type) (f : A -> bool) (a : list A) x :
  In x a -> f x = false -> (List.length (filter f a) < List.length a)%nat.
Proof.
  induction a as [|y a IH]; intros Hin Hx; [contradiction|]. simpl.
  pose proof (filter_length_le f a) as Hle.
  destruct Hin as [->|Hin].
  - rewrite Hx. lia.
  - specialize (IH Hin Hx). destruct (f y); simpl; lia.
Qed.

Lemma double_exact x : Z.abs x <= 2 ^ 53 -> double x = x.
Proof. intros H. unfold double. apply Z.leb_le in H. now rewrite H. Qed.

Lemma exactTimes_spec now identifier l :
  exactTimes now identifier l = true ->
  0 <= now <= 9007199254740992
  /\ 0 <= windowMs l
  /\ (forall x, In x (stored identifier l) ->
        0 <= x /\ x + windowMs l <= 9007199254740992).
Proof.
  unfold exactTimes. change (2 ^ 53) with 9007199254740992. intros H.
  apply andb_prop in H. destruct H as [H Hall].
  apply andb_prop in H. destruct H as [H Hw].
  apply andb_prop in H. destruct H as [H0 H1].
  apply Z.leb_le in H0, H1, Hw. split; [lia|]. split; [exact Hw|].
  intros x Hx. rewrite forallb_forall in Hall. specialize (Hall x Hx).
  apply andb_prop in Hall. destruct Hall as [Ha Hb].
  apply Z.leb_le in Ha, Hb. lia.
Qed.

(** X3. Take a limiter that stores at most [maxAttempts] timestamps per
    identifier and allows at least one attempt, and a call whose instant,
    window and stored timestamps are non-negative integers with timestamp
    plus window at most [2 ^ 53], so that the double arithmetic of
    [getRemainingTime] is exact.  When the call is refused,
    [getRemainingTime] is positive, and the same call made that much later is
    allowed. *)
Theorem refusal_ends_after_remaining_time now identifier l :
  bounded l ->
  (1 <= maxAttempts l)%nat ->
  exactTimes now identifier l = true ->
  fst (isAllowed now identifier l) = false ->
  0 < getRemainingTime now identifier l
  /\ fst (isAllowed (now + getRemainingTime now identifier l) identifier l) = true.
Proof.
  intros B Hmax Hexact Hno. rewrite fst_isAllowed in Hno.
  apply negb_false_iff, Nat.leb_le in Hno.
  destruct (exactTimes_spec now identifier l Hexact) as (Hnow & Hw & Hst).
  specialize (B identifier).
  pose proof (filter_length_le (fun t => now - t <? windowMs l) (stored identifier l))
    as Hle.
  rewrite validAttempts_stored in Hno.
  assert (Hall : forall x, In x (stored identifier l) ->
                   (now - x <? windowMs l) = true)
    by (apply filter_all_length; lia).
  unfold getRemainingTime. fold (stored identifier l).
  destruct (stored identifier l) as [|t0 rest] eqn:Es; [simpl in *; lia|].
  cbv zeta.
  pose proof (Hall _ (oldest_in t0 rest)) as Hold. apply Z.ltb_lt in Hold.
  destruct (Hst _ (oldest_in t0 rest)) as [Hpos Hsum].
  rewrite (double_exact (oldest t0 rest + windowMs l))
    by (change (2 ^ 53) with 9007199254740992; lia).
  rewrite (double_exact (oldest t0 rest + windowMs l - now))
    by (change (2 ^ 53) with 9007199254740992; lia).
  rewrite Z.max_r by lia. split; [lia|].
  rewrite fst_isAllowed. apply negb_true_iff, Nat.leb_gt.
  rewrite validAttempts_stored, Es.
  eapply Nat.lt_le_trans; [|exact B].
  apply (filter_drop_length _ _ _ (oldest t0 rest) (oldest_in t0 rest)).
  apply Z.ltb_ge. lia.
Qed.

Lemma refusal_ends_after_remaining_time_witness :
  fst (isAllowed 20 "A:ping" (serve busyMinute messageRateLimiter)) = false
  /\ getRemainingTime 20 "A:ping" (serve busyMinute messageRateLimiter) = 59980
  /\ fst (isAllowed (20 + 59980) "A:ping" (serve busyMinute messageRateLimiter))
     = true.
Proof.
  assert (B : bounded (serve busyMinute messageRateLimiter)).
  { apply bounded_serve. intros identifier. simpl. lia. }
  assert (M : (1 <= maxAttempts (serve busyMinute messageRateLimiter))%nat)
    by (vm_compute; lia).
  assert (X : exactTimes 20 "A:ping" (serve busyMinute messageRateLimiter) = true)
    by (vm_compute; reflexivity).
  assert (R : fst (isAllowed 20 "A:ping" (serve busyMinute messageRateLimiter))
              = false) by (vm_compute; reflexivity).
  assert (G : getRemainingTime 20 "A:ping" (serve busyMinute messageRateLimiter)
              = 59980) by (vm_compute; reflexivity).
  destruct (refusal_ends_after_remaining_time 20 "A:ping"
              (serve busyMinute messageRateLimiter) B M X R) as [_ H].
  rewrite G in H. split; [exact R|]. split; [exact G|exact H].
Defined.

(** Beyond that range the sum is rounded: with a window of [2 ^ 53] ms the
    remaining time comes out one millisecond short, and the call made that
    much later is still refused. *)
Lemma rounded_remaining_time_falls_short :
  exactTimes 1700000000001 "A" wideWindow = false
  /\ fst (isAllowed 1700000000001 "A" wideWindow) = false
  /\ getRemainingTime 1700000000001 "A" wideWindow = 2 ^ 53 - 1
  /\ fst (isAllowed (1700000000001 + (2 ^ 53 - 1)) "A" wideWindow) = false.
Proof. repeat split; vm_compute; reflexivity. Qed.

End RateLimiterFacts.

(** ** The standalone server: further properties *)

Module ServerMore.
Import Server ServerSpec ServerSpecMore ServerFacts ServerBroadcast ServerRooms.
Import ServerInvariant ServerJoin ServerSweep ServerReachable.

(** X4. Along every run from the empty server in which each accepted
    transport gets an id that is not registered, the registry and the
    directory stay consistent, and no client is a member of two rooms. *)
Theorem reachable_consistent trace :
  admissible trace initial = true ->
  wf (fst (run trace initial))
  /\ (forall c r1 r2,
        In c (members (fst (run trace initial)) r1) ->
        In c (members (fst (run trace initial)) r2) -> r1 = r2).
Proof.
  intros Ha. pose proof (wf_run trace initial wf_initial Ha) as W.
  split; [exact W|]. intros c r1 r2 H1 H2.
  unfold members in H1, H2.
  destruct (OMap.get r1 (rooms (fst (run trace initial)))) as [room1|] eqn:E1;
    [|contradiction].
  destruct (OMap.get r2 (rooms (fst (run trace initial)))) as [room2|] eqn:E2;
    [|contradiction].
  destruct (wf_member _ W r1 room1 c E1 H1) as (x1 & Hx1 & Hr1).
  destruct (wf_member _ W r2 room2 c E2 H2) as (x2 & Hx2 & Hr2).
  congruence.
Qed.

Lemma reachable_consistent_witness :
  admissible ServerScenarios.oneSilentTrace initial = true
  /\ wf (fst (run ServerScenarios.oneSilentTrace initial)).
Proof.
  split; [reflexivity|].
  exact (proj1 (reachable_consistent ServerScenarios.oneSilentTrace eq_refl)).
Defined.

Lemma noEmpty_rooms s s' : rooms s' = rooms s -> noEmptyRoom s -> noEmptyRoom s'.
Proof. intros E H r room Hr. rewrite E in Hr. eauto. Qed.

Lemma noEmpty_leaveFirst now c client s :
  OMap.get c (clients s) = Some client ->
  noEmptyRoom s -> noEmptyRoom (fst (leaveFirst now c client s)).
Proof.
  intros Hc H. unfold leaveFirst.
  destruct (truthy (ClientConnection.roomId client)); [|exact H].
  set (r := orElse (ClientConnection.roomId client) "").
  destruct (OMap.get r (rooms s)) as [room|] eqn:Hr.
  - rewrite (leaveRoom_spec now c r s client room Hc Hr). cbn [fst].
    intros k room' Hk. cbn [rooms afterLeave] in Hk.
    rewrite (get_roomsAfterLeave c r room (rooms s) k Hr) in Hk.
    destruct (String.eqb k r); [|eauto].
    destruct (OSet.delete c (Room.clients room)) eqn:E; simpl in Hk; [discriminate|].
    injection Hk as <-. simpl. discriminate.
  - now rewrite leaveRoom_no_room.
Qed.

Lemma noEmpty_afterEnter now c B userId username s :
  noEmptyRoom s -> noEmptyRoom (afterEnter now c B userId username s).
Proof.
  intros H k room Hk. rewrite get_rooms_afterEnter in Hk.
  destruct (String.eqb k B); [|eauto]. injection Hk as <-.
  assert (Hadd : forall l, OSet.add c l <> []).
  { intros l E. assert (Hin : In c (OSet.add c l)) by (apply OSetFacts.in_add; now left).
    rewrite E in Hin. contradiction. }
  destruct (OMap.get B (rooms s)); simpl; [apply Hadd|discriminate].
Qed.

Lemma noEmpty_handleJoinRoom now c msg s :
  noEmptyRoom s -> noEmptyRoom (fst (handleJoinRoom now c msg s)).
Proof.
  intros H.
  destruct (OMap.get c (clients s)) as [client|] eqn:Hc;
    [|unfold handleJoinRoom; rewrite Hc; exact H].
  destruct (truthy (WebSocketMessage.roomId msg)
            && truthy (WebSocketMessage.userId msg)
            && truthy (WebSocketMessage.username msg)) eqn:Hv;
    [|unfold handleJoinRoom; rewrite Hc, Hv; exact H].
  apply andb_prop in Hv. destruct Hv as [Hv Hn].
  apply andb_prop in Hv. destruct Hv as [HB Hu].
  destruct (WebSocketMessage.roomId msg) as [B|] eqn:EB; [|discriminate].
  destruct (WebSocketMessage.userId msg) as [u|] eqn:Eu; [|discriminate].
  destruct (WebSocketMessage.username msg) as [n|] eqn:En; [|discriminate].
  apply truthy_Some in HB, Hu, Hn.
  rewrite (handleJoinRoom_fields now c msg B u n s EB Eu En).
  rewrite (handleJoinRoom_leaveFirst now c B u n s client Hc HB Hu Hn).
  cbv zeta. cbn [fst]. apply noEmpty_afterEnter. now apply noEmpty_leaveFirst.
Qed.

Lemma noEmpty_handleDisconnect now c s :
  noEmptyRoom s -> noEmptyRoom (fst (handleDisconnect now c s)).
Proof.
  intros H. destruct (OMap.get c (clients s)) as [client|] eqn:Hc.
  - rewrite (handleDisconnect_spec now c s client Hc). cbn [fst].
    apply (noEmpty_rooms (fst (leaveFirst now c client s))); [reflexivity|].
    now apply noEmpty_leaveFirst.
  - unfold handleDisconnect. now rewrite Hc.
Qed.

Lemma noEmpty_handleMessage now fresh c rawData s :
  noEmptyRoom s -> noEmptyRoom (fst (handleMessage now fresh c rawData s)).
Proof.
  intros H. unfold handleMessage.
  destruct (OMap.get c (clients s)) as [client|]; [|exact H].
  destruct rawData as [|msg]; [now rewrite sendToClient_spec|].
  destruct (RateLimiter.isAllowed _ _ _) as [[|] limiter]; simpl negb; cbv iota;
    [|now rewrite sendToClient_spec].
  assert (Hl : noEmptyRoom (mkState (clients s) (rooms s) limiter)) by exact H.
  revert Hl. generalize (mkState (clients s) (rooms s) limiter). clear H s client.
  intros s H. unfold dispatch.
  destruct (WebSocketMessage.type msg) as [t|]; [|exact H].
  destruct (String.eqb t "join_room"); [now apply noEmpty_handleJoinRoom|].
  destruct (String.eqb t "message").
  { unfold handleChatMessage.
    destruct (OMap.get c (clients s)) as [client|]; [|exact H].
    destruct (WebSocketMessage.data msg) as [data|]; [|exact H].
    destruct (negb _); [exact H|]. cbv zeta.
    destruct (OMap.get _ (rooms s)) as [room|] eqn:Hr; [|exact H].
    rewrite andThen_silent_l, broadcastToRoom_spec. cbn [fst].
    intros k room' Hk. cbn [rooms withRooms] in Hk.
    destruct (String.eqb_spec (orElse (ClientConnection.roomId client) "") k)
      as [E|Hne].
    - rewrite E in Hk, Hr. rewrite OMapFacts.get_alter_eq, Hr in Hk.
      injection Hk as <-. simpl. eauto.
    - rewrite OMapFacts.get_alter_ne in Hk by exact Hne. eauto. }
  destruct (String.eqb t "typing").
  { unfold handleTyping.
    destruct (OMap.get c (clients s)) as [client|]; [|exact H].
    destruct (negb _); [exact H|]. cbv zeta.
    destruct (OMap.get _ (rooms s)); [|exact H].
    now rewrite broadcastToRoom_spec. }
  destruct (String.eqb t "ping"); [|exact H].
  unfold handlePing. destruct (OMap.get c (clients s)); [|exact H].
  now rewrite andThen_silent_l, sendToClient_spec.
Qed.

Lemma noEmpty_step now i s : noEmptyRoom s -> noEmptyRoom (fst (step now i s)).
Proof.
  intros H. destruct i; simpl.
  - unfold handleConnection. now rewrite andThen_silent_l, sendToClient_spec.
  - now apply noEmpty_handleMessage.
  - now apply noEmpty_handleDisconnect.
  - exact H.
  - exact H.
  - unfold heartbeat. apply forEach_preserves; [|exact H].
    clear s H. intros c s H.
    destruct (OMap.get c (clients s)) as [client|]; [|exact H].
    destruct (negb (ClientConnection.isAlive client)); rewrite andThen_silent_l.
    + now apply noEmpty_handleDisconnect.
    + now destruct (ClientConnection.ws client).
  - unfold cleanup, andThen.
    destruct (IdleRooms.cleanupRooms_spec now s) as (_ & _ & _ & Hg).
    assert (H1 : noEmptyRoom (fst (cleanupRooms now s))).
    { intros k room Hk. rewrite Hg in Hk.
      destruct (OMap.get k (rooms s)) as [room0|] eqn:E; [|discriminate].
      destruct (inactive now room0); [discriminate|]. injection Hk as <-. eauto. }
    destruct (cleanupRooms now s) as [s1 o1]. cbn [fst] in H1.
    assert (H2 : noEmptyRoom (fst (cleanupClients now s1))).
    { unfold cleanupClients. apply forEach_preserves; [|exact H1].
      intros c s2 H2. destruct (OMap.get c (clients s2)) as [client|]; [|exact H2].
      destruct (_ >? _); [now apply noEmpty_handleDisconnect|exact H2]. }
    now destruct (cleanupClients now s1).
Qed.

(** X5. The directory never holds a room without members: the leave that
    empties a room deletes it.  If no room of the directory is empty, none is
    after any run (joins, closes, frames, both timers), whatever the
    transport ids; the empty server is such a state. *)
Theorem no_empty_room trace s :
  noEmptyRoom s -> noEmptyRoom (fst (run trace s)).
Proof.
  revert s. induction trace as [|[now i] trace IH]; intros s Hs; [exact Hs|].
  simpl. unfold andThen. pose proof (noEmpty_step now i s Hs) as H1.
  destruct (step now i s) as [s1 o1]. cbn [fst] in H1.
  specialize (IH s1 H1). now destruct (run trace s1).
Qed.

Lemma no_empty_room_witness :
  noEmptyRoom initial
  /\ noEmptyRoom (fst (run ServerScenarios.oneSilentTrace initial)).
Proof.
  assert (H0 : noEmptyRoom initial) by (intros r room Hr; discriminate Hr).
  split; [exact H0|].
  exact (no_empty_room ServerScenarios.oneSilentTrace initial H0).
Defined.

End ServerMore.

(** ** The standalone server: who is written to *)

Module ServerTransports.
Import Server ServerSpec ServerSpecMore ServerFacts ServerBroadcast ServerRooms.
Import ServerInvariant ServerJoin ServerSweep ServerReachable.

Lemma isOpen_alter (f : ClientConnection.t -> ClientConnection.t) c s d :
  (forall x, ClientConnection.ws (f x) = ClientConnection.ws x) ->
  isOpen (withClients (OMap.alter f c) s) d = isOpen s d.
Proof.
  intros Hf. unfold isOpen. rewrite ServerHeartbeat.get_alter_client.
  destruct (String.eqb c d); [|reflexivity].
  destruct (OMap.get d (clients s)); simpl; [apply Hf|reflexivity].
Qed.

Lemma isOpen_leaveFirst now c client s d :
  OMap.get c (clients s) = Some client ->
  isOpen (fst (leaveFirst now c client s)) d = isOpen s d.
Proof.
  intros Hc. unfold leaveFirst.
  destruct (truthy (ClientConnection.roomId client)); [|reflexivity].
  destruct (OMap.get (orElse (ClientConnection.roomId client) "") (rooms s))
    as [room|] eqn:Hr.
  - rewrite (leaveRoom_spec now c _ s client room Hc Hr). cbn [fst].
    apply (isOpen_alter (setRoomId None) c s d). reflexivity.
  - now rewrite leaveRoom_no_room.
Qed.

Lemma in_fanOut d f msg ids : In (d, f) (fanOut msg ids) -> In d ids /\ f = msg.
Proof.
  unfold fanOut. rewrite in_map_iff. intros (x & E & Hx).
  injection E as -> ->. now split.
Qed.

Lemma in_recipients s r exclude d :
  In d (recipients s r exclude) ->
  In d (members s r) /\ excluded d exclude = false /\ isOpen s d = true.
Proof.
  unfold recipients. rewrite filter_In. intros (Hm & Hb).
  apply andb_prop in Hb. destruct Hb as [He Ho].
  apply negb_true_iff in He. now repeat split.
Qed.

Lemma in_leaveNotices now c client s d f :
  In (d, f) (leaveNotices now c client s) -> d <> c /\ isOpen s d = true.
Proof.
  unfold leaveNotices. destruct (_ && _); [|contradiction].
  cbv zeta. intros H. apply in_fanOut in H. destruct H as [H _].
  apply filter_In in H. destruct H as [H Ho].
  apply OSetFacts.in_delete in H. now split.
Qed.

Lemma open_handleDisconnect now c s :
  (forall d f, In (d, f) (snd (handleDisconnect now c s)) -> isOpen s d = true)
  /\ (forall d, isOpen (fst (handleDisconnect now c s)) d = true ->
                isOpen s d = true).
Proof.
  destruct (OMap.get c (clients s)) as [client|] eqn:Hc.
  - rewrite (handleDisconnect_spec now c s client Hc). cbn [fst snd]. split.
    + intros d f H. now apply in_leaveNotices in H.
    + intros d. unfold isOpen at 1. cbn [clients withClients].
      destruct (String.eqb_spec c d) as [->|Hne].
      * now rewrite OMapFacts.get_delete_eq.
      * rewrite OMapFacts.get_delete_ne by exact Hne.
        fold (isOpen (fst (leaveFirst now c client s)) d).
        now rewrite (isOpen_leaveFirst now c client s d Hc).
  - unfold handleDisconnect. rewrite Hc. cbn [fst snd]. split; [contradiction|auto].
Qed.

Lemma open_forEach ks (h : string -> Handler) :
  (forall k s,
      (forall d f, In (d, f) (snd (h k s)) -> isOpen s d = true)
      /\ (forall d, isOpen (fst (h k s)) d = true -> isOpen s d = true)) ->
  forall s,
    (forall d f, In (d, f) (snd (forEach ks h s)) -> isOpen s d = true)
    /\ (forall d, isOpen (fst (forEach ks h s)) d = true -> isOpen s d = true).
Proof.
  intros Hh. induction ks as [|k ks IH]; intros s.
  - simpl. split; [contradiction|auto].
  - cbn [forEach]. unfold andThen. destruct (Hh k s) as [Ho Hs].
    destruct (h k s) as [s1 o1]. cbn [fst snd] in Ho, Hs.
    destruct (IH s1) as [Ho1 Hs1].
    destruct (forEach ks h s1) as [s2 o2]. cbn [fst snd] in *. split.
    + intros d f H. apply in_app_or in H. destruct H as [H|H]; eauto.
    + intros d H. auto.
Qed.

Lemma open_handleJoinRoom now c msg s d f :
  In (d, f) (snd (handleJoinRoom now c msg s)) -> isOpen s d = true.
Proof.
  destruct (OMap.get c (clients s)) as [client|] eqn:Hc;
    [|unfold handleJoinRoom; rewrite Hc; contradiction].
  destruct (truthy (WebSocketMessage.roomId msg)
            && truthy (WebSocketMessage.userId msg)
            && truthy (WebSocketMessage.username msg)) eqn:Hv;
    [|unfold handleJoinRoom; rewrite Hc, Hv; contradiction].
  apply andb_prop in Hv. destruct Hv as [Hv Hn].
  apply andb_prop in Hv. destruct Hv as [HB Hu].
  destruct (WebSocketMessage.roomId msg) as [B|] eqn:EB; [|discriminate].
  destruct (WebSocketMessage.userId msg) as [u|] eqn:Eu; [|discriminate].
  destruct (WebSocketMessage.username msg) as [n|] eqn:En; [|discriminate].
  apply truthy_Some in HB, Hu, Hn.
  rewrite (handleJoinRoom_fields now c msg B u n s EB Eu En).
  rewrite (handleJoinRoom_leaveFirst now c B u n s client Hc HB Hu Hn).
  cbv zeta. cbn [snd]. intros H.
  assert (Hback : forall x,
             isOpen (afterEnter now c B u n (fst (leaveFirst now c client s))) x = true ->
             isOpen s x = true).
  { intros x. rewrite isOpen_afterEnter.
    now rewrite (isOpen_leaveFirst now c client s x Hc). }
  apply in_app_or in H. destruct H as [H|H];
    [now apply in_leaveNotices in H|].
  apply in_app_or in H. destruct H as [H|H].
  - apply in_fanOut in H. destruct H as [H _].
    apply in_recipients in H. apply Hback, H.
  - destruct (isOpen (afterEnter now c B u n (fst (leaveFirst now c client s))) c)
      eqn:Eo; [|contradiction].
    destruct H as [H|[]]. injection H as <- _. now apply Hback.
Qed.

Lemma open_dispatch now fresh c msg s d f :
  In (d, f) (snd (dispatch now fresh c msg s)) -> isOpen s d = true.
Proof.
  unfold dispatch.
  destruct (WebSocketMessage.type msg) as [t|]; [|contradiction].
  destruct (String.eqb t "join_room"); [apply open_handleJoinRoom|].
  destruct (String.eqb t "message").
  { unfold handleChatMessage.
    destruct (OMap.get c (clients s)) as [client|]; [|contradiction].
    destruct (WebSocketMessage.data msg) as [data|]; [|contradiction].
    destruct (negb _); [contradiction|]. cbv zeta.
    destruct (OMap.get _ (rooms s)) as [room|]; [|contradiction].
    rewrite andThen_silent_l, broadcastToRoom_spec. cbn [snd]. intros H.
    apply in_fanOut in H. destruct H as [H _]. apply in_recipients in H.
    exact (proj2 (proj2 H)). }
  destruct (String.eqb t "typing").
  { unfold handleTyping.
    destruct (OMap.get c (clients s)) as [client|]; [|contradiction].
    destruct (negb _); [contradiction|]. cbv zeta.
    destruct (OMap.get _ (rooms s)); [|contradiction].
    rewrite broadcastToRoom_spec. cbn [snd]. intros H.
    apply in_fanOut in H. destruct H as [H _]. apply in_recipients in H.
    exact (proj2 (proj2 H)). }
  destruct (String.eqb t "ping"); [|contradiction].
  unfold handlePing. destruct (OMap.get c (clients s)); [|contradiction].
  rewrite andThen_silent_l, sendToClient_spec. cbn [snd].
  rewrite (isOpen_alter (setLiveness now true) c s c) by reflexivity.
  destruct (isOpen s c) eqn:E; [|contradiction].
  intros [H|[]]. now injection H as <- _.
Qed.

Lemma open_handleMessage now fresh c rawData s d f :
  In (d, f) (snd (handleMessage now fresh c rawData s)) -> isOpen s d = true.
Proof.
  assert (Hsend : forall msg, In (d, f) (snd (sendToClient c msg s)) ->
                              isOpen s d = true).
  { intros msg. rewrite sendToClient_spec. cbn [snd].
    destruct (isOpen s c) eqn:E; [|contradiction].
    intros [H|[]]. now injection H as <- _. }
  unfold handleMessage.
  destruct (OMap.get c (clients s)) as [client|]; [|contradiction].
  destruct rawData as [|msg]; [apply Hsend|].
  destruct (RateLimiter.isAllowed _ _ _) as [[|] limiter]; simpl negb; cbv iota;
    [|apply Hsend].
  intros H. now apply open_dispatch in H.
Qed.

(** X6. The server writes only to transports that are registered and open:
    every frame a step writes goes to a client that was open when the step
    began, the welcome of a new connection apart, which goes to the
    transport just accepted.  This holds for frames, closes and both
    timers, in any state. *)
Theorem writes_only_to_open_transports now i s d f :
  In (d, f) (snd (step now i s)) ->
  isOpen s d = true \/ i = Connect d.
Proof.
  destruct i as [c|c rawData fresh|c|c|c| |]; cbn [step].
  - unfold handleConnection. rewrite andThen_silent_l, sendToClient_spec.
    cbn [snd]. destruct (isOpen _ c); [|contradiction].
    intros [H|[]]. injection H as <- _. now right.
  - intros H. left. now apply open_handleMessage in H.
  - intros H. left. now apply (proj1 (open_handleDisconnect now c s)) in H.
  - contradiction.
  - contradiction.
  - intros H. left. revert d f H. unfold heartbeat. apply open_forEach.
    clear s. intros k s.
    destruct (OMap.get k (clients s)) as [client|] eqn:Hk;
      [|split; [contradiction|auto]].
    destruct (negb (ClientConnection.isAlive client)); rewrite andThen_silent_l.
    + assert (Hw : forall x,
                 isOpen (withClients (OMap.alter (setWs false) k) s) x = true ->
                 isOpen s x = true).
      { intros x. unfold isOpen at 1. rewrite ServerHeartbeat.get_alter_client.
        destruct (String.eqb_spec k x) as [->|Hne]; [|auto].
        rewrite Hk. simpl. discriminate. }
      destruct (open_handleDisconnect now k
                  (withClients (OMap.alter (setWs false) k) s)) as [Ho Hs].
      split; [intros d f H; apply Hw; eauto|intros d H; apply Hw; eauto].
    + split.
      * intros d f. destruct (ClientConnection.ws client) eqn:Ew; [|contradiction].
        intros [H|[]]. injection H as <- _. unfold isOpen. now rewrite Hk.
      * intros d. destruct (ClientConnection.ws client); cbn [fst];
          now rewrite (isOpen_alter (setAlive false) k s d) by reflexivity.
  - intros H. left. revert H. unfold cleanup, andThen.
    destruct (IdleRooms.cleanupRooms_spec now s) as (Ho & Hc & _).
    destruct (cleanupRooms now s) as [s1 o1]. cbn [fst snd] in Ho, Hc. subst o1.
    assert (Hl : forall x y, In (x, y) (snd (cleanupClients now s1)) ->
                             isOpen s1 x = true).
    { unfold cleanupClients. apply open_forEach. intros k s2.
      destruct (OMap.get k (clients s2)) as [client|];
        [|split; [contradiction|auto]].
      destruct (_ >? _); [apply open_handleDisconnect|split; [contradiction|auto]]. }
    destruct (cleanupClients now s1) as [s2 o2]. cbn [snd app] in *.
    intros H. apply Hl in H. unfold isOpen in *. now rewrite <- Hc.
Qed.

Lemma writes_only_to_open_transports_witness :
  In ("B", user_left "r1" "ua" "alice" 70000)
    (snd (step 70000 CleanupTick ServerScenarios.oneSilent))
  /\ (isOpen ServerScenarios.oneSilent "B" = true \/ CleanupTick = Connect "B").
Proof.
  assert (H : In ("B", user_left "r1" "ua" "alice" 70000)
                (snd (step 70000 CleanupTick ServerScenarios.oneSilent)))
    by (vm_compute; auto).
  split; [exact H|].
  exact (writes_only_to_open_transports 70000 CleanupTick
           ServerScenarios.oneSilent "B" _ H).
Defined.

End ServerTransports.

(** ** The standalone server: closes, join replies and lost rooms *)

Module ServerClients.
Import Server ServerSpec ServerSpecMore ServerFacts ServerBroadcast ServerRooms.
Import ServerInvariant ServerJoin ServerSweep ServerReachable.

Lemma alter_absent (V : Type) (f : V -> V) k (m : OMap.t V) :
  OMap.get k m = None -> OMap.alter f k m = m.
Proof.
  induction m as [|[k' v] m IH]; simpl; [reflexivity|].
  destruct (String.eqb k k'); [discriminate|]. intros H. now rewrite IH.
Qed.

Lemma withClients_absent (f : ClientConnection.t -> ClientConnection.t) c s :
  OMap.get c (clients s) = None -> withClients (OMap.alter f c) s = s.
Proof.
  intros H. unfold withClients. rewrite (alter_absent _ f c (clients s) H).
  now destruct s.
Qed.

(** X7. A closed client is gone for good.  After the close handler has run
    in a consistent state the client is in no room and not in the registry,
    and whatever its transport still delivers (a frame, a second close, a
    pong, a change of its ready state) changes nothing and writes
    nothing. *)
Theorem closed_client_is_gone now c s :
  wf s ->
  let s' := fst (handleDisconnect now c s) in
  OMap.get c (clients s') = None
  /\ (forall k, ~ In c (members s' k))
  /\ (forall later i, fromTransport c i -> step later i s' = (s', [])).
Proof.
  intros W s'.
  assert (H : OMap.get c (clients s') = None /\ forall k, ~ In c (members s' k)).
  { subst s'. destruct (OMap.get c (clients s)) as [client|] eqn:Hc.
    - destruct (handleDisconnect_state now c s client W Hc) as (_ & Hg & _ & Hm).
      split; [exact Hg|]. intros k. rewrite Hm. apply OSetFacts.not_in_delete.
    - unfold handleDisconnect. rewrite Hc. cbn [fst]. split; [exact Hc|].
      intros k Hin. unfold members in Hin.
      destruct (OMap.get k (rooms s)) as [room|] eqn:Hk; [|contradiction].
      destruct (wf_member s W k room c Hk Hin) as (x & Hx & _). congruence. }
  destruct H as [Hg Hm]. split; [exact Hg|]. split; [exact Hm|].
  intros later i Hi. destruct i as [d|d rawData fresh|d|d|d| |];
    cbn [fromTransport] in Hi; try contradiction; subst d; cbn [step].
  - unfold handleMessage. now rewrite Hg.
  - unfold handleDisconnect. now rewrite Hg.
  - unfold handlePong, silent. now rewrite (withClients_absent _ c s' Hg).
  - unfold silent. now rewrite (withClients_absent _ c s' Hg).
Qed.

Lemma closed_client_is_gone_witness :
  OMap.get "A" (clients (fst (handleDisconnect 9 "A" ServerScenarios.oneSilent)))
  = None
  /\ step 10 (Receive "A" ServerExamples.pingFrame "f")
       (fst (handleDisconnect 9 "A" ServerScenarios.oneSilent))
     = (fst (handleDisconnect 9 "A" ServerScenarios.oneSilent), []).
Proof.
  pose proof (closed_client_is_gone 9 "A" ServerScenarios.oneSilent
                SilentClients.wf_oneSilent) as H.
  cbv zeta in H. destruct H as (H1 & _ & H3).
  split; [exact H1|].
  exact (H3 10 (Receive "A" ServerExamples.pingFrame "f") eq_refl).
Defined.

Lemma registered_leaveFirst now c client s :
  OMap.get c (clients s) = Some client ->
  exists x, OMap.get c (clients (fst (leaveFirst now c client s))) = Some x.
Proof.
  intros Hc. unfold leaveFirst.
  destruct (truthy (ClientConnection.roomId client)); [|now exists client].
  destruct (OMap.get (orElse (ClientConnection.roomId client) "") (rooms s))
    as [room|] eqn:Hr.
  - rewrite (leaveRoom_spec now c _ s client room Hc Hr). cbn [fst clients afterLeave].
    rewrite OMapFacts.get_alter_eq, Hc. simpl. eauto.
  - rewrite leaveRoom_no_room by exact Hr. now exists client.
Qed.

Lemma filter_none (A : Type) (g : A -> bool) (l : list A) :
  (forall x, In x l -> g x = false) -> filter g l = [].
Proof.
  induction l as [|a l IH]; simpl; intros H; [reflexivity|].
  rewrite (H a) by now left. apply IH. intros x Hx. apply H. now right.
Qed.

(** X8. What a join answers to the joiner.  Of the frames an accepted join
    writes, the joiner gets exactly one when its transport is open and none
    otherwise: [room_joined] with the participants of the room as it is
    after the join, and that list names the joiner under the identity of the
    frame.  The [user_left] and [user_joined] notices of its own move are
    never written to it. *)
Theorem joiner_gets_room_joined now c B userId username s client :
  OMap.get c (clients s) = Some client ->
  B <> "" -> userId <> "" -> username <> "" ->
  let result := handleJoinRoom now c (joinFrame B userId username) s in
  filter (fun x => String.eqb (fst x) c) (snd result)
  = (if isOpen s c
     then [(c, room_joined B (getRoomParticipants B (fst result)))] else [])
  /\ In (mkParticipant userId username true) (getRoomParticipants B (fst result)).
Proof.
  intros Hc HB Hu Hn.
  rewrite (handleJoinRoom_leaveFirst now c B userId username s client Hc HB Hu Hn).
  cbv zeta. cbn [fst snd].
  set (s1 := fst (leaveFirst now c client s)).
  set (s4 := afterEnter now c B userId username s1).
  assert (Ho : isOpen s4 c = isOpen s c).
  { unfold s4. rewrite isOpen_afterEnter. unfold s1, isOpen.
    destruct (registered_leaveFirst now c client s Hc) as (x & Hx).
    unfold leaveFirst in *.
    destruct (truthy (ClientConnection.roomId client)); [|reflexivity].
    destruct (OMap.get (orElse (ClientConnection.roomId client) "") (rooms s))
      as [room|] eqn:Hr.
    - rewrite (leaveRoom_spec now c _ s client room Hc Hr).
      cbn [fst clients afterLeave]. rewrite OMapFacts.get_alter_eq, Hc.
      reflexivity.
    - now rewrite leaveRoom_no_room. }
  split.
  - rewrite !filter_app.
    rewrite (filter_none _ _ (leaveNotices now c client s)).
    2:{ intros [d f] H. apply ServerTransports.in_leaveNotices in H.
        simpl. now apply String.eqb_neq. }
    rewrite (filter_none _ _ (fanOut _ (recipients s4 B (Some c)))).
    2:{ intros [d f] H. apply ServerTransports.in_fanOut in H. destruct H as [H _].
        apply ServerTransports.in_recipients in H. simpl. exact (proj1 (proj2 H)). }
    rewrite Ho. destruct (isOpen s c); [|reflexivity].
    simpl. now rewrite String.eqb_refl.
  - unfold getRoomParticipants. unfold s4 at 1.
    rewrite get_rooms_afterEnter, String.eqb_refl.
    apply in_flat_map. exists c. split.
    + destruct (OMap.get B (rooms s1)); simpl.
      * apply OSetFacts.in_add. now left.
      * now left.
    + destruct (registered_leaveFirst now c client s Hc) as (x & Hx).
      fold s1 in Hx. unfold s4. cbn [clients afterEnter].
      rewrite OMapFacts.get_alter_eq, Hx.
      cbn [option_map setIdentity ClientConnection.userId ClientConnection.username].
      rewrite (proj2 (truthy_Some userId) Hu), (proj2 (truthy_Some username) Hn).
      rewrite (orElse_Some userId "" Hu), (orElse_Some username "" Hn).
      simpl. now left.
Qed.

Lemma joiner_gets_room_joined_witness :
  filter (fun x => String.eqb (fst x) "A")
    (snd (handleJoinRoom 9 "A" (joinFrame "r2" "ua" "alice") ServerExamples.twoInRoom))
  = [("A", room_joined "r2" [mkParticipant "ua" "alice" true])].
Proof.
  exact (proj1 (@joiner_gets_room_joined 9 "A" "r2" "ua" "alice"
                  ServerExamples.twoInRoom
                  (ClientConnection.mk "A" true (Some "ua") (Some "alice")
                     (Some "r1") 0 true)
                  eq_refl
                  ltac:(discriminate) ltac:(discriminate) ltac:(discriminate))).
Defined.

Lemma participants_of_members s (l : list string) :
  (forall d, In d l ->
     exists c, OMap.get d (clients s) = Some c
               /\ truthy (ClientConnection.userId c) = true
               /\ truthy (ClientConnection.username c) = true) ->
  exists cs,
    Forall2 (fun d c => OMap.get d (clients s) = Some c) l cs
    /\ flat_map
         (fun clientId =>
            match OMap.get clientId (clients s) with
            | Some client =>
                if truthy (ClientConnection.userId client)
                   && truthy (ClientConnection.username client)
                then [mkParticipant (orElse (ClientConnection.userId client) "")
                        (orElse (ClientConnection.username client) "") true]
                else []
            | None => []
            end) l
       = map participantOf cs.
Proof.
  induction l as [|d l IH]; intros H.
  - exists []. split; [constructor|reflexivity].
  - destruct (H d (or_introl eq_refl)) as (c & Hc & Hu & Hn).
    destruct IH as (cs & HF & HE); [intros x Hx; apply H; now right|].
    exists (c :: cs). split; [now constructor|].
    cbn [flat_map map]. rewrite Hc, Hu, Hn, HE. reflexivity.
Qed.

(** X9. In a consistent state the participants list of a room has exactly
    one entry per member, in the order of the membership: the user id and
    the name of the member's registered client, marked online. *)
Theorem participants_one_per_member s r :
  wf s ->
  exists cs,
    Forall2 (fun d c => OMap.get d (clients s) = Some c) (members s r) cs
    /\ getRoomParticipants r s = map participantOf cs.
Proof.
  intros W. unfold getRoomParticipants, members.
  destruct (OMap.get r (rooms s)) as [room|] eqn:Hr.
  - apply participants_of_members. intros d Hd.
    destruct (wf_member s W r room d Hr Hd) as (c & Hc & Hroom).
    exists c. split; [exact Hc|]. apply (wf_identity s W d c Hc).
    rewrite Hroom. apply truthy_Some. exact (wf_roomId s W r room Hr).
  - exists []. split; [constructor|reflexivity].
Qed.

Lemma participants_one_per_member_witness :
  exists cs,
    Forall2 (fun d c => OMap.get d (clients ServerScenarios.oneSilent) = Some c)
      (members ServerScenarios.oneSilent "r1") cs
    /\ getRoomParticipants "r1" ServerScenarios.oneSilent = map participantOf cs.
Proof.
  exact (participants_one_per_member ServerScenarios.oneSilent "r1"
           SilentClients.wf_oneSilent).
Defined.

(** X10. A chat or typing frame of a client whose room is not in the
    directory (it never joined, or the cleanup timer deleted the room under
    it) is dropped without an answer: nothing is written, to the sender
    either, and only the rate limiter moves. *)
Theorem roomless_frames_dropped now fresh c msg s client limiter :
  OMap.get c (clients s) = Some client ->
  roomless s client ->
  hasType "message" msg \/ hasType "typing" msg ->
  RateLimiter.isAllowed now (rateLimitKey c msg) (messageRateLimiter s)
    = (true, limiter) ->
  handleMessage now fresh c (Parsed msg) s
  = (mkState (clients s) (rooms s) limiter, []).
Proof.
  intros Hc Hroom Ht Hl.
  rewrite (handleMessage_dispatch now fresh c msg s client limiter Hc Hl).
  unfold dispatch, hasType in *. destruct Ht as [Ht|Ht]; rewrite Ht; simpl.
  - unfold handleChatMessage. cbn [clients rooms]. rewrite Hc.
    destruct (WebSocketMessage.data msg) as [data|]; [|reflexivity].
    destruct Hroom as [Hroom|Hroom].
    + now rewrite Hroom.
    + destruct (negb _); [reflexivity|]. cbv zeta. now rewrite Hroom.
  - unfold handleTyping. cbn [clients rooms]. rewrite Hc.
    destruct Hroom as [Hroom|Hroom].
    + now rewrite Hroom.
    + destruct (negb _); [reflexivity|]. cbv zeta. now rewrite Hroom.
Qed.

Lemma roomless_frames_dropped_witness :
  members ServerScenarios.quietRoom "r1" = ["A"; "B"]
  /\ snd (handleMessage 3600020 "f" "A" (Parsed (chatFrame [104%N; 105%N])) sweptRoom)
     = [].
Proof.
  split; [reflexivity|].
  exact (f_equal snd
           (@roomless_frames_dropped 3600020 "f" "A" (chatFrame [104%N; 105%N])
              sweptRoom
              (ClientConnection.mk "A" true (Some "ua") (Some "alice") (Some "r1")
                 3600000 true)
              (snd (RateLimiter.isAllowed 3600020 "A:message"
                      (messageRateLimiter sweptRoom)))
              eq_refl (or_intror eq_refl) (or_introl eq_refl) eq_refl)).
Defined.

End ServerClients.

(** ** The standalone server: rounds of the heartbeat *)

Module HeartbeatRounds.
Import Server ServerSpec ServerSpecMore ServerFacts ServerBroadcast ServerRooms.
Import ServerInvariant ServerJoin ServerSweep ServerReachable ServerHeartbeat.

Lemma heartbeat_body now s :
  heartbeat now s = forEach (OMap.keys (clients s)) (heartbeatBody now) s.
Proof. reflexivity. Qed.

Lemma keys_delete (V : Type) k (m : OMap.t V) :
  OMap.keys (OMap.delete k m)
  = filter (fun k' => negb (String.eqb k k')) (OMap.keys m).
Proof.
  unfold OMap.keys, OMap.delete. induction m as [|[k' v] m IH]; simpl; [reflexivity|].
  destruct (String.eqb k k'); simpl; now rewrite IH.
Qed.

Lemma all_absent_nil (V : Type) (m : OMap.t V) :
  (forall k, OMap.get k m = None) -> m = [].
Proof.
  destruct m as [|[k v] m]; [reflexivity|]. intros H. specialize (H k).
  simpl in H. rewrite String.eqb_refl in H. discriminate.
Qed.

(** One entry of the registry under the heartbeat. *)
Lemma heartbeatBody_spec now k s :
  wf s ->
  let s1 := fst (heartbeatBody now k s) in
  wf s1
  /\ (forall d, d <> k -> OMap.get d (clients s1) = OMap.get d (clients s))
  /\ OMap.get k (clients s1)
     = match OMap.get k (clients s) with
       | Some x => if ClientConnection.isAlive x then Some (setAlive false x) else None
       | None => None
       end
  /\ (forall r d, In d (members s r) -> OMap.get d (clients s1) <> None ->
                  In d (members s1 r))
  /\ (NoDup (OMap.keys (clients s)) -> NoDup (OMap.keys (clients s1))).
Proof.
  intros W. unfold heartbeatBody.
  destruct (OMap.get k (clients s)) as [x|] eqn:Hk.
  - destruct (ClientConnection.isAlive x) eqn:Halive; simpl negb; cbv iota.
    + rewrite andThen_silent_l. cbv beta.
      set (s1 := withClients (OMap.alter (setAlive false) k) s).
      assert (E : forall o1 o2 : list Send,
                 fst (if ClientConnection.ws x then (s1, o1) else (s1, o2)) = s1)
        by (intros o1 o2; now destruct (ClientConnection.ws x)).
      rewrite !E. clear E.
      split; [now apply wf_alter_client|]. split.
      { intros d Hd. unfold s1. rewrite get_alter_client.
        destruct (String.eqb_spec k d); [congruence|reflexivity]. }
      split.
      { unfold s1. rewrite get_alter_client, String.eqb_refl, Hk. reflexivity. }
      split; [intros r d Hd _; exact Hd|].
      unfold s1. cbn [clients withClients]. now rewrite OMapFacts.keys_alter.
    + rewrite andThen_silent_l.
      set (sa := withClients (OMap.alter (setWs false) k) s).
      assert (Wa : wf sa) by (now apply wf_alter_client).
      assert (Ha : OMap.get k (clients sa) = Some (setWs false x)).
      { subst sa. rewrite get_alter_client, String.eqb_refl. now rewrite Hk. }
      assert (Hgeta : forall d, d <> k ->
                        OMap.get d (clients sa) = OMap.get d (clients s)).
      { intros d Hd. subst sa. rewrite get_alter_client.
        destruct (String.eqb_spec k d); [congruence|reflexivity]. }
      destruct (handleDisconnect_state now k sa (setWs false x) Wa Ha)
        as (W1 & Hgone1 & Hother & Hm).
      destruct (leaveFirst_state now k (setWs false x) sa Wa Ha)
        as (_ & _ & _ & _ & Hkeys & _).
      pose proof (handleDisconnect_spec now k sa (setWs false x) Ha) as Hspec.
      cbv zeta. destruct (handleDisconnect now k sa) as [s1 o1].
      cbn [fst] in *. injection Hspec as Hs1 _.
      split; [exact W1|]. split.
      { intros d Hd. rewrite (Hother d Hd). now apply Hgeta. }
      split; [exact Hgone1|]. split.
      { intros r d Hd Hreg. rewrite Hm. apply OSetFacts.in_delete.
        split; [|exact Hd]. intros ->. now apply Hreg. }
      intros Hnd. rewrite Hs1. cbn [clients withClients].
      rewrite keys_delete. apply NoDup_filter. rewrite Hkeys.
      unfold sa. cbn [clients withClients]. now rewrite OMapFacts.keys_alter.
  - cbv zeta. cbn [fst]. split; [exact W|]. split; [reflexivity|].
    split; [exact Hk|]. split; auto.
Qed.

(** The loop of the heartbeat, entry by entry. *)
Lemma heartbeat_round now ks :
  forall s, wf s ->
    let s' := fst (forEach ks (heartbeatBody now) s) in
    wf s'
    /\ (forall d, ~ In d ks -> OMap.get d (clients s') = OMap.get d (clients s))
    /\ (forall d x', In d ks -> OMap.get d (clients s') = Some x' ->
                     ClientConnection.isAlive x' = false)
    /\ (forall d, OMap.get d (clients s) = None -> OMap.get d (clients s') = None)
    /\ (NoDup ks ->
        forall d x, In d ks -> OMap.get d (clients s) = Some x ->
                    ClientConnection.isAlive x = true ->
                    OMap.get d (clients s') = Some (setAlive false x))
    /\ (forall r d, In d (members s r) -> OMap.get d (clients s') <> None ->
                    In d (members s' r))
    /\ (NoDup (OMap.keys (clients s)) -> NoDup (OMap.keys (clients s'))).
Proof.
  induction ks as [|c0 ks IH]; intros s W.
  - simpl. split; [exact W|]. split; [auto|]. split; [contradiction|].
    split; [auto|]. split; [contradiction|]. split; auto.
  - cbn [forEach]. unfold andThen.
    destruct (heartbeatBody_spec now c0 s W) as (W1 & Hoth & Hown & Hmem & Hnd).
    destruct (heartbeatBody now c0 s) as [s1 o1]. cbn [fst] in W1, Hoth, Hown, Hmem, Hnd.
    specialize (IH s1 W1). cbv zeta in IH.
    destruct (forEach ks (heartbeatBody now) s1) as [s2 o2]. cbn [fst] in IH |- *.
    destruct IH as (W2 & HB & HA & HN & HC & HM & HD).
    assert (Hnone1 : forall d, OMap.get d (clients s) = None ->
                               OMap.get d (clients s1) = None).
    { intros d Hd. destruct (String.eqb_spec d c0) as [->|Hne].
      - now rewrite Hown, Hd.
      - now rewrite (Hoth d Hne). }
    split; [exact W2|]. split.
    { intros d Hd. rewrite HB by (intros H; apply Hd; now right).
      apply Hoth. intros ->. apply Hd. now left. }
    split.
    { intros d x' Hd Hx'. destruct (in_dec string_dec d ks) as [Hin|Hout].
      - now apply (HA d x' Hin).
      - destruct Hd as [<-|Hd]; [|contradiction].
        rewrite (HB c0 Hout), Hown in Hx'.
        destruct (OMap.get c0 (clients s)) as [x|]; [|discriminate].
        destruct (ClientConnection.isAlive x); [|discriminate].
        now injection Hx' as <-. }
    split; [intros d Hd; apply HN, Hnone1, Hd|]. split.
    { intros Hnodup d x Hd Hx Halive.
      apply NoDup_cons_iff in Hnodup. destruct Hnodup as [Hc0 Hnodup].
      destruct Hd as [<-|Hd].
      - rewrite (HB c0 Hc0), Hown, Hx, Halive. reflexivity.
      - apply (HC Hnodup d x Hd); [|exact Halive].
        rewrite Hoth; [exact Hx|]. intros ->. contradiction. }
    split.
    { intros r d Hd Hreg. apply HM; [|exact Hreg]. apply Hmem; [exact Hd|].
      intros E. apply Hreg. now apply HN. }
    intros H. apply HD, Hnd, H.
Qed.

Lemma fst_andThen (f g : Handler) s : fst ((f ;; g) s) = fst (g (fst (f s))).
Proof.
  unfold andThen. destruct (f s) as [s1 o1]. cbn [fst]. now destruct (g s1).
Qed.

(** X11. Two heartbeats in a row empty the server.  The first lowers the
    [isAlive] flag of every client it keeps, only a pong or a ping frame
    raises it again, and the second terminates every client whose flag is
    down: after two ticks with nothing in between the registry is empty
    and no room has a member. *)
Theorem two_missed_heartbeats t1 t2 s :
  wf s ->
  let s' := fst (run [(t1, HeartbeatTick); (t2, HeartbeatTick)] s) in
  clients s' = [] /\ forall r, members s' r = [].
Proof.
  intros W. cbn [run step]. rewrite !fst_andThen. cbn [silent fst].
  set (s1 := fst (heartbeat t1 s)).
  assert (W1 : wf s1) by (now apply wf_heartbeat).
  assert (Hdown : forall d x', OMap.get d (clients s1) = Some x' ->
                               ClientConnection.isAlive x' = false).
  { intros d x' Hx'. unfold s1 in Hx'. rewrite heartbeat_body in Hx'.
    destruct (heartbeat_round t1 (OMap.keys (clients s)) s W)
      as (_ & HB & HA & HN & _).
    destruct (OMap.get d (clients s)) as [x|] eqn:Hd.
    - apply (HA d x'); [|exact Hx']. now apply (JoinAtWork.get_in_keys _ d (clients s) x).
    - rewrite (HN d Hd) in Hx'. discriminate. }
  destruct (heartbeat_loop t2 (OMap.keys (clients s1)) s1 W1)
    as (W2 & Hws & _ & Hgone & _).
  fold (heartbeat t2 s1) in W2, Hws, Hgone.
  set (s2 := fst (heartbeat t2 s1)) in *.
  assert (Hnone : forall d, OMap.get d (clients s2) = None).
  { intros d. destruct (OMap.get d (clients s1)) as [x|] eqn:Hd.
    - apply Hgone; [now apply (JoinAtWork.get_in_keys _ d (clients s1) x)|].
      intros x0 Hx0. now apply (Hdown d).
    - destruct (OMap.get d (clients s2)) as [x'|] eqn:E; [|reflexivity].
      destruct (Hws d x' E) as (x & Hx & _). congruence. }
  split; [now apply all_absent_nil|].
  intros r. unfold members.
  destruct (OMap.get r (rooms s2)) as [room|] eqn:Hr; [|reflexivity].
  destruct (Room.clients room) as [|d l] eqn:E; [reflexivity|].
  destruct (wf_member s2 W2 r room d Hr) as (x & Hx & _); [rewrite E; now left|].
  rewrite Hnone in Hx. discriminate.
Qed.

Lemma two_missed_heartbeats_witness :
  clients (fst (run [(30000, HeartbeatTick); (60000, HeartbeatTick)]
                  ServerScenarios.oneSilent)) = [].
Proof.
  exact (proj1 (two_missed_heartbeats 30000 60000 ServerScenarios.oneSilent
                  SilentClients.wf_oneSilent)).
Defined.

(** X12. A client that answers the ping survives the next heartbeat.  A
    client whose [isAlive] flag is up at a tick and whose pong arrives
    before the next tick is still registered after it, with [lastPing] the
    time of the pong, and still a member of its rooms. *)
Theorem pong_keeps_client t1 t t2 c x s :
  wf s ->
  NoDup (OMap.keys (clients s)) ->
  OMap.get c (clients s) = Some x ->
  ClientConnection.isAlive x = true ->
  let s' := fst (run [(t1, HeartbeatTick); (t, Pong c); (t2, HeartbeatTick)] s) in
  OMap.get c (clients s') = Some (setLiveness t false x)
  /\ forall r, In c (members s r) -> In c (members s' r).
Proof.
  intros W Hnd Hc Halive. cbn [run step]. rewrite !fst_andThen. cbn [silent fst].
  rewrite !heartbeat_body.
  destruct (heartbeat_round t1 (OMap.keys (clients s)) s W)
    as (W1 & _ & _ & _ & HC1 & HM1 & HD1).
  set (s1 := fst (forEach (OMap.keys (clients s)) (heartbeatBody t1) s)) in *.
  assert (Hc1 : OMap.get c (clients s1) = Some (setAlive false x)).
  { apply (HC1 Hnd c x); [|exact Hc|exact Halive].
    now apply (JoinAtWork.get_in_keys _ c (clients s) x). }
  unfold handlePong at 1. cbn [silent fst].
  set (s2 := withClients (OMap.alter (setLiveness t true) c) s1).
  assert (W2 : wf s2) by (now apply wf_alter_client).
  assert (Hc2 : OMap.get c (clients s2) = Some (setLiveness t true (setAlive false x))).
  { unfold s2. rewrite get_alter_client, String.eqb_refl, Hc1. reflexivity. }
  assert (Hnd2 : NoDup (OMap.keys (clients s2))).
  { unfold s2. cbn [clients withClients]. rewrite OMapFacts.keys_alter.
    now apply HD1. }
  destruct (heartbeat_round t2 (OMap.keys (clients s2)) s2 W2)
    as (_ & _ & _ & _ & HC2 & HM2 & _).
  set (s3 := fst (forEach (OMap.keys (clients s2)) (heartbeatBody t2) s2)) in *.
  assert (Hc3 : OMap.get c (clients s3) = Some (setLiveness t false x)).
  { rewrite (HC2 Hnd2 c _ (JoinAtWork.get_in_keys _ c (clients s2) _ Hc2) Hc2 eq_refl).
    reflexivity. }
  split; [exact Hc3|].
  intros r Hr. apply HM2; [|congruence].
  change (members s2 r) with (members s1 r). apply HM1; [exact Hr|congruence].
Qed.

Lemma pong_keeps_client_witness :
  OMap.get "B"
    (clients (fst (run [(70000, HeartbeatTick); (70005, Pong "B");
                        (100000, HeartbeatTick)] ServerScenarios.oneSilent)))
  = Some (ClientConnection.mk "B" true (Some "ub") (Some "bob") (Some "r1")
            70005 false).
Proof.
  exact (proj1 (@pong_keeps_client 70000 70005 100000 "B"
                  (ClientConnection.mk "B" true (Some "ub") (Some "bob")
                     (Some "r1") 65000 true)
                  ServerScenarios.oneSilent SilentClients.wf_oneSilent
                  ltac:(repeat constructor; simpl; intuition discriminate)
                  eq_refl eq_refl)).
Defined.

End HeartbeatRounds.

(** ** The route stub: the explicit typing stop *)

Module RouteTypingStop.
Import Route RouteSpec RouteFacts RouteTyping RouteTypingBurst TypingDebounce.

Lemma get_delete_absent (V : Type) k k' (m : OMap.t V) :
  OMap.get k m = None -> OMap.get k (OMap.delete k' m) = None.
Proof.
  intros H. destruct (String.eqb_spec k' k) as [->|Hne].
  - apply OMapFacts.get_delete_eq.
  - now rewrite OMapFacts.get_delete_ne.
Qed.

(** Timers that fire only delete entries of [userTyping]. *)
Lemma fireAll_absent due k :
  forall s, OMap.get k (userTyping s) = None ->
            OMap.get k (userTyping (fst (fireAll due s))) = None.
Proof.
  induction due as [|tm due IH]; intros s H; [exact H|].
  cbn [fireAll]. unfold andThen.
  assert (H1 : OMap.get k (userTyping (fst (fire tm s))) = None).
  { unfold fire. destruct (existsb _ (timers s)); [|exact H].
    rewrite typingExpired_spec. cbn [fst userTyping withUserTyping clearTimeout].
    now apply get_delete_absent. }
  destruct (fire tm s) as [s1 o1]. cbn [fst] in H1.
  specialize (IH s1 H1). now destruct (fireAll due s1).
Qed.

Lemma runTimers_absent now k s :
  OMap.get k (userTyping s) = None ->
  OMap.get k (userTyping (fst (runTimers now s))) = None.
Proof. apply fireAll_absent. Qed.

Section Stop.
Variables (s0 : State) (conn : Connection.t).

Local Abbreviation key :=
  (typingKeyOf (Connection.roomId conn) (Connection.userId conn)).

(** A typing stop clears the indicator and its timer, whatever the state
    of the indicator, and is broadcast to the whole room. *)
Lemma handleTyping_stop cur now s :
  indicator s0 conn cur s ->
  indicator s0 conn None
    (fst (handleTyping now conn (Payload.mk None None false) s))
  /\ OMap.get key
       (userTyping (fst (handleTyping now conn (Payload.mk None None false) s)))
     = None
  /\ snd (handleTyping now conn (Payload.mk None None false) s)
     = fanOut (typing (Connection.userId conn) (Connection.username conn) false)
         (recipients s0 (Connection.roomId conn) None).
Proof.
  intros (Hc & Hr & others & Ho & Hfresh & Hcur).
  unfold handleTyping. cbn [Payload.isTyping]. cbv zeta. fold key.
  rewrite stub_broadcastToRoom_spec. cbn [fst snd].
  set (s1 := match OMap.get key (userTyping s) with
             | Some existing =>
                 withUserTyping (OMap.delete key)
                   (clearTimeout (Typing.timeout existing) s)
             | None => s
             end).
  assert (H1 : connections s1 = connections s0
               /\ roomConnections s1 = roomConnections s0
               /\ nextTimer s1 = nextTimer s
               /\ OMap.get key (userTyping s1) = None
               /\ exists others1,
                    timers s1 = others1
                    /\ othersOnly conn others1
                    /\ forall o, In o others1 -> (Timer.handle o < nextTimer s)%nat).
  { subst s1. destruct cur as [[h t]|].
    - destruct Hcur as (Ht & Hlt & Hbelow & Hty). fold key in Hty. rewrite Hty.
      cbn [Typing.timeout].
      split; [exact Hc|]. split; [exact Hr|]. split; [reflexivity|].
      split; [apply OMapFacts.get_delete_eq|].
      exists others. split; [|split; assumption].
      cbn [timers clearTimeout withUserTyping]. rewrite Ht, filter_app. simpl.
      rewrite Nat.eqb_refl. simpl. rewrite app_nil_r.
      apply filter_handle_others. intros o Hin. specialize (Hbelow o Hin). lia.
    - destruct (OMap.get key (userTyping s)) as [existing|] eqn:Hk.
      + split; [exact Hc|]. split; [exact Hr|]. split; [reflexivity|].
        split; [apply OMapFacts.get_delete_eq|].
        eexists. split; [reflexivity|].
        cbn [timers clearTimeout withUserTyping]. rewrite Hcur.
        split; intros o Hin; apply filter_In in Hin; [now apply Ho|now apply Hfresh].
      + split; [exact Hc|]. split; [exact Hr|]. split; [reflexivity|].
        split; [exact Hk|].
        exists others. split; [exact Hcur|]. split; assumption. }
  destruct H1 as (Hc1 & Hr1 & Hn1 & Hk1 & others1 & Ht1 & Ho1 & Hf1).
  split; [|split; [exact Hk1|]].
  - split; [exact Hc1|]. split; [exact Hr1|]. exists others1.
    split; [exact Ho1|]. split; [|exact Ht1].
    intros o Hin. rewrite Hn1. now apply Hf1.
  - f_equal. now apply recipients_ext.
Qed.

(** One turn of the event loop on a typing stop that arrives while the
    window is open (or while no indicator is active). *)
Lemma step_stop cur now c fresh s :
  OMap.get c (connections s0) = Some conn ->
  indicator s0 conn cur s ->
  match cur with Some (_, t) => now < t + typingDelay | None => True end ->
  exists quiet,
    indicator s0 conn None
      (fst (step now (Receive c (typingFrame false) fresh) s))
    /\ OMap.get key
         (userTyping (fst (step now (Receive c (typingFrame false) fresh) s)))
       = None
    /\ snd (step now (Receive c (typingFrame false) fresh) s)
       = quiet
         ++ fanOut (typing (Connection.userId conn) (Connection.username conn) false)
              (recipients s0 (Connection.roomId conn) None)
    /\ noTypingOf (Connection.userId conn) quiet.
Proof.
  intros Hc Hi Hw. unfold step, andThen.
  destruct (runTimers_quiet s0 conn cur now s Hi Hw) as (Hi1 & Hq & _).
  destruct (runTimers now s) as [s1 o1]. cbn [fst snd] in Hi1, Hq.
  assert (Hc1 : OMap.get c (connections s1) = Some conn).
  { destruct Hi1 as (E & _). now rewrite E. }
  unfold handleMessage, typingFrame. rewrite Hc1. simpl.
  destruct (handleTyping_stop cur now s1 Hi1) as (Hi2 & Hk2 & Hout).
  destruct (handleTyping now conn (Payload.mk None None false) s1) as [s2 o2].
  cbn [fst snd] in *. exists o1.
  split; [exact Hi2|]. split; [exact Hk2|]. split; [now rewrite Hout|exact Hq].
Qed.

(** A turn of the event loop in which nothing arrives and no timer of the
    user is pending. *)
Lemma step_idle now s :
  indicator s0 conn None s ->
  OMap.get key (userTyping s) = None ->
  indicator s0 conn None (fst (step now Tick s))
  /\ noTypingOf (Connection.userId conn) (snd (step now Tick s))
  /\ OMap.get key (userTyping (fst (step now Tick s))) = None.
Proof.
  intros Hi Hk. unfold step, andThen, silent.
  destruct (runTimers_quiet s0 conn None now s Hi I) as (Hi1 & Hq & _).
  pose proof (runTimers_absent now key s Hk) as Hk1.
  destruct (runTimers now s) as [s1 o1]. cbn [fst snd] in *.
  rewrite app_nil_r. split; [exact Hi1|]. split; [exact Hq|exact Hk1].
Qed.

End Stop.

(** X13. An explicit typing stop cancels the automatic one.  Let a
    connection send typing starts, each inside the 3000 ms window of the one
    before, then a typing stop while the last window is still open.  Every
    open connection of the room is written one typing-start frame per start
    and exactly one typing-stop frame, the explicit one: the pending timer
    was cleared, so whenever the event loop runs afterwards it writes no
    second stop, and no indicator and no timer is left for the key. *)
Theorem typing_stop_cancels_auto_stop s c conn d t times t' T :
  OMap.get c (connections s) = Some conn ->
  othersOnly conn (timers s) ->
  (forall o, In o (timers s) -> (Timer.handle o < nextTimer s)%nat) ->
  NoDup (members s (Connection.roomId conn)) ->
  In d (recipients s (Connection.roomId conn) None) ->
  spaced t times ->
  t' < last times t + typingDelay ->
  let result :=
    run (burst c (t :: times)
         ++ [(t', Receive c (typingFrame false) ""); (T, Tick)]) s in
  deliveries d (isTypingFrame (Connection.userId conn) true) (snd result)
  = List.length (t :: times)
  /\ deliveries d (isTypingFrame (Connection.userId conn) false) (snd result)
     = 1%nat
  /\ OMap.get (typingKeyOf (Connection.roomId conn) (Connection.userId conn))
       (userTyping (fst result)) = None
  /\ (forall o, In o (timers (fst result)) ->
        Timer.typingKey o
        <> typingKeyOf (Connection.roomId conn) (Connection.userId conn)).
Proof.
  intros Hc Ho Hfresh Hnd Hd Hsp Hw result.
  assert (Hi : indicator s conn None s).
  { split; [reflexivity|]. split; [reflexivity|]. exists (timers s).
    split; [exact Ho|]. split; [exact Hfresh|reflexivity]. }
  assert (Hnd' : NoDup (recipients s (Connection.roomId conn) None))
    by (unfold recipients; now apply NoDup_filter).
  destruct (burst_run s c conn d Hc Hnd' Hd times None s t Hi I Hsp)
    as (h & Hi1 & Ht1 & Hf1).
  subst result. rewrite run_app. unfold andThen.
  destruct (run (burst c (t :: times)) s) as [s1 o1]. cbn [fst snd] in *.
  destruct (step_stop s conn (Some (h, last times t)) t' c "" s1 Hc Hi1 Hw)
    as (quiet & Hi2 & Hk2 & Hout & Hq).
  cbn [run]. unfold andThen.
  destruct (step t' (Receive c (typingFrame false) "") s1) as [s2 o2].
  cbn [fst snd] in *.
  destruct (step_idle s conn T s2 Hi2 Hk2) as (Hi3 & Hq3 & Hk3).
  destruct (step T Tick s2) as [s3 o3]. unfold silent. cbn [fst snd] in *.
  rewrite app_nil_r, !deliveries_app, Ht1, Hf1, Hout, !deliveries_app,
    !(deliveries_none _ _ _ _ Hq), !(deliveries_none _ _ _ _ Hq3).
  rewrite deliveries_fanOut_once by assumption.
  rewrite (deliveries_fanOut_opposite d _ _ true).
  split; [simpl; lia|]. split; [reflexivity|]. split; [exact Hk3|].
  destruct Hi3 as (_ & _ & others & Hoth & _ & Ht3).
  intros o Hin. rewrite Ht3 in Hin. now apply Hoth.
Qed.

Lemma typing_stop_cancels_auto_stop_witness :
  let result :=
    run (burst "A" [0; 1000]
         ++ [(2000, Receive "A" (typingFrame false) ""); (9000, Tick)])
      RouteExamples.twoInRoom in
  deliveries "B" (isTypingFrame "ua" true) (snd result) = 2%nat
  /\ deliveries "B" (isTypingFrame "ua" false) (snd result) = 1%nat
  /\ OMap.get "r1:ua" (userTyping (fst result)) = None.
Proof.
  intros result.
  assert (Hsp : spaced 0 [1000]).
  { simpl. unfold typingDelay. lia. }
  assert (Ho : othersOnly (Connection.mk true "ua" "alice" "r1" 0)
                 (timers RouteExamples.twoInRoom)) by (intros o []).
  assert (Hf : forall o, In o (timers RouteExamples.twoInRoom) ->
                 (Timer.handle o < nextTimer RouteExamples.twoInRoom)%nat)
    by (intros o []).
  assert (Hnd : NoDup (members RouteExamples.twoInRoom "r1")).
  { simpl. repeat constructor; simpl; intuition discriminate. }
  assert (Hw : 2000 < last [1000] 0 + typingDelay)
    by (simpl; unfold typingDelay; lia).
  destruct (@typing_stop_cancels_auto_stop RouteExamples.twoInRoom "A"
              (Connection.mk true "ua" "alice" "r1" 0) "B" 0 [1000] 2000 9000
              eq_refl Ho Hf Hnd ltac:(simpl; tauto) Hsp Hw) as (B1 & B2 & B3 & _).
  split; [exact B1|]. split; [exact B2|exact B3].
Defined.

End RouteTypingStop.

(** ** The route stub: pending timers *)

Module RouteTimers.
Import Route RouteSpec RouteSpecMore RouteFacts RouteTyping.

(** Pending timers with distinct handles: removing some keeps the handles
    distinct. *)
Lemma handles_distinct_filter (keep : Timer.t -> bool) (pending : list Timer.t) :
  NoDup (map Timer.handle pending) ->
  NoDup (map Timer.handle (filter keep pending)).
Proof.
  induction pending as [|tm pending IH]; simpl; intros H; [constructor|].
  apply NoDup_cons_iff in H. destruct H as [Htm Hrest].
  destruct (keep tm); simpl; [|now apply IH].
  constructor; [|now apply IH].
  intros Hin. apply Htm. apply in_map_iff in Hin. destruct Hin as (x & E & Hx).
  apply filter_In in Hx. apply in_map_iff. exists x. tauto.
Qed.

(** A timer armed under a handle that no pending timer has. *)
Lemma handles_distinct_snoc (pending : list Timer.t) (armed : Timer.t) :
  NoDup (map Timer.handle pending) ->
  (forall tm, In tm pending -> Timer.handle tm <> Timer.handle armed) ->
  NoDup (map Timer.handle (pending ++ [armed])).
Proof.
  induction pending as [|tm pending IH]; simpl; intros H Hx.
  - constructor; [intros []|constructor].
  - apply NoDup_cons_iff in H. destruct H as [Htm Hrest]. constructor.
    + rewrite map_app, in_app_iff. simpl. intros [Hin|[E|[]]]; [now apply Htm|].
      apply (Hx tm); [now left|now symmetry].
    + apply IH; [exact Hrest|]. intros b Hb. apply Hx. now right.
Qed.

(** Two pending timers with the same handle are the same timer. *)
Lemma same_handle_same_timer (pending : list Timer.t) (p q : Timer.t) :
  NoDup (map Timer.handle pending) ->
  In p pending -> In q pending -> Timer.handle p = Timer.handle q -> p = q.
Proof.
  induction pending as [|x pending IH]; simpl; intros H Hp Hq E; [contradiction|].
  apply NoDup_cons_iff in H. destruct H as [Hx Hrest].
  destruct Hp as [<-|Hp], Hq as [<-|Hq]; [reflexivity| | |now apply IH].
  - exfalso. apply Hx. rewrite E. now apply in_map.
  - exfalso. apply Hx. rewrite <- E. now apply in_map.
Qed.

(** Distinct handles give distinct typing keys when timers of one key share
    their handle. *)
Lemma keys_distinct (pending : list Timer.t) :
  NoDup (map Timer.handle pending) ->
  (forall p q, In p pending -> In q pending ->
               Timer.typingKey p = Timer.typingKey q ->
               Timer.handle p = Timer.handle q) ->
  NoDup (map Timer.typingKey pending).
Proof.
  induction pending as [|x pending IH]; simpl; intros H Hk; [constructor|].
  apply NoDup_cons_iff in H. destruct H as [Hx Hrest]. constructor.
  - intros Hin. apply in_map_iff in Hin. destruct Hin as (q & E & Hq).
    apply Hx. rewrite (Hk x q); [now apply in_map|now left|now right|now symmetry].
  - apply IH; [exact Hrest|]. intros p q Hp Hq. apply Hk; now right.
Qed.

(** At most one timer is pending per typing key. *)
Lemma timersRecorded_keys s :
  timersRecorded s -> NoDup (map Timer.typingKey (timers s)).
Proof.
  intros (_ & Hnd & Hrec). apply keys_distinct; [exact Hnd|].
  intros a b Ha Hb E.
  destruct (Hrec a Ha) as (ta & Hta & Ea). destruct (Hrec b Hb) as (tb & Htb & Eb).
  rewrite E in Hta. congruence.
Qed.

Lemma timersRecorded_same s s' :
  timers s' = timers s -> userTyping s' = userTyping s ->
  nextTimer s' = nextTimer s ->
  timersRecorded s -> timersRecorded s'.
Proof. intros Et Eu En. unfold timersRecorded. now rewrite Et, Eu, En. Qed.

(** Clearing the timer recorded under a key leaves no timer of that key. *)
Lemma cleared_key s k e tm :
  timersRecorded s ->
  OMap.get k (userTyping s) = Some e ->
  In tm (timers (clearTimeout (Typing.timeout e) s)) ->
  Timer.typingKey tm <> k.
Proof.
  intros (_ & _ & Hrec) Hk Hin Ek. cbn [timers clearTimeout] in Hin.
  apply filter_In in Hin. destruct Hin as [Hin Hne].
  destruct (Hrec tm Hin) as (ty & Hty & Et). rewrite Ek, Hk in Hty.
  injection Hty as <-. rewrite Et, Nat.eqb_refl in Hne. discriminate.
Qed.

Lemma absent_key s k tm :
  timersRecorded s ->
  OMap.get k (userTyping s) = None ->
  In tm (timers s) -> Timer.typingKey tm <> k.
Proof.
  intros (_ & _ & Hrec) Hk Hin Ek.
  destruct (Hrec tm Hin) as (ty & Hty & _). rewrite Ek, Hk in Hty. discriminate.
Qed.

Lemma timersRecorded_clearTimeout s h :
  timersRecorded s ->
  (forall tm, In tm (timers (clearTimeout h s)) -> (Timer.handle tm < nextTimer s)%nat)
  /\ NoDup (map Timer.handle (timers (clearTimeout h s))).
Proof.
  intros (Hlt & Hnd & _). cbn [timers clearTimeout]. split.
  - intros tm Hin. apply filter_In in Hin. now apply Hlt.
  - now apply handles_distinct_filter.
Qed.

(** The clearing of an indicator: its timer and its entry. *)
Lemma timersRecorded_clear s k e :
  timersRecorded s ->
  OMap.get k (userTyping s) = Some e ->
  timersRecorded (withUserTyping (OMap.delete k) (clearTimeout (Typing.timeout e) s)).
Proof.
  intros H Hk. destruct (timersRecorded_clearTimeout s (Typing.timeout e) H)
    as (Hlt & Hnd).
  split; [exact Hlt|]. split; [exact Hnd|].
  intros tm Hin. cbn [timers withUserTyping] in Hin.
  pose proof (cleared_key s k e tm H Hk Hin) as Hne.
  cbn [userTyping withUserTyping clearTimeout].
  rewrite OMapFacts.get_delete_ne by congruence.
  destruct H as (_ & _ & Hrec). apply Hrec.
  cbn [timers clearTimeout] in Hin. apply filter_In in Hin. tauto.
Qed.

Lemma timersRecorded_handleTyping now conn payload s :
  timersRecorded s -> timersRecorded (fst (handleTyping now conn payload s)).
Proof.
  intros H. unfold handleTyping. cbv zeta.
  set (key := typingKeyOf (Connection.roomId conn) (Connection.userId conn)).
  destruct (Payload.isTyping payload).
  - set (s1 := match OMap.get key (userTyping s) with
               | Some existing => clearTimeout (Typing.timeout existing) s
               | None => s
               end).
    assert (H1 : (forall tm, In tm (timers s1) ->
                    (Timer.handle tm < nextTimer s)%nat
                    /\ Timer.typingKey tm <> key
                    /\ exists ty, OMap.get (Timer.typingKey tm) (userTyping s) = Some ty
                                  /\ Typing.timeout ty = Timer.handle tm)
                 /\ NoDup (map Timer.handle (timers s1))
                 /\ nextTimer s1 = nextTimer s
                 /\ userTyping s1 = userTyping s).
    { subst s1. destruct (OMap.get key (userTyping s)) as [e|] eqn:Hk.
      - destruct (timersRecorded_clearTimeout s (Typing.timeout e) H) as (Hlt & Hnd).
        split; [|split; [exact Hnd|split; reflexivity]].
        intros tm Hin. split; [now apply Hlt|].
        split; [exact (cleared_key s key e tm H Hk Hin)|].
        destruct H as (_ & _ & Hrec). apply Hrec.
        cbn [timers clearTimeout] in Hin. apply filter_In in Hin. tauto.
      - pose proof H as (Hlt & Hnd & Hrec).
        split; [|split; [exact Hnd|split; reflexivity]].
        intros tm Hin. split; [now apply Hlt|].
        split; [exact (absent_key s key tm H Hk Hin)|now apply Hrec]. }
    destruct H1 as (Hold & Hnd1 & Hn1 & Hu1).
    unfold setTimeout. rewrite stub_andThen_silent_l, stub_broadcastToRoom_spec.
    cbn [fst]. split; [|split].
    + cbn [timers nextTimer withUserTyping]. intros tm Hin.
      apply in_app_or in Hin. destruct Hin as [Hin|[<-|[]]].
      * destruct (Hold tm Hin) as (Hlt & _). lia.
      * cbn [Timer.handle]. lia.
    + cbn [timers withUserTyping]. apply handles_distinct_snoc; [exact Hnd1|].
      intros a Ha. cbn [Timer.handle]. destruct (Hold a Ha) as (Hlt & _). lia.
    + cbn [timers userTyping withUserTyping]. intros tm Hin.
      apply in_app_or in Hin. destruct Hin as [Hin|[<-|[]]].
      * destruct (Hold tm Hin) as (_ & Hne & Hrec).
        rewrite OMapFacts.get_set_ne by congruence. now rewrite Hu1.
      * cbn [Timer.typingKey Timer.handle]. rewrite OMapFacts.get_set_eq.
        eexists. split; reflexivity.
  - rewrite stub_broadcastToRoom_spec. cbn [fst].
    destruct (OMap.get key (userTyping s)) as [e|] eqn:Hk; [|exact H].
    now apply timersRecorded_clear.
Qed.

Lemma timersRecorded_handleChatMessage now fresh c conn payload s :
  timersRecorded s ->
  timersRecorded (fst (handleChatMessage now fresh c conn payload s)).
Proof.
  intros H. unfold handleChatMessage. cbv zeta.
  destruct (Payload.content payload) as [content|]; [|exact H].
  destruct (_ || _); [exact H|].
  destruct (1000 <? _)%nat; [exact H|].
  destruct (OMap.get _ (rooms s)) as [room|]; [|exact H].
  destruct (_ || _); [exact H|].
  rewrite stub_andThen_silent_l, stub_broadcastToRoom_spec. exact H.
Qed.

Lemma timersRecorded_handleMessage now fresh c data s :
  timersRecorded s -> timersRecorded (fst (handleMessage now fresh c data s)).
Proof.
  intros H. unfold handleMessage.
  destruct (OMap.get c (connections s)) as [conn|]; [|exact H].
  destruct data as [|msg]; [exact H|].
  destruct (Message.type msg) as [t|]; [|exact H].
  destruct (String.eqb t "message").
  { destruct (Message.payload msg); [|exact H].
    now apply timersRecorded_handleChatMessage. }
  destruct (String.eqb t "typing").
  { destruct (Message.payload msg); [|exact H].
    now apply timersRecorded_handleTyping. }
  destruct (String.eqb t "ping"); exact H.
Qed.

Lemma timersRecorded_afterClose c conn s :
  timersRecorded s -> timersRecorded (afterClose c conn s).
Proof.
  intros H. unfold afterClose. cbv zeta.
  set (s2 := match OMap.get (Connection.roomId conn)
                     (roomConnections (withConnections (OMap.delete c) s)) with
             | Some roomConnIds =>
                 if (OSet.size (OSet.delete c roomConnIds) =? 0)%nat
                 then withRoomConnections (OMap.delete (Connection.roomId conn))
                        (withConnections (OMap.delete c) s)
                 else withRoomConnections
                        (OMap.alter (fun _ => OSet.delete c roomConnIds)
                           (Connection.roomId conn))
                        (withConnections (OMap.delete c) s)
             | None => withConnections (OMap.delete c) s
             end).
  assert (H2 : timersRecorded s2).
  { apply (timersRecorded_same s); [| | |exact H]; subst s2;
      destruct (OMap.get _ _) as [ids|]; try reflexivity;
      destruct (_ =? _)%nat; reflexivity. }
  destruct (OMap.get _ (userTyping s2)) as [e|] eqn:Hk; [|exact H2].
  now apply timersRecorded_clear.
Qed.

Lemma handleClose_afterClose c conn s :
  OMap.get c (connections s) = Some conn ->
  connections (fst (handleClose c s)) = connections (afterClose c conn s)
  /\ roomConnections (fst (handleClose c s)) = roomConnections (afterClose c conn s)
  /\ userTyping (fst (handleClose c s)) = userTyping (afterClose c conn s)
  /\ timers (fst (handleClose c s)) = timers (afterClose c conn s)
  /\ nextTimer (fst (handleClose c s)) = nextTimer (afterClose c conn s).
Proof.
  intros Hc. unfold handleClose. rewrite Hc. cbv zeta.
  change (match
             OMap.get (typingKeyOf (Connection.roomId conn) (Connection.userId conn))
               (userTyping
                  match OMap.get (Connection.roomId conn)
                          (roomConnections (withConnections (OMap.delete c) s)) with
                  | Some roomConnIds =>
                      if (OSet.size (OSet.delete c roomConnIds) =? 0)%nat
                      then withRoomConnections (OMap.delete (Connection.roomId conn))
                             (withConnections (OMap.delete c) s)
                      else withRoomConnections
                             (OMap.alter (fun _ => OSet.delete c roomConnIds)
                                (Connection.roomId conn))
                             (withConnections (OMap.delete c) s)
                  | None => withConnections (OMap.delete c) s
                  end)
           with
           | Some existing =>
               withUserTyping
                 (OMap.delete
                    (typingKeyOf (Connection.roomId conn) (Connection.userId conn)))
                 (clearTimeout (Typing.timeout existing)
                    match OMap.get (Connection.roomId conn)
                            (roomConnections (withConnections (OMap.delete c) s)) with
                    | Some roomConnIds =>
                        if (OSet.size (OSet.delete c roomConnIds) =? 0)%nat
                        then withRoomConnections (OMap.delete (Connection.roomId conn))
                               (withConnections (OMap.delete c) s)
                        else withRoomConnections
                               (OMap.alter (fun _ => OSet.delete c roomConnIds)
                                  (Connection.roomId conn))
                               (withConnections (OMap.delete c) s)
                    | None => withConnections (OMap.delete c) s
                    end)
           | None =>
               match OMap.get (Connection.roomId conn)
                       (roomConnections (withConnections (OMap.delete c) s)) with
               | Some roomConnIds =>
                   if (OSet.size (OSet.delete c roomConnIds) =? 0)%nat
                   then withRoomConnections (OMap.delete (Connection.roomId conn))
                          (withConnections (OMap.delete c) s)
                   else withRoomConnections
                          (OMap.alter (fun _ => OSet.delete c roomConnIds)
                             (Connection.roomId conn))
                          (withConnections (OMap.delete c) s)
               | None => withConnections (OMap.delete c) s
               end
           end) with (afterClose c conn s).
  generalize (afterClose c conn s). intros s3.
  destruct (OMap.get (Connection.roomId conn) (rooms s3)) as [room|];
    [|now repeat split].
  destruct (existsb _ (Room.participants room)); [|now repeat split].
  destruct (existsb _ (connections s3)); [now repeat split|].
  rewrite stub_andThen_silent_l, stub_broadcastToRoom_spec. now repeat split.
Qed.

Lemma timersRecorded_handleClose c s :
  timersRecorded s -> timersRecorded (fst (handleClose c s)).
Proof.
  intros H. destruct (OMap.get c (connections s)) as [conn|] eqn:Hc.
  - destruct (handleClose_afterClose c conn s Hc) as (_ & _ & Eu & Et & En).
    apply (timersRecorded_same (afterClose c conn s)); try assumption.
    now apply timersRecorded_afterClose.
  - unfold handleClose. now rewrite Hc.
Qed.

Lemma timersRecorded_fire tm s :
  timersRecorded s ->
  (forall p, In p (timers s) -> Timer.handle p = Timer.handle tm -> p = tm) ->
  timersRecorded (fst (fire tm s))
  /\ (forall p, In p (timers (fst (fire tm s))) -> In p (timers s)).
Proof.
  intros H Hsame. unfold fire.
  destruct (existsb _ (timers s)) eqn:Hex; [|split; [exact H|auto]].
  rewrite typingExpired_spec. cbn [fst].
  apply existsb_exists in Hex. destruct Hex as (q & Hq & Eq).
  apply Nat.eqb_eq in Eq. pose proof (Hsame q Hq Eq) as ->.
  pose proof H as (_ & _ & Hrec).
  destruct (Hrec tm Hq) as (e & He & Ee). split.
  - rewrite <- Ee. now apply timersRecorded_clear.
  - intros p Hp. cbn [timers withUserTyping clearTimeout] in Hp.
    apply filter_In in Hp. tauto.
Qed.

Lemma timersRecorded_fireAll due :
  forall s, timersRecorded s -> agrees due s ->
            timersRecorded (fst (fireAll due s)).
Proof.
  induction due as [|tm due IH]; intros s H Ha; [exact H|].
  cbn [fireAll]. unfold andThen.
  destruct (timersRecorded_fire tm s H) as (H1 & Hsub).
  { intros p Hp E. apply (Ha tm p); [now left|exact Hp|exact E]. }
  destruct (fire tm s) as [s1 o1]. cbn [fst] in H1, Hsub.
  assert (Ha1 : agrees due s1).
  { intros t p Ht Hp E. apply (Ha t p); [now right|now apply Hsub|exact E]. }
  specialize (IH s1 H1 Ha1). now destruct (fireAll due s1).
Qed.

Lemma timersRecorded_runTimers now s :
  timersRecorded s -> timersRecorded (fst (runTimers now s)).
Proof.
  intros H. unfold runTimers. apply timersRecorded_fireAll; [exact H|].
  intros tm p Htm Hp E. apply filter_In in Htm. destruct Htm as [Htm _].
  destruct H as (_ & Hnd & _).
  exact (same_handle_same_timer (timers s) p tm Hnd Hp Htm E).
Qed.

Lemma timersRecorded_step now i s :
  timersRecorded s -> timersRecorded (fst (step now i s)).
Proof.
  intros H. unfold step, andThen.
  pose proof (timersRecorded_runTimers now s H) as H1.
  destruct (runTimers now s) as [s1 o1]. cbn [fst] in H1.
  destruct i as [c data fresh|c|].
  - pose proof (timersRecorded_handleMessage now fresh c data s1 H1) as H2.
    now destruct (handleMessage now fresh c data s1).
  - pose proof (timersRecorded_handleClose c s1 H1) as H2.
    now destruct (handleClose c s1).
  - exact H1.
Qed.

Lemma timersRecorded_run trace :
  forall s, timersRecorded s -> timersRecorded (fst (run trace s)).
Proof.
  induction trace as [|[now i] trace IH]; intros s H; [exact H|].
  cbn [run]. unfold andThen.
  pose proof (timersRecorded_step now i s H) as H1.
  destruct (step now i s) as [s1 o1]. cbn [fst] in H1.
  specialize (IH s1 H1). now destruct (run trace s1).
Qed.

(** X14. Typing timers never stack.  If every pending timer is the one
    recorded in [userTyping] under its typing key (as in a state without
    timers), the same holds after any run of frames, closes and timer
    turns, and at most one timer is then pending for each room and user:
    a typing start replaces the timer of its key, a stop, an expiry and a
    close remove it. *)
Theorem timers_never_stack trace s :
  timersRecorded s ->
  timersRecorded (fst (run trace s))
  /\ NoDup (map Timer.typingKey (timers (fst (run trace s)))).
Proof.
  intros H. pose proof (timersRecorded_run trace s H) as H1.
  split; [exact H1|now apply timersRecorded_keys].
Qed.

Lemma timers_never_stack_witness :
  timersRecorded RouteExamples.twoInRoom
  /\ map Timer.typingKey
       (timers (fst (run (burst "A" [0; 1000] ++ burst "B" [1500; 2000])
                       RouteExamples.twoInRoom)))
     = ["r1:ua"; "r1:ub"]
  /\ NoDup (map Timer.typingKey
              (timers (fst (run (burst "A" [0; 1000] ++ burst "B" [1500; 2000])
                              RouteExamples.twoInRoom)))).
Proof.
  assert (H : timersRecorded RouteExamples.twoInRoom).
  { split; [intros tm []|]. split; [constructor|intros tm []]. }
  split; [exact H|]. split; [reflexivity|].
  exact (proj2 (timers_never_stack
                  (burst "A" [0; 1000] ++ burst "B" [1500; 2000])
                  RouteExamples.twoInRoom H)).
Defined.

End RouteTimers.

(** ** The route stub: closing a connection *)

Module RouteClose.
Import Route RouteSpec RouteSpecMore RouteFacts RouteTyping RouteTimers.

Lemma handleClose_unfold c conn s :
  OMap.get c (connections s) = Some conn ->
  handleClose c s =
  (let userId := Connection.userId conn in
   let username := Connection.username conn in
   let roomId := Connection.roomId conn in
   let s3 := afterClose c conn s in
   match OMap.get roomId (rooms s3) with
   | None => (s3, [])
   | Some room =>
       if existsb (fun p => String.eqb (p_id p) userId) (Room.participants room)
       then
         if existsb
              (fun kv =>
                 String.eqb (Connection.userId (snd kv)) userId
                 && String.eqb (Connection.roomId (snd kv)) roomId)
              (connections s3)
         then (s3, [])
         else
           let ps := markOffline userId (Room.participants room) in
           let room' :=
             Room.mk (Room.id room) ps (Room.messages room)
               (Room.expiresAt room) (Room.encrypted room) (Room.isActive room) in
           ((fun s => silent (withRooms (OMap.alter (fun _ => room') roomId) s)) ;;
            broadcastToRoom roomId
              (user_left userId username roomId (filter p_isOnline ps)) None) s3
       else (s3, [])
   end).
Proof. intros Hc. unfold handleClose. rewrite Hc. reflexivity. Qed.

Lemma size_zero_nil (l : OSet.t) : (OSet.size l =? 0)%nat = true -> l = [].
Proof. destruct l; [reflexivity|discriminate]. Qed.

(** What the first half of [handleClose] leaves. *)
Lemma afterClose_spec c conn s :
  timersRecorded s ->
  connections (afterClose c conn s) = OMap.delete c (connections s)
  /\ rooms (afterClose c conn s) = rooms s
  /\ members (afterClose c conn s) (Connection.roomId conn)
     = OSet.delete c (members s (Connection.roomId conn))
  /\ OMap.get (Connection.roomId conn) (roomConnections (afterClose c conn s))
     <> Some []
  /\ OMap.get (typingKeyOf (Connection.roomId conn) (Connection.userId conn))
       (userTyping (afterClose c conn s)) = None
  /\ (forall tm, In tm (timers (afterClose c conn s)) ->
        Timer.typingKey tm
        <> typingKeyOf (Connection.roomId conn) (Connection.userId conn)).
Proof.
  intros H. unfold afterClose. cbv zeta.
  set (key := typingKeyOf (Connection.roomId conn) (Connection.userId conn)).
  set (s2 := match OMap.get (Connection.roomId conn)
                     (roomConnections (withConnections (OMap.delete c) s)) with
             | Some roomConnIds =>
                 if (OSet.size (OSet.delete c roomConnIds) =? 0)%nat
                 then withRoomConnections (OMap.delete (Connection.roomId conn))
                        (withConnections (OMap.delete c) s)
                 else withRoomConnections
                        (OMap.alter (fun _ => OSet.delete c roomConnIds)
                           (Connection.roomId conn))
                        (withConnections (OMap.delete c) s)
             | None => withConnections (OMap.delete c) s
             end).
  assert (H2 : timersRecorded s2).
  { apply (timersRecorded_same s); [| | |exact H]; subst s2;
      destruct (OMap.get _ _) as [ids|]; try reflexivity;
      destruct (_ =? _)%nat; reflexivity. }
  assert (Hc2 : connections s2 = OMap.delete c (connections s)).
  { subst s2. destruct (OMap.get _ _) as [ids|]; try reflexivity.
    destruct (_ =? _)%nat; reflexivity. }
  assert (Hr2 : rooms s2 = rooms s).
  { subst s2. destruct (OMap.get _ _) as [ids|]; try reflexivity.
    destruct (_ =? _)%nat; reflexivity. }
  assert (Hm2 : members s2 (Connection.roomId conn)
                = OSet.delete c (members s (Connection.roomId conn))
                /\ OMap.get (Connection.roomId conn) (roomConnections s2) <> Some []).
  { subst s2. unfold members. cbn [roomConnections withConnections].
    destruct (OMap.get (Connection.roomId conn) (roomConnections s)) as [ids|] eqn:E.
    - destruct (OSet.size (OSet.delete c ids) =? 0)%nat eqn:Ez.
      + cbn [roomConnections withRoomConnections withConnections].
        rewrite OMapFacts.get_delete_eq. split; [|discriminate].
        symmetry. now apply size_zero_nil.
      + cbn [roomConnections withRoomConnections withConnections].
        rewrite OMapFacts.get_alter_eq, E. simpl. split; [reflexivity|].
        intros E'. injection E' as E'. rewrite E' in Ez. discriminate.
    - cbn [roomConnections withConnections]. rewrite E.
      split; [reflexivity|discriminate]. }
  destruct Hm2 as [Hm2 Hne2].
  destruct (OMap.get key (userTyping s2)) as [e|] eqn:Hk.
  - split; [exact Hc2|]. split; [exact Hr2|]. split; [exact Hm2|].
    split; [exact Hne2|]. split.
    + cbn [userTyping withUserTyping]. apply OMapFacts.get_delete_eq.
    + intros tm Hin. exact (cleared_key s2 key e tm H2 Hk Hin).
  - split; [exact Hc2|]. split; [exact Hr2|]. split; [exact Hm2|].
    split; [exact Hne2|]. split; [exact Hk|].
    intros tm Hin. exact (absent_key s2 key tm H2 Hk Hin).
Qed.

(** X15. What a close leaves behind.  In a state whose pending timers are
    the recorded ones, after [handleClose] the connection is out of the
    registry and out of the connection set of its room, no empty connection
    set is kept for the room, the typing indicator of its user in that room
    is gone and no timer is pending for it: no automatic typing stop is
    written for a user who has closed. *)
Theorem close_leaves_nothing_behind c conn s :
  timersRecorded s ->
  OMap.get c (connections s) = Some conn ->
  let s' := fst (handleClose c s) in
  OMap.get c (connections s') = None
  /\ ~ In c (members s' (Connection.roomId conn))
  /\ OMap.get (Connection.roomId conn) (roomConnections s') <> Some []
  /\ OMap.get (typingKeyOf (Connection.roomId conn) (Connection.userId conn))
       (userTyping s') = None
  /\ (forall tm, In tm (timers s') ->
        Timer.typingKey tm
        <> typingKeyOf (Connection.roomId conn) (Connection.userId conn))
  /\ timersRecorded s'.
Proof.
  intros H Hc s'.
  destruct (handleClose_afterClose c conn s Hc) as (Ec & Er & Eu & Et & En).
  destruct (afterClose_spec c conn s H) as (Hc3 & _ & Hm3 & Hne3 & Hk3 & Ht3).
  subst s'. unfold members. rewrite Ec, Er, Eu, Et.
  split; [rewrite Hc3; apply OMapFacts.get_delete_eq|].
  split; [fold (members (afterClose c conn s) (Connection.roomId conn));
          rewrite Hm3; apply OSetFacts.not_in_delete|].
  split; [exact Hne3|]. split; [exact Hk3|]. split; [exact Ht3|].
  now apply timersRecorded_handleClose.
Qed.

Lemma close_leaves_nothing_behind_witness :
  timersRecorded RouteExamples.twoInRoom
  /\ timers (fst (run (burst "A" [0]) RouteExamples.twoInRoom))
     = [Timer.mk 0 3000 "r1:ua" "r1" "ua" "alice"]
  /\ timers (fst (handleClose "A" (fst (run (burst "A" [0]) RouteExamples.twoInRoom))))
     = []
  /\ OMap.get "r1:ua"
       (userTyping
          (fst (handleClose "A" (fst (run (burst "A" [0]) RouteExamples.twoInRoom)))))
     = None.
Proof.
  assert (H : timersRecorded RouteExamples.twoInRoom).
  { split; [intros tm []|]. split; [constructor|intros tm []]. }
  pose proof (timersRecorded_run (burst "A" [0]) RouteExamples.twoInRoom H) as H1.
  split; [exact H|]. split; [reflexivity|]. split; [reflexivity|].
  exact (proj1 (proj2 (proj2 (proj2
           (@close_leaves_nothing_behind "A"
              (Connection.mk true "ua" "alice" "r1" 0)
              (fst (run (burst "A" [0]) RouteExamples.twoInRoom)) H1 eq_refl))))).
Defined.

Lemma markOffline_not_online userId ps :
  NoDup (map p_id ps) ->
  ~ In userId (map p_id (filter p_isOnline (markOffline userId ps))).
Proof.
  induction ps as [|p ps IH]; simpl; intros Hnd; [tauto|].
  apply NoDup_cons_iff in Hnd. destruct Hnd as [Hp Hnd].
  destruct (String.eqb_spec (p_id p) userId) as [E|Hne]; simpl.
  - intros Hin. apply Hp. rewrite E. apply in_map_iff in Hin.
    destruct Hin as (x & Ex & Hx). apply filter_In in Hx.
    apply in_map_iff. exists x. tauto.
  - destruct (p_isOnline p); simpl; [|now apply IH].
    intros [E|Hin]; [contradiction|now apply IH].
Qed.

Lemma other_connection_test c conn s :
  existsb
    (fun kv =>
       String.eqb (Connection.userId (snd kv)) (Connection.userId conn)
       && String.eqb (Connection.roomId (snd kv)) (Connection.roomId conn))
    (OMap.delete c (connections s)) = true
  <-> otherConnection c conn s.
Proof.
  rewrite existsb_exists. unfold OMap.delete, otherConnection. split.
  - intros ([d conn'] & Hin & Hb). apply filter_In in Hin. destruct Hin as [Hin Hd].
    apply andb_prop in Hb. destruct Hb as [Hu Hr].
    apply String.eqb_eq in Hu, Hr. simpl in *.
    exists d, conn'. split; [|now repeat split].
    intros ->. now rewrite String.eqb_refl in Hd.
  - intros (d & conn' & Hd & Hin & Hu & Hr). exists (d, conn'). split.
    + apply filter_In. split; [exact Hin|]. simpl.
      destruct (String.eqb_spec c d); [congruence|reflexivity].
    + simpl. now rewrite Hu, Hr, !String.eqb_refl.
Qed.

(** X16. A departure is announced when the last connection of the user
    closes.  For a connection whose user is a participant of its room:
    while another registered connection has the same user and room, the
    close writes nothing and leaves the rooms alone; otherwise the first
    participant with that user id is marked offline in the room stored
    under the room id (nothing else of that room and no other room changes)
    and [user_left] is written, with the participants still online, to the
    open connections that remain in the room (the closed one is not among
    them), and when participant ids are distinct the user is not in that
    list. *)
Theorem departure_announced_on_last_close c conn room s :
  timersRecorded s ->
  OMap.get c (connections s) = Some conn ->
  OMap.get (Connection.roomId conn) (rooms s) = Some room ->
  existsb (fun p => String.eqb (p_id p) (Connection.userId conn))
    (Room.participants room) = true ->
  (otherConnection c conn s ->
   snd (handleClose c s) = [] /\ rooms (fst (handleClose c s)) = rooms s)
  /\ (~ otherConnection c conn s ->
      let online :=
        filter p_isOnline
          (markOffline (Connection.userId conn) (Room.participants room)) in
      snd (handleClose c s)
      = fanOut
          (user_left (Connection.userId conn) (Connection.username conn)
             (Connection.roomId conn) online)
          (recipients (fst (handleClose c s)) (Connection.roomId conn) None)
      /\ ~ In c (recipients (fst (handleClose c s)) (Connection.roomId conn) None)
      /\ (NoDup (map p_id (Room.participants room)) ->
          ~ In (Connection.userId conn) (map p_id online))
      /\ OMap.get (Connection.roomId conn) (rooms (fst (handleClose c s)))
         = Some (Room.mk (Room.id room)
                   (markOffline (Connection.userId conn) (Room.participants room))
                   (Room.messages room) (Room.expiresAt room)
                   (Room.encrypted room) (Room.isActive room))
      /\ (forall k, k <> Connection.roomId conn ->
            OMap.get k (rooms (fst (handleClose c s))) = OMap.get k (rooms s))).
Proof.
  intros H Hc Hroom Hpart.
  destruct (afterClose_spec c conn s H) as (Hc3 & Hr3 & Hm3 & _).
  pose proof (other_connection_test c conn s) as Htest.
  rewrite (handleClose_unfold c conn s Hc). cbv zeta.
  rewrite Hr3, Hroom, Hpart, Hc3. split.
  - intros Hother. rewrite (proj2 Htest Hother). cbn [fst snd].
    split; [reflexivity|exact Hr3].
  - intros Hother.
    destruct (existsb _ (OMap.delete c (connections s))) eqn:E;
      [exfalso; apply Hother, Htest; reflexivity|].
    rewrite stub_andThen_silent_l, stub_broadcastToRoom_spec. cbn [fst snd].
    split; [reflexivity|]. split; [|split; [apply markOffline_not_online|]].
    + unfold recipients. rewrite filter_In.
      change (members (withRooms _ (afterClose c conn s)) (Connection.roomId conn))
        with (members (afterClose c conn s) (Connection.roomId conn)).
      rewrite Hm3. intros [Hin _]. now apply OSetFacts.not_in_delete in Hin.
    + cbn [rooms withRooms]. rewrite Hr3. split.
      * now rewrite OMapFacts.get_alter_eq, Hroom.
      * intros k Hk. apply OMapFacts.get_alter_ne. congruence.
Qed.

Lemma departure_announced_on_last_close_witness :
  snd (handleClose "A" twoTabs) = []
  /\ snd (handleClose "A2" (fst (handleClose "A" twoTabs)))
     = [("B", user_left "ua" "alice" "r1" [mkParticipant "ub" "bob" 0 true])]
  /\ option_map Room.participants
       (OMap.get "r1"
          (rooms (fst (handleClose "A2" (fst (handleClose "A" twoTabs))))))
     = Some [mkParticipant "ua" "alice" 0 false; mkParticipant "ub" "bob" 0 true].
Proof.
  assert (H : timersRecorded twoTabs).
  { split; [intros tm []|]. split; [constructor|intros tm []]. }
  assert (H' : timersRecorded (fst (handleClose "A" twoTabs))).
  { split; [intros tm []|]. split; [constructor|intros tm []]. }
  split; [|split].
  - refine (proj1 (proj1 (@departure_announced_on_last_close "A"
                     (Connection.mk true "ua" "alice" "r1" 0)
                     (Room.mk "r1"
                        [mkParticipant "ua" "alice" 0 true;
                         mkParticipant "ub" "bob" 0 true]
                        [] 1000000 false true)
                     twoTabs H eq_refl eq_refl eq_refl) _)).
    exists "A2", (Connection.mk true "ua" "alice" "r1" 5).
    split; [discriminate|]. split; [simpl; tauto|]. split; reflexivity.
  - refine (proj1 (proj2 (@departure_announced_on_last_close "A2"
                     (Connection.mk true "ua" "alice" "r1" 5)
                     (Room.mk "r1"
                        [mkParticipant "ua" "alice" 0 true;
                         mkParticipant "ub" "bob" 0 true]
                        [] 1000000 false true)
                     (fst (handleClose "A" twoTabs)) H' eq_refl eq_refl eq_refl) _)).
    intros (d & conn' & Hd & Hin & Hu & _). simpl in Hin.
    destruct Hin as [E|[E|[]]]; injection E as <- <-;
      [now apply Hd|discriminate Hu].
  - refine (f_equal (option_map Room.participants)
              (proj1 (proj2 (proj2 (proj2 (proj2
                 (@departure_announced_on_last_close "A2"
                    (Connection.mk true "ua" "alice" "r1" 5)
                    (Room.mk "r1"
                       [mkParticipant "ua" "alice" 0 true;
                        mkParticipant "ub" "bob" 0 true]
                       [] 1000000 false true)
                    (fst (handleClose "A" twoTabs)) H' eq_refl eq_refl eq_refl)
                 _)))))).
    intros (d & conn' & Hd & Hin & Hu & _). simpl in Hin.
    destruct Hin as [E|[E|[]]]; injection E as <- <-;
      [now apply Hd|discriminate Hu].
Defined.

End RouteClose.

(** ** The route stub: error replies *)

Module RouteErrors.
Import Route RouteSpec RouteSpecMore RouteFacts.

Lemma stub_in_fanOut d f msg ids :
  In (d, f) (fanOut msg ids) -> In d ids /\ f = msg.
Proof.
  unfold fanOut. rewrite in_map_iff. intros (x & E & Hx).
  injection E as -> ->. now split.
Qed.

Lemma in_wsSend d f c conn msg :
  In (d, f) (wsSend c conn msg) -> d = c /\ f = msg.
Proof.
  unfold wsSend. destruct (Connection.ws conn); [|contradiction].
  intros [E|[]]. injection E as <- <-. now split.
Qed.

(** X17. Error replies go to the sender alone, and a frame answered by an
    error changes nothing: whenever the output of [handleMessage] holds an
    [error] frame, it is addressed to the connection the frame came from
    and the state is the one before the frame (nothing is stored, no timer
    is armed).  Chat, typing and pong frames are never mixed with it. *)
Theorem errors_go_to_sender_only now fresh c data s d f :
  In (d, f) (snd (handleMessage now fresh c data s)) ->
  isError f = true ->
  d = c
  /\ fst (handleMessage now fresh c data s) = s
  /\ (forall d' f', In (d', f') (snd (handleMessage now fresh c data s)) ->
                    d' = c /\ isError f' = true).
Proof.
  assert (Hsend : forall conn e,
             In (d, f) (wsSend c conn (error e)) ->
             d = c /\ (forall d' f', In (d', f') (wsSend c conn (error e)) ->
                                     d' = c /\ isError f' = true)).
  { intros conn e H. apply in_wsSend in H. split; [tauto|].
    intros d' f' H'. apply in_wsSend in H'. destruct H' as [-> ->]. now split. }
  assert (Hfan : forall msg ids, isError msg = false ->
                   In (d, f) (fanOut msg ids) -> isError f = true -> False).
  { intros msg ids Hm H Hf. apply stub_in_fanOut in H. destruct H as [_ ->].
    congruence. }
  unfold handleMessage.
  destruct (OMap.get c (connections s)) as [conn|]; [|contradiction].
  destruct data as [|msg]; [contradiction|].
  destruct (Message.type msg) as [t|]; [|contradiction].
  destruct (String.eqb t "message").
  { destruct (Message.payload msg) as [payload|]; [|contradiction].
    unfold handleChatMessage. cbv zeta.
    destruct (Payload.content payload) as [content|]; [|contradiction].
    destruct (_ || _); [contradiction|].
    destruct (1000 <? _)%nat.
    { cbn [fst snd]. intros H _. destruct (Hsend _ _ H) as [E1 E2].
      split; [exact E1|]. split; [reflexivity|exact E2]. }
    destruct (OMap.get _ (rooms s)) as [room|].
    2:{ cbn [fst snd]. intros H _. destruct (Hsend _ _ H) as [E1 E2].
      split; [exact E1|]. split; [reflexivity|exact E2]. }
    destruct (_ || _).
    { cbn [fst snd]. intros H _. destruct (Hsend _ _ H) as [E1 E2].
      split; [exact E1|]. split; [reflexivity|exact E2]. }
    rewrite stub_andThen_silent_l, stub_broadcastToRoom_spec. cbn [fst snd].
    intros H Hf. exfalso. eapply Hfan; [|exact H|exact Hf]; reflexivity. }
  destruct (String.eqb t "typing").
  { destruct (Message.payload msg) as [payload|]; [|contradiction].
    unfold handleTyping. cbv zeta. destruct (Payload.isTyping payload).
    - unfold setTimeout. rewrite stub_andThen_silent_l, stub_broadcastToRoom_spec.
      cbn [fst snd]. intros H Hf. exfalso. eapply Hfan; [|exact H|exact Hf]; reflexivity.
    - rewrite stub_broadcastToRoom_spec. cbn [fst snd].
      intros H Hf. exfalso. eapply Hfan; [|exact H|exact Hf]; reflexivity. }
  destruct (String.eqb t "ping"); [|contradiction].
  cbn [fst snd]. intros H Hf. apply in_wsSend in H. destruct H as [_ ->].
  discriminate.
Qed.

Lemma errors_go_to_sender_only_witness :
  snd (handleMessage 5 "m" "A" (chatFrame (repeat 97%N 1001) None)
         RouteExamples.twoInRoom)
  = [("A", error MessageTooLong)]
  /\ fst (handleMessage 5 "m" "A" (chatFrame (repeat 97%N 1001) None)
            RouteExamples.twoInRoom)
     = RouteExamples.twoInRoom.
Proof.
  assert (E : snd (handleMessage 5 "m" "A" (chatFrame (repeat 97%N 1001) None)
                     RouteExamples.twoInRoom)
              = [("A", error MessageTooLong)]) by (vm_compute; reflexivity).
  split; [exact E|].
  refine (proj1 (proj2 (@errors_go_to_sender_only 5 "m" "A"
                          (chatFrame (repeat 97%N 1001) None)
                          RouteExamples.twoInRoom "A" (error MessageTooLong)
                          _ eq_refl))).
  rewrite E. now left.
Defined.

End RouteErrors.

(** ** The standalone server: the keys of the rate limiter *)

Module RateLimitKeys.
Import Server ServerSpec ServerSpecMore ServerFacts ServerBroadcast ServerRooms.
Import ServerInvariant ServerJoin ServerSweep RateLimiterSpec.

(** C9, as stated, fails on frames that do not parse: they are answered
    before the limiter is consulted and are never counted.  Twelve of them
    inside twelve milliseconds get twelve "Invalid message format" replies,
    none is refused, and the limiter is as it was. *)
Lemma unparsable_frames_unlimited :
  snd (run twelveUnparsable ServerExamples.twoInRoom)
  = repeat ("A", error "Invalid message format") 12
  /\ messageRateLimiter (fst (run twelveUnparsable ServerExamples.twoInRoom))
     = messageRateLimiter ServerExamples.twoInRoom.
Proof. split; vm_compute; reflexivity. Qed.

Lemma key_parts c c' t t' :
  noColon c = true -> noColon c' = true ->
  String.append c (String ":" t) = String.append c' (String ":" t') ->
  c = c' /\ t = t'.
Proof.
  revert c'. induction c as [|a c IH]; intros [|a' c'] Hc Hc' E; simpl in *.
  - injection E as ->. now split.
  - injection E as <- _. discriminate.
  - injection E as -> _. discriminate.
  - injection E as -> E. apply andb_prop in Hc, Hc'.
    destruct (IH c' (proj2 Hc) (proj2 Hc') E) as [-> ->]. now split.
Qed.

(** Two keys are the same only for the same client and the same type
    text. *)
Lemma rateLimitKey_injective c c' msg msg' :
  noColon c = true -> noColon c' = true ->
  rateLimitKey c msg = rateLimitKey c' msg' ->
  c = c' /\ typeText msg = typeText msg'.
Proof. intros Hc Hc'. unfold rateLimitKey, typeText. now apply key_parts. Qed.

Lemma limiter_leaveFirst now c client s :
  OMap.get c (clients s) = Some client ->
  messageRateLimiter (fst (leaveFirst now c client s)) = messageRateLimiter s.
Proof.
  intros Hc. unfold leaveFirst.
  destruct (truthy (ClientConnection.roomId client)); [|reflexivity].
  destruct (OMap.get (orElse (ClientConnection.roomId client) "") (rooms s))
    as [room|] eqn:Hr.
  - now rewrite (leaveRoom_spec now c _ s client room Hc Hr).
  - now rewrite leaveRoom_no_room.
Qed.

(** The handlers behind the limiter leave it alone. *)
Lemma limiter_dispatch now fresh c msg s :
  messageRateLimiter (fst (dispatch now fresh c msg s)) = messageRateLimiter s.
Proof.
  unfold dispatch.
  destruct (WebSocketMessage.type msg) as [t|]; [|reflexivity].
  destruct (String.eqb t "join_room").
  { destruct (OMap.get c (clients s)) as [client|] eqn:Hc;
      [|unfold handleJoinRoom; now rewrite Hc].
    destruct (truthy (WebSocketMessage.roomId msg)
              && truthy (WebSocketMessage.userId msg)
              && truthy (WebSocketMessage.username msg)) eqn:Hv;
      [|unfold handleJoinRoom; now rewrite Hc, Hv].
    apply andb_prop in Hv. destruct Hv as [Hv Hn].
    apply andb_prop in Hv. destruct Hv as [HB Hu].
    destruct (WebSocketMessage.roomId msg) as [B|] eqn:EB; [|discriminate].
    destruct (WebSocketMessage.userId msg) as [u|] eqn:Eu; [|discriminate].
    destruct (WebSocketMessage.username msg) as [n|] eqn:En; [|discriminate].
    apply truthy_Some in HB, Hu, Hn.
    rewrite (handleJoinRoom_fields now c msg B u n s EB Eu En).
    rewrite (handleJoinRoom_leaveFirst now c B u n s client Hc HB Hu Hn).
    cbv zeta. cbn [fst messageRateLimiter afterEnter].
    now apply limiter_leaveFirst. }
  destruct (String.eqb t "message").
  { unfold handleChatMessage.
    destruct (OMap.get c (clients s)) as [client|]; [|reflexivity].
    destruct (WebSocketMessage.data msg) as [data|]; [|reflexivity].
    destruct (negb _); [reflexivity|]. cbv zeta.
    destruct (OMap.get _ (rooms s)) as [room|]; [|reflexivity].
    now rewrite andThen_silent_l, broadcastToRoom_spec. }
  destruct (String.eqb t "typing").
  { unfold handleTyping.
    destruct (OMap.get c (clients s)) as [client|]; [|reflexivity].
    destruct (negb _); [reflexivity|]. cbv zeta.
    destruct (OMap.get _ (rooms s)); [|reflexivity].
    now rewrite broadcastToRoom_spec. }
  destruct (String.eqb t "ping"); [|reflexivity].
  unfold handlePing. destruct (OMap.get c (clients s)); [|reflexivity].
  now rewrite andThen_silent_l, sendToClient_spec.
Qed.

(** C9, amended. Standalone server: a frame that does not parse is
    answered "Invalid message format" and is not counted by the limiter.
    A parsed frame of a registered client is checked, before anything else,
    against the attempts stored under the key made of its client id and the
    text of its type.  When the attempts of the last minute under that key
    have reached the limit, the only effect is an error frame "Rate limit
    exceeded" to that client (when its transport is open): registry, rooms
    and limiter are unchanged.  Otherwise the instant is recorded under that
    key and the frame is dispatched on its type.  The count is per client
    and per type: for client ids without a colon (as [uuidv4()] draws them),
    whatever the verdict, the frame leaves untouched what is stored for any
    other client and for any other type of the same client. *)
Theorem rate_limit_per_connection_and_type now fresh c msg s client :
  OMap.get c (clients s) = Some client ->
  let limiter := messageRateLimiter s in
  let key := rateLimitKey c msg in
  let valid := RateLimiter.validAttempts now key limiter in
  let result := handleMessage now fresh c (Parsed msg) s in
  ((RateLimiter.maxAttempts limiter <= List.length valid)%nat ->
   result =
   (s, if ClientConnection.ws client
       then [(c, error "Rate limit exceeded")] else []))
  /\ ((List.length valid < RateLimiter.maxAttempts limiter)%nat ->
      result =
      dispatch now fresh c msg
        (mkState (clients s) (rooms s)
           (RateLimiter.mk (RateLimiter.maxAttempts limiter)
              (RateLimiter.windowMs limiter)
              (OMap.set key (valid ++ [now]) (RateLimiter.attempts limiter))))
      /\ stored key (messageRateLimiter (fst result)) = valid ++ [now])
  /\ (forall c' msg',
        noColon c = true -> noColon c' = true ->
        c' <> c \/ typeText msg' <> typeText msg ->
        stored (rateLimitKey c' msg') (messageRateLimiter (fst result))
        = stored (rateLimitKey c' msg') limiter)
  /\ handleMessage now fresh c Unparsable s
     = (s, if ClientConnection.ws client
           then [(c, error "Invalid message format")] else []).
Proof.
  intros Hc limiter key valid result.
  destruct (ServerFrames.handleMessage_limited now fresh c msg s client Hc)
    as [Hrefused Hallowed].
  fold limiter key valid result in Hrefused, Hallowed.
  split; [exact Hrefused|]. split; [|split].
  - intros Hlt. split; [exact (Hallowed Hlt)|].
    rewrite (Hallowed Hlt), limiter_dispatch. cbn [messageRateLimiter].
    unfold stored. cbn [RateLimiter.attempts].
    now rewrite OMapFacts.get_set_eq.
  - intros c' msg' Hn Hn' Hother.
    assert (Hk : key <> rateLimitKey c' msg').
    { intros E. symmetry in E.
      destruct (rateLimitKey_injective c' c msg' msg Hn' Hn E) as [E1 E2].
      destruct Hother as [H|H]; contradiction. }
    destruct (Nat.le_gt_cases (RateLimiter.maxAttempts limiter) (List.length valid))
      as [Hle|Hlt].
    + now rewrite (Hrefused Hle).
    + rewrite (Hallowed Hlt), limiter_dispatch. cbn [messageRateLimiter].
      unfold stored. cbn [RateLimiter.attempts].
      now rewrite OMapFacts.get_set_ne.
  - rewrite ServerFrames.handleMessage_unparsable.
    now rewrite (ServerFrames.isOpen_client s c client Hc).
Qed.

Lemma rate_limit_per_connection_and_type_witness :
  handleMessage 20 "f" "A" ServerExamples.pingFrame ServerScenarios.tenPings
  = (ServerScenarios.tenPings, [("A", error "Rate limit exceeded")])
  /\ stored "A:message"
       (messageRateLimiter
          (fst (handleMessage 20 "f" "A" ServerExamples.pingFrame
                  ServerScenarios.tenPings)))
     = stored "A:message" (messageRateLimiter ServerScenarios.tenPings)
  /\ fst (RateLimiter.isAllowed 20 "A:message"
            (messageRateLimiter ServerScenarios.tenPings)) = true.
Proof.
  assert (H : (RateLimiter.maxAttempts (messageRateLimiter ServerScenarios.tenPings)
               <= List.length
                    (RateLimiter.validAttempts 20
                       (rateLimitKey "A"
                          (WebSocketMessage.mk (Some "ping") None None None None None))
                       (messageRateLimiter ServerScenarios.tenPings)))%nat)
    by (vm_compute; lia).
  pose proof (@rate_limit_per_connection_and_type 20 "f" "A"
                (WebSocketMessage.mk (Some "ping") None None None None None)
                ServerScenarios.tenPings
                (ClientConnection.mk "A" true (Some "ua") (Some "alice")
                   (Some "r1") 19 true) eq_refl) as T.
  cbv zeta in T. destruct T as (T1 & _ & T3 & _).
  split; [exact (T1 H)|]. split; [|vm_compute; reflexivity].
  assert (Hk : typeText (chatFrame [])
               <> typeText (WebSocketMessage.mk (Some "ping") None None None None None))
    by (vm_compute; discriminate).
  pose proof (T3 "A" (chatFrame []) eq_refl eq_refl (or_intror Hk)) as H3.
  vm_compute in H3. vm_compute. exact H3.
Defined.

End RateLimitKeys.

(** ** Eviction of silent clients: who is told *)

Module SilentClientsNotice.
Import Server ServerSpec ServerSpecMore ServerFacts ServerBroadcast ServerRooms.
Import ServerInvariant ServerJoin ServerSweep ServerReachable ServerHeartbeat.

(** C5, as stated, fails when the room of the silent client is idle: the
    room loop of the same cleanup run deletes it first, the client is then
    evicted without a broadcast, and the member that stays registered and
    open is told nothing. *)
Lemma silent_client_unannounced :
  members staleRoom "r1" = ["A"; "B"]
  /\ option_map ClientConnection.lastPing (OMap.get "A" (clients staleRoom))
     = Some 0
  /\ OMap.get "A" (clients (fst (cleanup 3600010 staleRoom))) = None
  /\ isOpen (fst (cleanup 3600010 staleRoom)) "B" = true
  /\ snd (cleanup 3600010 staleRoom) = [].
Proof. repeat split; vm_compute; reflexivity. Qed.

Lemma cleanupClients_body now s :
  cleanupClients now s = forEach (OMap.keys (clients s)) (cleanupBody now) s.
Proof. reflexivity. Qed.

(** The client loop of the cleanup keeps the members it does not evict. *)
Lemma cleanupClients_members now ks :
  forall s, wf s ->
    let s' := fst (forEach ks (cleanupBody now) s) in
    wf s'
    /\ (forall d, OMap.get d (clients s) = None -> OMap.get d (clients s') = None)
    /\ (forall r d, In d (members s r) -> OMap.get d (clients s') <> None ->
                    In d (members s' r)).
Proof.
  induction ks as [|k ks IH]; intros s W.
  - simpl. split; [exact W|]. split; auto.
  - cbn [forEach]. unfold andThen.
    assert (H1 : let s1 := fst (cleanupBody now k s) in
                 wf s1
                 /\ (forall d, OMap.get d (clients s) = None ->
                               OMap.get d (clients s1) = None)
                 /\ (forall r d, In d (members s r) ->
                                 OMap.get d (clients s1) <> None ->
                                 In d (members s1 r))).
    { unfold cleanupBody. destruct (OMap.get k (clients s)) as [client|] eqn:Hk;
        [|cbn [fst]; split; [exact W|split; auto]].
      destruct (_ >? _); [|cbn [fst]; split; [exact W|split; auto]].
      destruct (handleDisconnect_state now k s client W Hk)
        as (W1 & Hgone & Hother & Hm).
      cbv zeta. split; [exact W1|]. split.
      - intros d Hd. destruct (String.eqb_spec d k) as [->|Hne];
          [exact Hgone|now rewrite (Hother d Hne)].
      - intros r d Hd Hreg. rewrite Hm. apply OSetFacts.in_delete.
        split; [|exact Hd]. intros ->. now apply Hreg. }
    cbv zeta in H1. destruct H1 as (W1 & Hn1 & Hm1).
    destruct (cleanupBody now k s) as [s1 o1]. cbn [fst] in W1, Hn1, Hm1.
    specialize (IH s1 W1). cbv zeta in IH. destruct IH as (W2 & Hn2 & Hm2).
    destruct (forEach ks (cleanupBody now) s1) as [s2 o2]. cbn [fst] in *.
    split; [exact W2|]. split; [auto|].
    intros r d Hd Hreg. apply Hm2; [|exact Hreg]. apply Hm1; [exact Hd|].
    intros E. apply Hreg. now apply Hn2.
Qed.

Lemma rooms_leaveFirst_absent now c client s A :
  OMap.get c (clients s) = Some client ->
  OMap.get A (rooms s) = None ->
  OMap.get A (rooms (fst (leaveFirst now c client s))) = None.
Proof.
  intros Hc HA. unfold leaveFirst.
  destruct (truthy (ClientConnection.roomId client)); [|exact HA].
  destruct (OMap.get (orElse (ClientConnection.roomId client) "") (rooms s))
    as [room|] eqn:Hr.
  - rewrite (leaveRoom_spec now c _ s client room Hc Hr). cbn [fst rooms afterLeave].
    now apply roomsAfterLeave_none.
  - now rewrite leaveRoom_no_room.
Qed.

Lemma leaveNotices_absent now c client s A d f :
  OMap.get A (rooms s) = None ->
  In (d, f) (leaveNotices now c client s) -> isUserLeft A f = false.
Proof.
  intros HA. unfold leaveNotices. destruct (_ && _); [|contradiction].
  cbv zeta. unfold fanOut. rewrite in_map_iff. intros (x & E & Hx).
  injection E as _ <-. apply filter_In in Hx. destruct Hx as [Hx _].
  apply OSetFacts.in_delete in Hx. destruct Hx as [_ Hx].
  simpl. apply String.eqb_neq. intros E. rewrite E in Hx.
  unfold members in Hx. now rewrite HA in Hx.
Qed.

(** Once a room is out of the directory the client loop writes no
    [user_left] for it. *)
Lemma cleanupClients_absent now A ks :
  forall s, OMap.get A (rooms s) = None ->
    OMap.get A (rooms (fst (forEach ks (cleanupBody now) s))) = None
    /\ (forall d f, In (d, f) (snd (forEach ks (cleanupBody now) s)) ->
                    isUserLeft A f = false).
Proof.
  induction ks as [|k ks IH]; intros s HA.
  - simpl. split; [exact HA|contradiction].
  - cbn [forEach]. unfold andThen.
    assert (H1 : OMap.get A (rooms (fst (cleanupBody now k s))) = None
                 /\ (forall d f, In (d, f) (snd (cleanupBody now k s)) ->
                                 isUserLeft A f = false)).
    { unfold cleanupBody. destruct (OMap.get k (clients s)) as [client|] eqn:Hk;
        [|split; [exact HA|contradiction]].
      destruct (_ >? _); [|split; [exact HA|contradiction]].
      rewrite (handleDisconnect_spec now k s client Hk). cbn [fst snd]. split.
      - cbn [rooms withClients]. now apply rooms_leaveFirst_absent.
      - intros d f. now apply leaveNotices_absent. }
    destruct H1 as (HA1 & Ho1).
    destruct (cleanupBody now k s) as [s1 o1]. cbn [fst snd] in HA1, Ho1.
    destruct (IH s1 HA1) as (HA2 & Ho2).
    destruct (forEach ks (cleanupBody now) s1) as [s2 o2]. cbn [fst snd] in *.
    split; [exact HA2|]. intros d f H. apply in_app_or in H. destruct H; eauto.
Qed.

(** Nor does the heartbeat, which leaves the directory to the leaves. *)
Lemma heartbeat_absent now A ks :
  forall s, OMap.get A (rooms s) = None ->
    OMap.get A (rooms (fst (forEach ks (heartbeatBody now) s))) = None
    /\ (forall d f, In (d, f) (snd (forEach ks (heartbeatBody now) s)) ->
                    isUserLeft A f = false).
Proof.
  induction ks as [|k ks IH]; intros s HA.
  - simpl. split; [exact HA|contradiction].
  - cbn [forEach]. unfold andThen.
    assert (H1 : OMap.get A (rooms (fst (heartbeatBody now k s))) = None
                 /\ (forall d f, In (d, f) (snd (heartbeatBody now k s)) ->
                                 isUserLeft A f = false)).
    { unfold heartbeatBody. destruct (OMap.get k (clients s)) as [client|] eqn:Hk;
        [|split; [exact HA|contradiction]].
      destruct (negb (ClientConnection.isAlive client)); rewrite andThen_silent_l.
      - assert (Hk' : OMap.get k (clients (withClients (OMap.alter (setWs false) k) s))
                      = Some (setWs false client)).
        { rewrite get_alter_client, String.eqb_refl. now rewrite Hk. }
        rewrite (handleDisconnect_spec now k _ (setWs false client) Hk').
        cbn [fst snd]. split.
        + cbn [rooms withClients]. now apply rooms_leaveFirst_absent.
        + intros d f. now apply leaveNotices_absent.
      - destruct (ClientConnection.ws client); cbn [fst snd];
          (split; [exact HA|]); [|contradiction].
        intros d f [E|[]]. now injection E as _ <-. }
    destruct H1 as (HA1 & Ho1).
    destruct (heartbeatBody now k s) as [s1 o1]. cbn [fst snd] in HA1, Ho1.
    destruct (IH s1 HA1) as (HA2 & Ho2).
    destruct (forEach ks (heartbeatBody now) s1) as [s2 o2]. cbn [fst snd] in *.
    split; [exact HA2|]. intros d f H. apply in_app_or in H. destruct H; eauto.
Qed.

(** C5, amended. In a consistent state, take a registered client. If its
    last pong is more than 60 seconds old when the cleanup timer runs, or if
    its [isAlive] flag is down when the heartbeat timer runs (no pong since
    the tick before), that run evicts it: the client is no longer in the
    registry nor in the membership of any room, though it never asked to
    leave, and the state stays consistent; the cleanup keeps every client
    that is not silent.  A [user_left] frame for it is written to every
    client that the directory lists as a member of its room when the timer
    runs, that the same run does not evict and whose transport is open: at
    a heartbeat always, at a cleanup when the room has been active within
    the last hour.  When the room has been idle for more than an hour the
    cleanup deletes it first and writes no [user_left] for that room at
    all; and no timer writes a [user_left] for a room that is not in the
    directory when it runs (an earlier cleanup deleted it): the members the
    room had are then told nothing. *)
Theorem silent_client_evicted_and_announced now s c client :
  wf s ->
  OMap.get c (clients s) = Some client ->
  (now - ClientConnection.lastPing client > 60000 ->
   let result := cleanup now s in
   let s' := fst result in
   OMap.get c (clients s') = None
   /\ (forall k, ~ In c (members s' k))
   /\ (forall d x,
         OMap.get d (clients s) = Some x ->
         now - ClientConnection.lastPing x <= 60000 ->
         OMap.get d (clients s') = Some x)
   /\ (forall A u n room,
         ClientConnection.roomId client = Some A ->
         ClientConnection.userId client = Some u ->
         ClientConnection.username client = Some n ->
         OMap.get A (rooms s) = Some room ->
         (inactive now room = false ->
          forall d, In d (members s A) -> isOpen s' d = true ->
                    In (d, user_left A u n now) (snd result))
         /\ (inactive now room = true ->
             forall d f, In (d, f) (snd result) -> isUserLeft A f = false))
   /\ (forall A, OMap.get A (rooms s) = None ->
                 forall d f, In (d, f) (snd result) -> isUserLeft A f = false)
   /\ wf s')
  /\ (ClientConnection.isAlive client = false ->
      let result := heartbeat now s in
      let s' := fst result in
      OMap.get c (clients s') = None
      /\ (forall k, ~ In c (members s' k))
      /\ (forall A u n d,
            ClientConnection.roomId client = Some A ->
            ClientConnection.userId client = Some u ->
            ClientConnection.username client = Some n ->
            In d (members s A) -> isOpen s' d = true ->
            In (d, user_left A u n now) (snd result))
      /\ (forall A, OMap.get A (rooms s) = None ->
                    forall d f, In (d, f) (snd result) -> isUserLeft A f = false)
      /\ wf s').
Proof.
  intros W Hc.
  destruct (SilentClients.eviction_by_tick now s c client W Hc) as [Hclean Hbeat].
  assert (Hreg : forall s0 d, isOpen s0 d = true -> OMap.get d (clients s0) <> None).
  { intros s0 d. unfold isOpen. destruct (OMap.get d (clients s0)); discriminate. }
  split.
  - intros Hsilent. specialize (Hclean Hsilent). cbv zeta in Hclean |- *.
    destruct Hclean as (Hgone & Hno & Hout & Hkeep & W').
    split; [exact Hgone|]. split; [exact Hno|]. split; [exact Hkeep|].
    destruct (IdleRooms.cleanupRooms_spec now s) as (Ho1 & Hc1 & _ & Hr1).
    pose proof (wf_cleanupRooms now s W) as W1.
    split; [|split; [|exact W']].
    2:{ intros A HA. unfold cleanup, andThen.
        destruct (cleanupRooms now s) as [s1 o1]. cbn [fst snd] in Ho1, Hc1, Hr1, W1.
        subst o1. rewrite cleanupClients_body.
        assert (HA1 : OMap.get A (rooms s1) = None) by (now rewrite Hr1, HA).
        destruct (cleanupClients_absent now A (OMap.keys (clients s1)) s1 HA1)
          as (_ & Hq).
        destruct (forEach (OMap.keys (clients s1)) (cleanupBody now) s1) as [s2 o2].
        cbn [snd app] in *. exact Hq. }
    intros A u n room HA Hu Hn Hroom.
    split.
    + intros Hact d Hd Hopen. apply (Hout A u n d HA Hu Hn); [|exact Hopen].
      revert Hopen. unfold cleanup, andThen.
      destruct (cleanupRooms now s) as [s1 o1]. cbn [fst snd] in Ho1, Hc1, Hr1, W1.
      rewrite cleanupClients_body.
      destruct (cleanupClients_members now (OMap.keys (clients s1)) s1 W1)
        as (_ & _ & Hm).
      destruct (forEach (OMap.keys (clients s1)) (cleanupBody now) s1) as [s2 o2].
      cbn [fst] in *. intros Hopen. apply Hm; [|now apply Hreg].
      unfold members in *. rewrite Hr1, Hroom, Hact. now rewrite Hroom in Hd.
    + intros Hidle. unfold cleanup, andThen.
      destruct (cleanupRooms now s) as [s1 o1]. cbn [fst snd] in Ho1, Hc1, Hr1, W1.
      subst o1. rewrite cleanupClients_body.
      assert (HA1 : OMap.get A (rooms s1) = None)
        by (now rewrite Hr1, Hroom, Hidle).
      destruct (cleanupClients_absent now A (OMap.keys (clients s1)) s1 HA1)
        as (_ & Hq).
      destruct (forEach (OMap.keys (clients s1)) (cleanupBody now) s1) as [s2 o2].
      cbn [snd app] in *. exact Hq.
  - intros Hdead. specialize (Hbeat Hdead). cbv zeta in Hbeat |- *.
    destruct Hbeat as (Hgone & Hno & Hout & W').
    split; [exact Hgone|]. split; [exact Hno|]. split; [|split; [|exact W']].
    2:{ intros A HA. rewrite HeartbeatRounds.heartbeat_body.
        exact (proj2 (heartbeat_absent now A (OMap.keys (clients s)) s HA)). }
    intros A u n d HA Hu Hn Hd Hopen.
    apply (Hout A u n d HA Hu Hn); [|exact Hopen].
    destruct (HeartbeatRounds.heartbeat_round now (OMap.keys (clients s)) s W)
      as (_ & _ & _ & _ & _ & Hm & _).
    rewrite HeartbeatRounds.heartbeat_body. apply Hm; [exact Hd|].
    rewrite <- HeartbeatRounds.heartbeat_body. now apply Hreg.
Qed.

Lemma silent_client_evicted_and_announced_witness :
  OMap.get "A" (clients (fst (cleanup 70000 ServerScenarios.oneSilent))) = None
  /\ members ServerScenarios.oneSilent "r1" = ["A"; "B"]
  /\ members (fst (cleanup 70000 ServerScenarios.oneSilent)) "r1" = ["B"]
  /\ In ("B", user_left "r1" "ua" "alice" 70000)
       (snd (cleanup 70000 ServerScenarios.oneSilent)).
Proof.
  pose proof (proj1 (@silent_client_evicted_and_announced 70000
                       ServerScenarios.oneSilent "A"
                       (ClientConnection.mk "A" true (Some "ua") (Some "alice")
                          (Some "r1") 0 true)
                       SilentClients.wf_oneSilent eq_refl) ltac:(simpl; lia)) as H.
  cbv zeta in H. destruct H as (H1 & _ & _ & H4 & _).
  assert (HR : OMap.get "r1" (rooms ServerScenarios.oneSilent)
               = Some (Room.mk "r1" ["A"; "B"] 2 3)) by (vm_compute; reflexivity).
  assert (HM : In "B" (members ServerScenarios.oneSilent "r1"))
    by (vm_compute; tauto).
  assert (HO : isOpen (fst (cleanup 70000 ServerScenarios.oneSilent)) "B" = true)
    by (vm_compute; reflexivity).
  split; [exact H1|]. split; [vm_compute; reflexivity|].
  split; [vm_compute; reflexivity|].
  exact (proj1 (H4 "r1" "ua" "alice" (Room.mk "r1" ["A"; "B"] 2 3)
                  eq_refl eq_refl eq_refl HR) eq_refl "B" HM HO).
Defined.

End SilentClientsNotice.
